(** * S6Exporter: a shallow embedding of src/openrct2/rct2/S6Exporter.cpp

    The exporter flattens the live park state into the fixed-layout S6
    record [_s6] and then persists that record as a sequence of Sawyer
    chunks followed by a checksum.  This development embeds the routines
    of S6Exporter.cpp as Rocq functions and proves properties of them.

    Conventions.
    - Fixed-width C++ integers are integers of [Z]; every conversion to a
      narrower or differently signed type is written out ([uint8],
      [uint16], [uint32], [int16], [int32]).
    - Fixed-size arrays of the S6 record are lists (read with [!!],
      written with [<[i:=x]>] and [alter]); arrays of the live state are
      total functions of the index, since the loops of the exporter only
      ever read them inside their bounds.
    - Constants, types and helpers declared outside S6Exporter.cpp are
      parameters, gathered in the classes [LegacyConstants] and
      [Collaborators] and, for the campaigns, the sprites and
      [scenario_save], in [MarketingConstants], [SpriteConstants],
      [SpriteCollaborators] and [SaveCollaborators]. *)

From stdpp Require Import base numbers list sorting.
From Stdlib Require Import ZArith Lia.

Local Open Scope Z_scope.

(** ** Fixed-width integers *)

Definition uint8 (x : Z) : Z := x mod 2 ^ 8.
Definition uint16 (x : Z) : Z := x mod 2 ^ 16.
Definition uint32 (x : Z) : Z := x mod 2 ^ 32.
Definition int16 (x : Z) : Z := (x + 2 ^ 15) mod 2 ^ 16 - 2 ^ 15.
Definition int32 (x : Z) : Z := (x + 2 ^ 31) mod 2 ^ 32 - 2 ^ 31.

(** Modelled from the spec: [ror32] (declared with the utility headers,
    not in S6Exporter.cpp) is the rotate-right of a 32-bit word,
    [(x >> shift) | (x << (32 - shift))] on [uint32_t]. *)
Definition ror32 (x shift : Z) : Z :=
  Z.lor (Z.shiftr x shift) (uint32 (Z.shiftl x (32 - shift))).

(** ** Constants of the legacy format

    All of them are declared in headers (rct12/RCT12.h, rct2/RCT2.h,
    ride/Ride.h, world/Location.hpp, ...); the exporter only names them. *)

Class LegacyConstants := {
  RCT12_MAX_RIDES_IN_PARK : nat;
  RCT12_RIDE_MEASUREMENT_MAX_ITEMS : nat;
  RCT12_MAX_PEEP_SPAWNS : nat;
  RCT12_MAX_PARK_ENTRANCES : nat;
  RCT12_MAX_STATIONS_PER_RIDE : nat;
  RCT2_MAX_CARS_PER_TRAIN : nat;
  RCT2_MAX_VEHICLES_PER_RIDE : nat;
  RCT2_CUSTOMER_HISTORY_SIZE : nat;
  RCT2_DOWNTIME_HISTORY_SIZE : nat;
  RCT12_NUM_COLOUR_SCHEMES : nat;
  RIDE_TYPE_COUNT : nat;
  MAX_RIDE_OBJECTS : nat;
  RCT2_MAX_RESEARCHED_SCENERY_ITEMS : nat;
  (* number of 32-bit words of the three researched-flag arrays of _s6 *)
  researched_ride_types_words : nat;
  researched_ride_entries_words : nat;
  researched_scenery_items_words : nat;
  (* std::size of the four sample arrays of a ride measurement *)
  RideMeasurement_MAX_ITEMS : nat;
  RCT12_MAX_GOLF_HOLES : Z;
  RCT12_MAX_INVERSIONS : Z;
  RIDE_TYPE_NULL : Z;
  RIDE_TYPE_MINI_GOLF : Z;
  PEEP_SPAWN_UNDEFINED : Z;
  LOCATION_NULL : Z;
  RCT_XY8_UNDEFINED : Z;
  S6_TYPE_SAVEDGAME : Z;
  S6_TYPE_SCENARIO : Z;
  S6_RCT2_VERSION : Z;
  S6_MAGIC_NUMBER : Z;
}.

(** The values the constants have in the legacy format; used to run the
    exporter on concrete parks. *)
Definition rct2_constants : LegacyConstants := {|
  RCT12_MAX_RIDES_IN_PARK := 255;
  RCT12_RIDE_MEASUREMENT_MAX_ITEMS := 8;
  RCT12_MAX_PEEP_SPAWNS := 2;
  RCT12_MAX_PARK_ENTRANCES := 4;
  RCT12_MAX_STATIONS_PER_RIDE := 4;
  RCT2_MAX_CARS_PER_TRAIN := 32;
  RCT2_MAX_VEHICLES_PER_RIDE := 32;
  RCT2_CUSTOMER_HISTORY_SIZE := 10;
  RCT2_DOWNTIME_HISTORY_SIZE := 8;
  RCT12_NUM_COLOUR_SCHEMES := 4;
  RIDE_TYPE_COUNT := 91;
  MAX_RIDE_OBJECTS := 128;
  RCT2_MAX_RESEARCHED_SCENERY_ITEMS := 1792;
  researched_ride_types_words := 8;
  researched_ride_entries_words := 8;
  researched_scenery_items_words := 56;
  RideMeasurement_MAX_ITEMS := 4800;
  RCT12_MAX_GOLF_HOLES := 31;
  RCT12_MAX_INVERSIONS := 31;
  RIDE_TYPE_NULL := 255;
  RIDE_TYPE_MINI_GOLF := 71;
  PEEP_SPAWN_UNDEFINED := 0xFFFF;
  LOCATION_NULL := -32768;
  RCT_XY8_UNDEFINED := 0xFFFF;
  S6_TYPE_SAVEDGAME := 0;
  S6_TYPE_SCENARIO := 1;
  S6_RCT2_VERSION := 120001;
  S6_MAGIC_NUMBER := 0x00031144;
|}.

(** ** Coordinates *)

(** CoordsXYZD and TileCoordsXYZD: three [int32_t] and a direction. *)
Module CoordsXYZD.
Record t := mk { x : Z; y : Z; z : Z; direction : Z }.
End CoordsXYZD.
Definition CoordsXYZD := CoordsXYZD.t.
Definition TileCoordsXYZD := CoordsXYZD.t.
Definition PeepSpawn := CoordsXYZD.t.

(** rct12_peep_spawn: [uint16_t x, y; uint8_t z, direction]. *)
Module rct12_peep_spawn.
Record t := mk { x : Z; y : Z; z : Z; direction : Z }.
End rct12_peep_spawn.
Definition rct12_peep_spawn := rct12_peep_spawn.t.

(** LocationXY8 is a union of [struct { uint8_t x, y; }] and
    [uint16_t xy]; it is represented by its 16-bit value [xy], the byte
    [x] being the low one. *)
Definition LocationXY8 := Z.
Definition LocationXY8_of (x y : Z) : LocationXY8 := Z.lor x (Z.shiftl y 8).

(** ** Ride measurements *)

Module RideMeasurement.
Record t := mk {
    (* [Ride* ride], represented by the [id] of the ride it points to *)
    ride : nat;
    flags : Z;
    last_use_tick : Z;
    num_items : Z;
    current_item : Z;
    vehicle_index : Z;
    current_station : Z;
    velocity : list Z;
    altitude : list Z;
    vertical : list Z;
    lateral : list Z;
  }.
End RideMeasurement.
Definition RideMeasurement := RideMeasurement.t.

Module RCT12RideMeasurement.
Record t := mk {
    ride_index : Z;
    flags : Z;
    last_use_tick : Z;
    num_items : Z;
    current_item : Z;
    vehicle_index : Z;
    current_station : Z;
    velocity : list Z;
    altitude : list Z;
    vertical : list Z;
    lateral : list Z;
  }.
Definition set_ride_index (v : Z) (m : t) : t :=
    mk v (flags m) (last_use_tick m) (num_items m) (current_item m)
       (vehicle_index m) (current_station m) (velocity m) (altitude m)
       (vertical m) (lateral m).
End RCT12RideMeasurement.
Definition RCT12RideMeasurement := RCT12RideMeasurement.t.

(** ** Parts of a live ride *)

Module RideStation.
Record t := mk {
    Start : LocationXY8;
    Height : Z;
    Length : Z;
    Depart : Z;
    TrainAtStation : Z;
    Entrance : TileCoordsXYZD;
    Exit : TileCoordsXYZD;
    SegmentLength : Z;
    SegmentTime : Z;
    QueueTime : Z;
    QueueLength : Z;
    LastPeepInQueue : Z;
  }.
End RideStation.
Definition RideStation := RideStation.t.

Module VehicleColour.
Record t := mk { Body : Z; Trim : Z; Ternary : Z }.
End VehicleColour.

Module TrackColour.
Record t := mk { main : Z; additional : Z; supports : Z }.
End TrackColour.

Module rct_vehicle_colour.
Record t := mk { body_colour : Z; trim_colour : Z }.
End rct_vehicle_colour.

(** ** The live ride (ride/Ride.h), restricted to what the exporter reads *)
Module Ride.
Record t := mk {
    id : nat;
    type : Z;
    subtype : Z;
    mode : Z;
    colour_scheme_type : Z;
    vehicle_colours : nat -> VehicleColour.t;
    status : Z;
    name : Z;
    name_arguments : Z;
    overall_view : Z;
    stations : nat -> RideStation.t;
    vehicles : nat -> Z;
    depart_flags : Z;
    num_stations : Z;
    num_vehicles : Z;
    num_cars_per_train : Z;
    proposed_num_vehicles : Z;
    proposed_num_cars_per_train : Z;
    max_trains : Z;
    min_max_cars_per_train : Z;
    min_waiting_time : Z;
    max_waiting_time : Z;
    operation_option : Z;
    boat_hire_return_direction : Z;
    boat_hire_return_position : Z;
    special_track_elements : Z;
    max_speed : Z;
    average_speed : Z;
    current_test_segment : Z;
    average_speed_test_timeout : Z;
    max_positive_vertical_g : Z;
    max_negative_vertical_g : Z;
    max_lateral_g : Z;
    previous_vertical_g : Z;
    previous_lateral_g : Z;
    testing_flags : Z;
    cur_test_track_location : Z;
    turn_count_default : Z;
    turn_count_banked : Z;
    turn_count_sloped : Z;
    holes : Z;
    inversions : Z;
    sheltered_eighths : Z;
    drops : Z;
    start_drop_height : Z;
    highest_drop_height : Z;
    sheltered_length : Z;
    var_11C : Z;
    num_sheltered_sections : Z;
    cur_test_track_z : Z;
    cur_num_customers : Z;
    num_customers_timeout : Z;
    num_customers : nat -> Z;
    price : Z;
    chairlift_bullwheel_location : nat -> Z;
    chairlift_bullwheel_z : nat -> Z;
    ratings : Z;
    value : Z;
    chairlift_bullwheel_rotation : Z;
    satisfaction : Z;
    satisfaction_time_out : Z;
    satisfaction_next : Z;
    window_invalidate_flags : Z;
    total_customers : Z;
    total_profit : Z;
    popularity : Z;
    popularity_time_out : Z;
    popularity_next : Z;
    num_riders : Z;
    music_tune_id : Z;
    slide_in_use : Z;
    slide_peep : Z;
    slide_peep_t_shirt_colour : Z;
    spiral_slide_progress : Z;
    build_date : Z;
    upkeep_cost : Z;
    race_winner : Z;
    music_position : Z;
    breakdown_reason_pending : Z;
    mechanic_status : Z;
    mechanic : Z;
    inspection_station : Z;
    broken_vehicle : Z;
    broken_car : Z;
    breakdown_reason : Z;
    price_secondary : Z;
    reliability : Z;
    unreliability_factor : Z;
    downtime : Z;
    inspection_interval : Z;
    last_inspection : Z;
    downtime_history : nat -> Z;
    no_primary_items_sold : Z;
    no_secondary_items_sold : Z;
    breakdown_sound_modifier : Z;
    not_fixed_timeout : Z;
    last_crash_type : Z;
    connected_message_throttle : Z;
    income_per_hour : Z;
    profit : Z;
    track_colour : nat -> TrackColour.t;
    music : Z;
    entrance_style : Z;
    vehicle_change_timeout : Z;
    num_block_brakes : Z;
    lift_hill_speed : Z;
    guests_favourite : Z;
    lifecycle_flags : Z;
    total_air_time : Z;
    current_test_station : Z;
    num_circuits : Z;
    cable_lift_x : Z;
    cable_lift_y : Z;
    cable_lift_z : Z;
    cable_lift : Z;
    measurement : option RideMeasurement.t;
  }.
End Ride.
Definition Ride := Ride.t.

(** ** The legacy ride record (rct2/RCT2.h), padding left out *)
Module rct2_ride.
Record t := mk {
    type : Z;
    subtype : Z;
    mode : Z;
    colour_scheme_type : Z;
    vehicle_colours : list rct_vehicle_colour.t;
    status : Z;
    name : Z;
    name_arguments : Z;
    overall_view : Z;
    station_starts : list Z;
    station_heights : list Z;
    station_length : list Z;
    station_depart : list Z;
    train_at_station : list Z;
    entrances : list Z;
    exits : list Z;
    last_peep_in_queue : list Z;
    length : list Z;
    time : list Z;
    queue_time : list Z;
    queue_length : list Z;
    vehicles : list Z;
    depart_flags : Z;
    num_stations : Z;
    num_vehicles : Z;
    num_cars_per_train : Z;
    proposed_num_vehicles : Z;
    proposed_num_cars_per_train : Z;
    max_trains : Z;
    min_max_cars_per_train : Z;
    min_waiting_time : Z;
    max_waiting_time : Z;
    operation_option : Z;
    boat_hire_return_direction : Z;
    boat_hire_return_position : Z;
    special_track_elements : Z;
    max_speed : Z;
    average_speed : Z;
    current_test_segment : Z;
    average_speed_test_timeout : Z;
    max_positive_vertical_g : Z;
    max_negative_vertical_g : Z;
    max_lateral_g : Z;
    previous_vertical_g : Z;
    previous_lateral_g : Z;
    testing_flags : Z;
    cur_test_track_location : Z;
    turn_count_default : Z;
    turn_count_banked : Z;
    turn_count_sloped : Z;
    inversions : Z;
    drops : Z;
    start_drop_height : Z;
    highest_drop_height : Z;
    sheltered_length : Z;
    var_11C : Z;
    num_sheltered_sections : Z;
    cur_test_track_z : Z;
    cur_num_customers : Z;
    num_customers_timeout : Z;
    num_customers : list Z;
    price : Z;
    chairlift_bullwheel_location : list Z;
    chairlift_bullwheel_z : list Z;
    ratings : Z;
    value : Z;
    chairlift_bullwheel_rotation : Z;
    satisfaction : Z;
    satisfaction_time_out : Z;
    satisfaction_next : Z;
    window_invalidate_flags : Z;
    total_customers : Z;
    total_profit : Z;
    popularity : Z;
    popularity_time_out : Z;
    popularity_next : Z;
    num_riders : Z;
    music_tune_id : Z;
    slide_in_use : Z;
    slide_peep : Z;
    slide_peep_t_shirt_colour : Z;
    spiral_slide_progress : Z;
    build_date : Z;
    upkeep_cost : Z;
    race_winner : Z;
    music_position : Z;
    breakdown_reason_pending : Z;
    mechanic_status : Z;
    mechanic : Z;
    inspection_station : Z;
    broken_vehicle : Z;
    broken_car : Z;
    breakdown_reason : Z;
    price_secondary : Z;
    reliability : Z;
    unreliability_factor : Z;
    downtime : Z;
    inspection_interval : Z;
    last_inspection : Z;
    downtime_history : list Z;
    no_primary_items_sold : Z;
    no_secondary_items_sold : Z;
    breakdown_sound_modifier : Z;
    not_fixed_timeout : Z;
    last_crash_type : Z;
    connected_message_throttle : Z;
    income_per_hour : Z;
    profit : Z;
    track_colour_main : list Z;
    track_colour_additional : list Z;
    track_colour_supports : list Z;
    music : Z;
    entrance_style : Z;
    vehicle_change_timeout : Z;
    num_block_brakes : Z;
    lift_hill_speed : Z;
    guests_favourite : Z;
    lifecycle_flags : Z;
    vehicle_colours_extended : list Z;
    total_air_time : Z;
    current_test_station : Z;
    num_circuits : Z;
    cable_lift_x : Z;
    cable_lift_y : Z;
    cable_lift_z : Z;
    cable_lift : Z;
    (* not assigned by ExportRide; see ExportRideMeasurements *)
    measurement_index : Z;
  }.

  (** [r.measurement_index = v] *)
Definition set_measurement_index (v : Z) (r : t) : t := {|
    type := type r;
    subtype := subtype r;
    mode := mode r;
    colour_scheme_type := colour_scheme_type r;
    vehicle_colours := vehicle_colours r;
    status := status r;
    name := name r;
    name_arguments := name_arguments r;
    overall_view := overall_view r;
    station_starts := station_starts r;
    station_heights := station_heights r;
    station_length := station_length r;
    station_depart := station_depart r;
    train_at_station := train_at_station r;
    entrances := entrances r;
    exits := exits r;
    last_peep_in_queue := last_peep_in_queue r;
    length := length r;
    time := time r;
    queue_time := queue_time r;
    queue_length := queue_length r;
    vehicles := vehicles r;
    depart_flags := depart_flags r;
    num_stations := num_stations r;
    num_vehicles := num_vehicles r;
    num_cars_per_train := num_cars_per_train r;
    proposed_num_vehicles := proposed_num_vehicles r;
    proposed_num_cars_per_train := proposed_num_cars_per_train r;
    max_trains := max_trains r;
    min_max_cars_per_train := min_max_cars_per_train r;
    min_waiting_time := min_waiting_time r;
    max_waiting_time := max_waiting_time r;
    operation_option := operation_option r;
    boat_hire_return_direction := boat_hire_return_direction r;
    boat_hire_return_position := boat_hire_return_position r;
    special_track_elements := special_track_elements r;
    max_speed := max_speed r;
    average_speed := average_speed r;
    current_test_segment := current_test_segment r;
    average_speed_test_timeout := average_speed_test_timeout r;
    max_positive_vertical_g := max_positive_vertical_g r;
    max_negative_vertical_g := max_negative_vertical_g r;
    max_lateral_g := max_lateral_g r;
    previous_vertical_g := previous_vertical_g r;
    previous_lateral_g := previous_lateral_g r;
    testing_flags := testing_flags r;
    cur_test_track_location := cur_test_track_location r;
    turn_count_default := turn_count_default r;
    turn_count_banked := turn_count_banked r;
    turn_count_sloped := turn_count_sloped r;
    inversions := inversions r;
    drops := drops r;
    start_drop_height := start_drop_height r;
    highest_drop_height := highest_drop_height r;
    sheltered_length := sheltered_length r;
    var_11C := var_11C r;
    num_sheltered_sections := num_sheltered_sections r;
    cur_test_track_z := cur_test_track_z r;
    cur_num_customers := cur_num_customers r;
    num_customers_timeout := num_customers_timeout r;
    num_customers := num_customers r;
    price := price r;
    chairlift_bullwheel_location := chairlift_bullwheel_location r;
    chairlift_bullwheel_z := chairlift_bullwheel_z r;
    ratings := ratings r;
    value := value r;
    chairlift_bullwheel_rotation := chairlift_bullwheel_rotation r;
    satisfaction := satisfaction r;
    satisfaction_time_out := satisfaction_time_out r;
    satisfaction_next := satisfaction_next r;
    window_invalidate_flags := window_invalidate_flags r;
    total_customers := total_customers r;
    total_profit := total_profit r;
    popularity := popularity r;
    popularity_time_out := popularity_time_out r;
    popularity_next := popularity_next r;
    num_riders := num_riders r;
    music_tune_id := music_tune_id r;
    slide_in_use := slide_in_use r;
    slide_peep := slide_peep r;
    slide_peep_t_shirt_colour := slide_peep_t_shirt_colour r;
    spiral_slide_progress := spiral_slide_progress r;
    build_date := build_date r;
    upkeep_cost := upkeep_cost r;
    race_winner := race_winner r;
    music_position := music_position r;
    breakdown_reason_pending := breakdown_reason_pending r;
    mechanic_status := mechanic_status r;
    mechanic := mechanic r;
    inspection_station := inspection_station r;
    broken_vehicle := broken_vehicle r;
    broken_car := broken_car r;
    breakdown_reason := breakdown_reason r;
    price_secondary := price_secondary r;
    reliability := reliability r;
    unreliability_factor := unreliability_factor r;
    downtime := downtime r;
    inspection_interval := inspection_interval r;
    last_inspection := last_inspection r;
    downtime_history := downtime_history r;
    no_primary_items_sold := no_primary_items_sold r;
    no_secondary_items_sold := no_secondary_items_sold r;
    breakdown_sound_modifier := breakdown_sound_modifier r;
    not_fixed_timeout := not_fixed_timeout r;
    last_crash_type := last_crash_type r;
    connected_message_throttle := connected_message_throttle r;
    income_per_hour := income_per_hour r;
    profit := profit r;
    track_colour_main := track_colour_main r;
    track_colour_additional := track_colour_additional r;
    track_colour_supports := track_colour_supports r;
    music := music r;
    entrance_style := entrance_style r;
    vehicle_change_timeout := vehicle_change_timeout r;
    num_block_brakes := num_block_brakes r;
    lift_hill_speed := lift_hill_speed r;
    guests_favourite := guests_favourite r;
    lifecycle_flags := lifecycle_flags r;
    vehicle_colours_extended := vehicle_colours_extended r;
    total_air_time := total_air_time r;
    current_test_station := current_test_station r;
    num_circuits := num_circuits r;
    cable_lift_x := cable_lift_x r;
    cable_lift_y := cable_lift_y r;
    cable_lift_z := cable_lift_z r;
    cable_lift := cable_lift r;
    measurement_index := v;
  |}.

  (** [r.type = v] *)
Definition set_type (v : Z) (r : t) : t := {|
    type := v;
    subtype := subtype r;
    mode := mode r;
    colour_scheme_type := colour_scheme_type r;
    vehicle_colours := vehicle_colours r;
    status := status r;
    name := name r;
    name_arguments := name_arguments r;
    overall_view := overall_view r;
    station_starts := station_starts r;
    station_heights := station_heights r;
    station_length := station_length r;
    station_depart := station_depart r;
    train_at_station := train_at_station r;
    entrances := entrances r;
    exits := exits r;
    last_peep_in_queue := last_peep_in_queue r;
    length := length r;
    time := time r;
    queue_time := queue_time r;
    queue_length := queue_length r;
    vehicles := vehicles r;
    depart_flags := depart_flags r;
    num_stations := num_stations r;
    num_vehicles := num_vehicles r;
    num_cars_per_train := num_cars_per_train r;
    proposed_num_vehicles := proposed_num_vehicles r;
    proposed_num_cars_per_train := proposed_num_cars_per_train r;
    max_trains := max_trains r;
    min_max_cars_per_train := min_max_cars_per_train r;
    min_waiting_time := min_waiting_time r;
    max_waiting_time := max_waiting_time r;
    operation_option := operation_option r;
    boat_hire_return_direction := boat_hire_return_direction r;
    boat_hire_return_position := boat_hire_return_position r;
    special_track_elements := special_track_elements r;
    max_speed := max_speed r;
    average_speed := average_speed r;
    current_test_segment := current_test_segment r;
    average_speed_test_timeout := average_speed_test_timeout r;
    max_positive_vertical_g := max_positive_vertical_g r;
    max_negative_vertical_g := max_negative_vertical_g r;
    max_lateral_g := max_lateral_g r;
    previous_vertical_g := previous_vertical_g r;
    previous_lateral_g := previous_lateral_g r;
    testing_flags := testing_flags r;
    cur_test_track_location := cur_test_track_location r;
    turn_count_default := turn_count_default r;
    turn_count_banked := turn_count_banked r;
    turn_count_sloped := turn_count_sloped r;
    inversions := inversions r;
    drops := drops r;
    start_drop_height := start_drop_height r;
    highest_drop_height := highest_drop_height r;
    sheltered_length := sheltered_length r;
    var_11C := var_11C r;
    num_sheltered_sections := num_sheltered_sections r;
    cur_test_track_z := cur_test_track_z r;
    cur_num_customers := cur_num_customers r;
    num_customers_timeout := num_customers_timeout r;
    num_customers := num_customers r;
    price := price r;
    chairlift_bullwheel_location := chairlift_bullwheel_location r;
    chairlift_bullwheel_z := chairlift_bullwheel_z r;
    ratings := ratings r;
    value := value r;
    chairlift_bullwheel_rotation := chairlift_bullwheel_rotation r;
    satisfaction := satisfaction r;
    satisfaction_time_out := satisfaction_time_out r;
    satisfaction_next := satisfaction_next r;
    window_invalidate_flags := window_invalidate_flags r;
    total_customers := total_customers r;
    total_profit := total_profit r;
    popularity := popularity r;
    popularity_time_out := popularity_time_out r;
    popularity_next := popularity_next r;
    num_riders := num_riders r;
    music_tune_id := music_tune_id r;
    slide_in_use := slide_in_use r;
    slide_peep := slide_peep r;
    slide_peep_t_shirt_colour := slide_peep_t_shirt_colour r;
    spiral_slide_progress := spiral_slide_progress r;
    build_date := build_date r;
    upkeep_cost := upkeep_cost r;
    race_winner := race_winner r;
    music_position := music_position r;
    breakdown_reason_pending := breakdown_reason_pending r;
    mechanic_status := mechanic_status r;
    mechanic := mechanic r;
    inspection_station := inspection_station r;
    broken_vehicle := broken_vehicle r;
    broken_car := broken_car r;
    breakdown_reason := breakdown_reason r;
    price_secondary := price_secondary r;
    reliability := reliability r;
    unreliability_factor := unreliability_factor r;
    downtime := downtime r;
    inspection_interval := inspection_interval r;
    last_inspection := last_inspection r;
    downtime_history := downtime_history r;
    no_primary_items_sold := no_primary_items_sold r;
    no_secondary_items_sold := no_secondary_items_sold r;
    breakdown_sound_modifier := breakdown_sound_modifier r;
    not_fixed_timeout := not_fixed_timeout r;
    last_crash_type := last_crash_type r;
    connected_message_throttle := connected_message_throttle r;
    income_per_hour := income_per_hour r;
    profit := profit r;
    track_colour_main := track_colour_main r;
    track_colour_additional := track_colour_additional r;
    track_colour_supports := track_colour_supports r;
    music := music r;
    entrance_style := entrance_style r;
    vehicle_change_timeout := vehicle_change_timeout r;
    num_block_brakes := num_block_brakes r;
    lift_hill_speed := lift_hill_speed r;
    guests_favourite := guests_favourite r;
    lifecycle_flags := lifecycle_flags r;
    vehicle_colours_extended := vehicle_colours_extended r;
    total_air_time := total_air_time r;
    current_test_station := current_test_station r;
    num_circuits := num_circuits r;
    cable_lift_x := cable_lift_x r;
    cable_lift_y := cable_lift_y r;
    cable_lift_z := cable_lift_z r;
    cable_lift := cable_lift r;
    measurement_index := measurement_index r;
  |}.
End rct2_ride.
Definition rct2_ride := rct2_ride.t.

(** ** The S6 record, restricted to the members the modelled routines
    assign.  The members that [Export] fills by a plain copy of a
    simulation register (dates, finance history, climate, news, ...) carry
    no logic and are left out. *)

Module rct_s6_header.
Record t := mk {
    type : Z;
    classic_flag : Z;
    num_packed_objects : Z;
    version : Z;
    magic_number : Z;
  }.
Definition set_type (v : Z) (h : t) : t :=
    mk v (classic_flag h) (num_packed_objects h) (version h) (magic_number h).
End rct_s6_header.
Definition rct_s6_header := rct_s6_header.t.

Module rct_s6_data.
Record t := mk {
    header : rct_s6_header.t;
    initial_cash : Z;
    current_loan : Z;
    peep_spawns : list rct12_peep_spawn.t;
    researched_ride_types : list Z;
    researched_ride_entries : list Z;
    researched_scenery_items : list Z;
    maximum_loan : Z;
    game_version_number : Z;
    loan_hash : Z;
    park_entrance_x : list Z;
    park_entrance_y : list Z;
    park_entrance_z : list Z;
    park_entrance_direction : list Z;
    rides : list rct2_ride.t;
    ride_measurements : list RCT12RideMeasurement.t;
  }.

Definition set_header v s :=
    mk v (initial_cash s) (current_loan s) (peep_spawns s)
       (researched_ride_types s) (researched_ride_entries s)
       (researched_scenery_items s) (maximum_loan s) (game_version_number s)
       (loan_hash s) (park_entrance_x s) (park_entrance_y s)
       (park_entrance_z s) (park_entrance_direction s) (rides s)
       (ride_measurements s).
Definition set_initial_cash v s :=
    mk (header s) v (current_loan s) (peep_spawns s)
       (researched_ride_types s) (researched_ride_entries s)
       (researched_scenery_items s) (maximum_loan s) (game_version_number s)
       (loan_hash s) (park_entrance_x s) (park_entrance_y s)
       (park_entrance_z s) (park_entrance_direction s) (rides s)
       (ride_measurements s).
Definition set_current_loan v s :=
    mk (header s) (initial_cash s) v (peep_spawns s)
       (researched_ride_types s) (researched_ride_entries s)
       (researched_scenery_items s) (maximum_loan s) (game_version_number s)
       (loan_hash s) (park_entrance_x s) (park_entrance_y s)
       (park_entrance_z s) (park_entrance_direction s) (rides s)
       (ride_measurements s).
Definition set_peep_spawns v s :=
    mk (header s) (initial_cash s) (current_loan s) v
       (researched_ride_types s) (researched_ride_entries s)
       (researched_scenery_items s) (maximum_loan s) (game_version_number s)
       (loan_hash s) (park_entrance_x s) (park_entrance_y s)
       (park_entrance_z s) (park_entrance_direction s) (rides s)
       (ride_measurements s).
Definition set_researched_ride_types v s :=
    mk (header s) (initial_cash s) (current_loan s) (peep_spawns s)
       v (researched_ride_entries s)
       (researched_scenery_items s) (maximum_loan s) (game_version_number s)
       (loan_hash s) (park_entrance_x s) (park_entrance_y s)
       (park_entrance_z s) (park_entrance_direction s) (rides s)
       (ride_measurements s).
Definition set_researched_ride_entries v s :=
    mk (header s) (initial_cash s) (current_loan s) (peep_spawns s)
       (researched_ride_types s) v
       (researched_scenery_items s) (maximum_loan s) (game_version_number s)
       (loan_hash s) (park_entrance_x s) (park_entrance_y s)
       (park_entrance_z s) (park_entrance_direction s) (rides s)
       (ride_measurements s).
Definition set_researched_scenery_items v s :=
    mk (header s) (initial_cash s) (current_loan s) (peep_spawns s)
       (researched_ride_types s) (researched_ride_entries s)
       v (maximum_loan s) (game_version_number s)
       (loan_hash s) (park_entrance_x s) (park_entrance_y s)
       (park_entrance_z s) (park_entrance_direction s) (rides s)
       (ride_measurements s).
Definition set_maximum_loan v s :=
    mk (header s) (initial_cash s) (current_loan s) (peep_spawns s)
       (researched_ride_types s) (researched_ride_entries s)
       (researched_scenery_items s) v (game_version_number s)
       (loan_hash s) (park_entrance_x s) (park_entrance_y s)
       (park_entrance_z s) (park_entrance_direction s) (rides s)
       (ride_measurements s).
Definition set_game_version_number v s :=
    mk (header s) (initial_cash s) (current_loan s) (peep_spawns s)
       (researched_ride_types s) (researched_ride_entries s)
       (researched_scenery_items s) (maximum_loan s) v
       (loan_hash s) (park_entrance_x s) (park_entrance_y s)
       (park_entrance_z s) (park_entrance_direction s) (rides s)
       (ride_measurements s).
Definition set_loan_hash v s :=
    mk (header s) (initial_cash s) (current_loan s) (peep_spawns s)
       (researched_ride_types s) (researched_ride_entries s)
       (researched_scenery_items s) (maximum_loan s) (game_version_number s)
       v (park_entrance_x s) (park_entrance_y s)
       (park_entrance_z s) (park_entrance_direction s) (rides s)
       (ride_measurements s).
  (** the four assignments to slot [i] of the park-entrance arrays *)
Definition set_park_entrance (i : nat) (x y z direction : Z) s :=
    mk (header s) (initial_cash s) (current_loan s) (peep_spawns s)
       (researched_ride_types s) (researched_ride_entries s)
       (researched_scenery_items s) (maximum_loan s) (game_version_number s)
       (loan_hash s) (<[i:=x]> (park_entrance_x s)) (<[i:=y]> (park_entrance_y s))
       (<[i:=z]> (park_entrance_z s))
       (<[i:=direction]> (park_entrance_direction s)) (rides s)
       (ride_measurements s).
Definition set_rides v s :=
    mk (header s) (initial_cash s) (current_loan s) (peep_spawns s)
       (researched_ride_types s) (researched_ride_entries s)
       (researched_scenery_items s) (maximum_loan s) (game_version_number s)
       (loan_hash s) (park_entrance_x s) (park_entrance_y s)
       (park_entrance_z s) (park_entrance_direction s) v
       (ride_measurements s).
Definition set_ride_measurements v s :=
    mk (header s) (initial_cash s) (current_loan s) (peep_spawns s)
       (researched_ride_types s) (researched_ride_entries s)
       (researched_scenery_items s) (maximum_loan s) (game_version_number s)
       (loan_hash s) (park_entrance_x s) (park_entrance_y s)
       (park_entrance_z s) (park_entrance_direction s) (rides s)
       v.
End rct_s6_data.
Definition rct_s6_data := rct_s6_data.t.

(** ** The chunks of a saved file *)

Inductive SAWYER_ENCODING := NONE | RLE | RLECOMPRESSED | ROTATE.

(** The members of [_s6] at which a chunk starts. *)
Inductive s6_member :=
| m_header
| m_info
| m_objects
| m_elapsed_months
| m_tile_elements
| m_next_free_tile_element_pointer_index
| m_guests_in_park
| m_last_guests_in_park
| m_park_rating
| m_active_research_types
| m_current_expenditure
| m_park_value
| m_completed_company_value.

(** The length of a chunk: the size of the member it starts at (the
    [WriteChunk(&member, encoding)] overload and [sizeof(_s6.objects)]), or
    a literal number of bytes. *)
Inductive chunk_length := SizeOfMember | Bytes (n : Z).

Record ChunkCall := mkChunk {
  chunk_start : s6_member;
  chunk_size : chunk_length;
  chunk_encoding : SAWYER_ENCODING;
}.

(** What [Save] sends to the stream, in order. *)
Inductive SaveEvent :=
| WroteChunk (c : ChunkCall)
| WrotePackedObjects.

#[global] Instance SAWYER_ENCODING_eq_dec : EqDecision SAWYER_ENCODING.
Proof. solve_decision. Defined.
#[global] Instance s6_member_eq_dec : EqDecision s6_member.
Proof. solve_decision. Defined.
#[global] Instance chunk_length_eq_dec : EqDecision chunk_length.
Proof. solve_decision. Defined.
#[global] Instance ChunkCall_eq_dec : EqDecision ChunkCall.
Proof. solve_decision. Defined.
#[global] Instance SaveEvent_eq_dec : EqDecision SaveEvent.
Proof. solve_decision. Defined.

(** ** The stream *)

(** Modelled from the spec: IStream (core/IStream.hpp) is not in src; it
    is "a stream abstraction supporting sequential write, absolute seek,
    length query, and full read-back".  A stream is its bytes and a
    position; a write replaces the bytes under the position and extends
    the stream past its end; a read past the end fails (throws).  A write
    or a seek that the device refuses is not modelled: the functions
    give the stream when every write and seek succeeds, and what is
    proved of [Save] is proved of that case. *)
Module IStream.
Record t := mk { data : list Z; position : nat }.

Definition GetLength (s : t) : nat := length (data s).
Definition SetPosition (p : nat) (s : t) : t := mk (data s) p.
Definition Write (bytes : list Z) (s : t) : t :=
    let p := position s in
    let before := take p (data s ++ replicate (p - length (data s)) 0) in
    mk (before ++ bytes ++ drop (p + length bytes) (data s))
       (p + length bytes).
Definition ReadArray (n : nat) (s : t) : option (list Z * t) :=
    let p := position s in
    if decide (p + n <= length (data s))%nat
    then Some (take n (drop p (data s)), mk (data s) (p + n))
    else None.

  (** [WriteValue<uint32_t>]: the four bytes of the value, low byte first. *)
Definition uint32_bytes (v : Z) : list Z :=
    [Z.land v 255; Z.land (Z.shiftr v 8) 255;
     Z.land (Z.shiftr v 16) 255; Z.land (Z.shiftr v 24) 255].
Definition WriteValue_uint32 (v : Z) (s : t) : t := Write (uint32_bytes v) s.

  (** The inverse of [uint32_bytes], as a reader of the file decodes the
      trailing field. *)
Definition uint32_of_bytes (bs : list Z) : Z :=
    match bs with
    | [b0; b1; b2; b3] => b0 + 2 ^ 8 * b1 + 2 ^ 16 * b2 + 2 ^ 24 * b3
    | _ => 0
    end.
End IStream.
Definition IStream := IStream.t.

(** ** The exporter object *)

Module S6Exporter.
Record t := mk {
  RemoveTracklessRides : bool;
  (* the packable objects, by their index in the repository *)
  ExportObjectsList : list nat;
  _s6 : rct_s6_data;
}.
End S6Exporter.
Definition S6Exporter := S6Exporter.t.

(** ** Collaborators

    Functions of other translation units that the exporter calls.  The
    sprite lists are only reached through these functions, so their
    state is an abstract type. *)

Class Collaborators := {
  SpriteState : Type;
  check_for_spatial_index_cycles : SpriteState -> Z;
  check_for_sprite_list_cycles : SpriteState -> Z;
  fix_disjoint_sprites : SpriteState -> Z * SpriteState;
  ride_get_entrance_location : Ride -> nat -> TileCoordsXYZD;
  ride_get_exit_location : Ride -> nat -> TileCoordsXYZD;
  (* TileCoordsXYZD::isNull *)
  isNull : TileCoordsXYZD -> bool;
  scenario_remove_trackless_rides : rct_s6_data -> rct_s6_data;
  scenario_fix_ghosts : rct_s6_data -> rct_s6_data;
  game_convert_strings_to_rct2 : rct_s6_data -> rct_s6_data;
  (* the bytes of [_s6] from the start of a member on *)
  s6_bytes : rct_s6_data -> s6_member -> chunk_length -> list Z;
  (* the bytes SawyerChunkWriter::WriteChunk emits for a block of data *)
  sawyer_chunk : SAWYER_ENCODING -> list Z -> list Z;
  (* IObjectRepository::WritePackedObjects *)
  WritePackedObjects : IStream -> list nat -> IStream;
  sawyercoding_calculate_checksum : list Z -> Z;
}.

(** The messages of [Export]: the texts of its two assertions and of its
    [log_error], each with its [%d] argument. *)
Inductive LogEntry :=
| SpriteCycleInSpatialList (n : Z)
| SpriteCycleInRegularList (n : Z)
| DisjointNullSprites (n : Z).

(** The outcome of a routine that can stop at a failed assertion. *)
Inductive Outcome (A : Type) :=
| Completed (a : A)
| AssertionFailed (message : LogEntry).
Arguments Completed {A} a.
Arguments AssertionFailed {A} message.

(** Modelled from the spec: [openrct2_assert] (core/Guard.hpp) is not in
    src; a failed assertion is "a fatal precondition failure (export must
    not proceed)": the routine stops there with the message. *)
Definition openrct2_assert {A : Type} (condition : bool) (message : LogEntry)
    (continue : Outcome A) : Outcome A :=
  if condition then continue else AssertionFailed message.

(** [for (i = 0; i < n; i++) body], as a state transformer. *)
Definition for_loop {S : Type} (n : nat) (body : nat -> S -> S) (s : S) : S :=
  foldl (fun s i => body i s) s (seq 0 n).

(** [std::sort] with the comparator [a->last_use_tick > b->last_use_tick]:
    afterwards no element is followed by one the comparator puts before
    it, that is, the ticks never increase.  The order of equal ticks is
    not fixed by [std::sort]; the merge sort used here is one admissible
    result, and the only one when the ticks are distinct
    (see [sort_by_last_use_unique]).  What is stated of the order after
    the sort is therefore stated for distinct ticks only. *)
Definition more_recent_or_equal (a b : RideMeasurement) : Prop :=
  RideMeasurement.last_use_tick b <= RideMeasurement.last_use_tick a.
#[global] Instance more_recent_or_equal_dec : RelDecision more_recent_or_equal.
Proof. intros a b. unfold more_recent_or_equal. apply _. Defined.
Definition sort_by_last_use (l : list RideMeasurement) : list RideMeasurement :=
  merge_sort more_recent_or_equal l.

Section Exporter.
Context `{!LegacyConstants} `{!Collaborators}.

(** ** The live state read by the exporter

    The simulation registers (the [g...] globals), the ride list behind
    [get_ride] and the three research predicates, as one read-only view. *)
Record LiveState := mkLiveState {
  gSprites : SpriteState;
  gInitialCash : Z;
  gBankLoan : Z;
  gMaxBankLoan : Z;
  gPeepSpawns : list PeepSpawn;
  gParkEntrances : list CoordsXYZD;
  get_ride : nat -> Ride;
  ride_type_is_invented : nat -> bool;
  ride_entry_is_invented : nat -> bool;
  scenery_is_invented : nat -> bool;
}.

(** ** S6Exporter::S6Exporter *)

Definition RCT12RideMeasurement_zero : RCT12RideMeasurement := {|
  RCT12RideMeasurement.ride_index := 0;
  RCT12RideMeasurement.flags := 0;
  RCT12RideMeasurement.last_use_tick := 0;
  RCT12RideMeasurement.num_items := 0;
  RCT12RideMeasurement.current_item := 0;
  RCT12RideMeasurement.vehicle_index := 0;
  RCT12RideMeasurement.current_station := 0;
  RCT12RideMeasurement.velocity := replicate RideMeasurement_MAX_ITEMS 0;
  RCT12RideMeasurement.altitude := replicate RideMeasurement_MAX_ITEMS 0;
  RCT12RideMeasurement.vertical := replicate RideMeasurement_MAX_ITEMS 0;
  RCT12RideMeasurement.lateral := replicate RideMeasurement_MAX_ITEMS 0;
|}.

(** [*dst = {}] and [std::memset(dst, 0, sizeof(rct2_ride))]: every field
    zero, every array at its declared size. *)
Definition rct2_ride_zero : rct2_ride := {|
  rct2_ride.type := 0;
  rct2_ride.subtype := 0;
  rct2_ride.mode := 0;
  rct2_ride.colour_scheme_type := 0;
  rct2_ride.vehicle_colours := replicate RCT2_MAX_CARS_PER_TRAIN (rct_vehicle_colour.mk 0 0);
  rct2_ride.status := 0;
  rct2_ride.name := 0;
  rct2_ride.name_arguments := 0;
  rct2_ride.overall_view := 0;
  rct2_ride.station_starts := replicate RCT12_MAX_STATIONS_PER_RIDE 0;
  rct2_ride.station_heights := replicate RCT12_MAX_STATIONS_PER_RIDE 0;
  rct2_ride.station_length := replicate RCT12_MAX_STATIONS_PER_RIDE 0;
  rct2_ride.station_depart := replicate RCT12_MAX_STATIONS_PER_RIDE 0;
  rct2_ride.train_at_station := replicate RCT12_MAX_STATIONS_PER_RIDE 0;
  rct2_ride.entrances := replicate RCT12_MAX_STATIONS_PER_RIDE 0;
  rct2_ride.exits := replicate RCT12_MAX_STATIONS_PER_RIDE 0;
  rct2_ride.last_peep_in_queue := replicate RCT12_MAX_STATIONS_PER_RIDE 0;
  rct2_ride.length := replicate RCT12_MAX_STATIONS_PER_RIDE 0;
  rct2_ride.time := replicate RCT12_MAX_STATIONS_PER_RIDE 0;
  rct2_ride.queue_time := replicate RCT12_MAX_STATIONS_PER_RIDE 0;
  rct2_ride.queue_length := replicate RCT12_MAX_STATIONS_PER_RIDE 0;
  rct2_ride.vehicles := replicate RCT2_MAX_VEHICLES_PER_RIDE 0;
  rct2_ride.depart_flags := 0;
  rct2_ride.num_stations := 0;
  rct2_ride.num_vehicles := 0;
  rct2_ride.num_cars_per_train := 0;
  rct2_ride.proposed_num_vehicles := 0;
  rct2_ride.proposed_num_cars_per_train := 0;
  rct2_ride.max_trains := 0;
  rct2_ride.min_max_cars_per_train := 0;
  rct2_ride.min_waiting_time := 0;
  rct2_ride.max_waiting_time := 0;
  rct2_ride.operation_option := 0;
  rct2_ride.boat_hire_return_direction := 0;
  rct2_ride.boat_hire_return_position := 0;
  rct2_ride.special_track_elements := 0;
  rct2_ride.max_speed := 0;
  rct2_ride.average_speed := 0;
  rct2_ride.current_test_segment := 0;
  rct2_ride.average_speed_test_timeout := 0;
  rct2_ride.max_positive_vertical_g := 0;
  rct2_ride.max_negative_vertical_g := 0;
  rct2_ride.max_lateral_g := 0;
  rct2_ride.previous_vertical_g := 0;
  rct2_ride.previous_lateral_g := 0;
  rct2_ride.testing_flags := 0;
  rct2_ride.cur_test_track_location := 0;
  rct2_ride.turn_count_default := 0;
  rct2_ride.turn_count_banked := 0;
  rct2_ride.turn_count_sloped := 0;
  rct2_ride.inversions := 0;
  rct2_ride.drops := 0;
  rct2_ride.start_drop_height := 0;
  rct2_ride.highest_drop_height := 0;
  rct2_ride.sheltered_length := 0;
  rct2_ride.var_11C := 0;
  rct2_ride.num_sheltered_sections := 0;
  rct2_ride.cur_test_track_z := 0;
  rct2_ride.cur_num_customers := 0;
  rct2_ride.num_customers_timeout := 0;
  rct2_ride.num_customers := replicate RCT2_CUSTOMER_HISTORY_SIZE 0;
  rct2_ride.price := 0;
  rct2_ride.chairlift_bullwheel_location := replicate 2%nat 0;
  rct2_ride.chairlift_bullwheel_z := replicate 2%nat 0;
  rct2_ride.ratings := 0;
  rct2_ride.value := 0;
  rct2_ride.chairlift_bullwheel_rotation := 0;
  rct2_ride.satisfaction := 0;
  rct2_ride.satisfaction_time_out := 0;
  rct2_ride.satisfaction_next := 0;
  rct2_ride.window_invalidate_flags := 0;
  rct2_ride.total_customers := 0;
  rct2_ride.total_profit := 0;
  rct2_ride.popularity := 0;
  rct2_ride.popularity_time_out := 0;
  rct2_ride.popularity_next := 0;
  rct2_ride.num_riders := 0;
  rct2_ride.music_tune_id := 0;
  rct2_ride.slide_in_use := 0;
  rct2_ride.slide_peep := 0;
  rct2_ride.slide_peep_t_shirt_colour := 0;
  rct2_ride.spiral_slide_progress := 0;
  rct2_ride.build_date := 0;
  rct2_ride.upkeep_cost := 0;
  rct2_ride.race_winner := 0;
  rct2_ride.music_position := 0;
  rct2_ride.breakdown_reason_pending := 0;
  rct2_ride.mechanic_status := 0;
  rct2_ride.mechanic := 0;
  rct2_ride.inspection_station := 0;
  rct2_ride.broken_vehicle := 0;
  rct2_ride.broken_car := 0;
  rct2_ride.breakdown_reason := 0;
  rct2_ride.price_secondary := 0;
  rct2_ride.reliability := 0;
  rct2_ride.unreliability_factor := 0;
  rct2_ride.downtime := 0;
  rct2_ride.inspection_interval := 0;
  rct2_ride.last_inspection := 0;
  rct2_ride.downtime_history := replicate RCT2_DOWNTIME_HISTORY_SIZE 0;
  rct2_ride.no_primary_items_sold := 0;
  rct2_ride.no_secondary_items_sold := 0;
  rct2_ride.breakdown_sound_modifier := 0;
  rct2_ride.not_fixed_timeout := 0;
  rct2_ride.last_crash_type := 0;
  rct2_ride.connected_message_throttle := 0;
  rct2_ride.income_per_hour := 0;
  rct2_ride.profit := 0;
  rct2_ride.track_colour_main := replicate RCT12_NUM_COLOUR_SCHEMES 0;
  rct2_ride.track_colour_additional := replicate RCT12_NUM_COLOUR_SCHEMES 0;
  rct2_ride.track_colour_supports := replicate RCT12_NUM_COLOUR_SCHEMES 0;
  rct2_ride.music := 0;
  rct2_ride.entrance_style := 0;
  rct2_ride.vehicle_change_timeout := 0;
  rct2_ride.num_block_brakes := 0;
  rct2_ride.lift_hill_speed := 0;
  rct2_ride.guests_favourite := 0;
  rct2_ride.lifecycle_flags := 0;
  rct2_ride.vehicle_colours_extended := replicate RCT2_MAX_CARS_PER_TRAIN 0;
  rct2_ride.total_air_time := 0;
  rct2_ride.current_test_station := 0;
  rct2_ride.num_circuits := 0;
  rct2_ride.cable_lift_x := 0;
  rct2_ride.cable_lift_y := 0;
  rct2_ride.cable_lift_z := 0;
  rct2_ride.cable_lift := 0;
  rct2_ride.measurement_index := 0;
|}.

(** S6Exporter::ExportRide.  The destination is cleared first and every
    assignment of the source then fills one field, so the result is
    given field by field; [measurement_index] is the one field the
    routine leaves at its cleared value. *)
Definition ExportRide (src : Ride) : rct2_ride := {|
  rct2_ride.type := Ride.type src;
  rct2_ride.subtype := Ride.subtype src;
  rct2_ride.mode := Ride.mode src;
  rct2_ride.colour_scheme_type := Ride.colour_scheme_type src;
  rct2_ride.vehicle_colours :=
    (fun i => {| rct_vehicle_colour.body_colour := VehicleColour.Body (Ride.vehicle_colours src i);
                 rct_vehicle_colour.trim_colour := VehicleColour.Trim (Ride.vehicle_colours src i) |})
      <$> seq 0 RCT2_MAX_CARS_PER_TRAIN;
  rct2_ride.status := Ride.status src;
  rct2_ride.name := Ride.name src;
  rct2_ride.name_arguments := Ride.name_arguments src;
  rct2_ride.overall_view := Ride.overall_view src;
  rct2_ride.station_starts :=
    (fun i => RideStation.Start (Ride.stations src i)) <$> seq 0 RCT12_MAX_STATIONS_PER_RIDE;
  rct2_ride.station_heights :=
    (fun i => RideStation.Height (Ride.stations src i)) <$> seq 0 RCT12_MAX_STATIONS_PER_RIDE;
  rct2_ride.station_length :=
    (fun i => RideStation.Length (Ride.stations src i)) <$> seq 0 RCT12_MAX_STATIONS_PER_RIDE;
  rct2_ride.station_depart :=
    (fun i => RideStation.Depart (Ride.stations src i)) <$> seq 0 RCT12_MAX_STATIONS_PER_RIDE;
  rct2_ride.train_at_station :=
    (fun i => RideStation.TrainAtStation (Ride.stations src i)) <$> seq 0 RCT12_MAX_STATIONS_PER_RIDE;
  rct2_ride.entrances :=
    (fun i =>
       let entrance := ride_get_entrance_location src i in
       if isNull entrance then RCT_XY8_UNDEFINED
       else LocationXY8_of (uint8 (CoordsXYZD.x entrance)) (uint8 (CoordsXYZD.y entrance)))
      <$> seq 0 RCT12_MAX_STATIONS_PER_RIDE;
  rct2_ride.exits :=
    (fun i =>
       let exit := ride_get_exit_location src i in
       if isNull exit then RCT_XY8_UNDEFINED
       else LocationXY8_of (uint8 (CoordsXYZD.x exit)) (uint8 (CoordsXYZD.y exit)))
      <$> seq 0 RCT12_MAX_STATIONS_PER_RIDE;
  rct2_ride.last_peep_in_queue :=
    (fun i => RideStation.LastPeepInQueue (Ride.stations src i)) <$> seq 0 RCT12_MAX_STATIONS_PER_RIDE;
  rct2_ride.length :=
    (fun i => RideStation.SegmentLength (Ride.stations src i)) <$> seq 0 RCT12_MAX_STATIONS_PER_RIDE;
  rct2_ride.time :=
    (fun i => RideStation.SegmentTime (Ride.stations src i)) <$> seq 0 RCT12_MAX_STATIONS_PER_RIDE;
  rct2_ride.queue_time :=
    (fun i => RideStation.QueueTime (Ride.stations src i)) <$> seq 0 RCT12_MAX_STATIONS_PER_RIDE;
  rct2_ride.queue_length :=
    (fun i => RideStation.QueueLength (Ride.stations src i)) <$> seq 0 RCT12_MAX_STATIONS_PER_RIDE;
  rct2_ride.vehicles := Ride.vehicles src <$> seq 0 RCT2_MAX_VEHICLES_PER_RIDE;
  rct2_ride.depart_flags := Ride.depart_flags src;
  rct2_ride.num_stations := Ride.num_stations src;
  rct2_ride.num_vehicles := Ride.num_vehicles src;
  rct2_ride.num_cars_per_train := Ride.num_cars_per_train src;
  rct2_ride.proposed_num_vehicles := Ride.proposed_num_vehicles src;
  rct2_ride.proposed_num_cars_per_train := Ride.proposed_num_cars_per_train src;
  rct2_ride.max_trains := Ride.max_trains src;
  rct2_ride.min_max_cars_per_train := Ride.min_max_cars_per_train src;
  rct2_ride.min_waiting_time := Ride.min_waiting_time src;
  rct2_ride.max_waiting_time := Ride.max_waiting_time src;
  rct2_ride.operation_option := Ride.operation_option src;
  rct2_ride.boat_hire_return_direction := Ride.boat_hire_return_direction src;
  rct2_ride.boat_hire_return_position := Ride.boat_hire_return_position src;
  rct2_ride.special_track_elements := Ride.special_track_elements src;
  rct2_ride.max_speed := Ride.max_speed src;
  rct2_ride.average_speed := Ride.average_speed src;
  rct2_ride.current_test_segment := Ride.current_test_segment src;
  rct2_ride.average_speed_test_timeout := Ride.average_speed_test_timeout src;
  rct2_ride.max_positive_vertical_g := Ride.max_positive_vertical_g src;
  rct2_ride.max_negative_vertical_g := Ride.max_negative_vertical_g src;
  rct2_ride.max_lateral_g := Ride.max_lateral_g src;
  rct2_ride.previous_vertical_g := Ride.previous_vertical_g src;
  rct2_ride.previous_lateral_g := Ride.previous_lateral_g src;
  rct2_ride.testing_flags := Ride.testing_flags src;
  rct2_ride.cur_test_track_location := Ride.cur_test_track_location src;
  rct2_ride.turn_count_default := Ride.turn_count_default src;
  rct2_ride.turn_count_banked := Ride.turn_count_banked src;
  rct2_ride.turn_count_sloped := Ride.turn_count_sloped src;
  rct2_ride.inversions :=
    (let dst_type := Ride.type src in
     let inversions :=
       if dst_type =? RIDE_TYPE_MINI_GOLF
       then uint8 (Z.min (Ride.holes src) RCT12_MAX_GOLF_HOLES)
       else uint8 (Z.min (Ride.inversions src) RCT12_MAX_INVERSIONS) in
     uint8 (Z.lor inversions (Z.shiftl (Ride.sheltered_eighths src) 5)));
  rct2_ride.drops := Ride.drops src;
  rct2_ride.start_drop_height := Ride.start_drop_height src;
  rct2_ride.highest_drop_height := Ride.highest_drop_height src;
  rct2_ride.sheltered_length := Ride.sheltered_length src;
  rct2_ride.var_11C := Ride.var_11C src;
  rct2_ride.num_sheltered_sections := Ride.num_sheltered_sections src;
  rct2_ride.cur_test_track_z := Ride.cur_test_track_z src;
  rct2_ride.cur_num_customers := Ride.cur_num_customers src;
  rct2_ride.num_customers_timeout := Ride.num_customers_timeout src;
  rct2_ride.num_customers := Ride.num_customers src <$> seq 0 RCT2_CUSTOMER_HISTORY_SIZE;
  rct2_ride.price := Ride.price src;
  rct2_ride.chairlift_bullwheel_location := Ride.chairlift_bullwheel_location src <$> seq 0 2%nat;
  rct2_ride.chairlift_bullwheel_z := Ride.chairlift_bullwheel_z src <$> seq 0 2%nat;
  rct2_ride.ratings := Ride.ratings src;
  rct2_ride.value := Ride.value src;
  rct2_ride.chairlift_bullwheel_rotation := Ride.chairlift_bullwheel_rotation src;
  rct2_ride.satisfaction := Ride.satisfaction src;
  rct2_ride.satisfaction_time_out := Ride.satisfaction_time_out src;
  rct2_ride.satisfaction_next := Ride.satisfaction_next src;
  rct2_ride.window_invalidate_flags := Ride.window_invalidate_flags src;
  rct2_ride.total_customers := Ride.total_customers src;
  rct2_ride.total_profit := Ride.total_profit src;
  rct2_ride.popularity := Ride.popularity src;
  rct2_ride.popularity_time_out := Ride.popularity_time_out src;
  rct2_ride.popularity_next := Ride.popularity_next src;
  rct2_ride.num_riders := Ride.num_riders src;
  rct2_ride.music_tune_id := Ride.music_tune_id src;
  rct2_ride.slide_in_use := Ride.slide_in_use src;
  rct2_ride.slide_peep := Ride.slide_peep src;
  rct2_ride.slide_peep_t_shirt_colour := Ride.slide_peep_t_shirt_colour src;
  rct2_ride.spiral_slide_progress := Ride.spiral_slide_progress src;
  rct2_ride.build_date := Ride.build_date src;
  rct2_ride.upkeep_cost := Ride.upkeep_cost src;
  rct2_ride.race_winner := Ride.race_winner src;
  rct2_ride.music_position := Ride.music_position src;
  rct2_ride.breakdown_reason_pending := Ride.breakdown_reason_pending src;
  rct2_ride.mechanic_status := Ride.mechanic_status src;
  rct2_ride.mechanic := Ride.mechanic src;
  rct2_ride.inspection_station := Ride.inspection_station src;
  rct2_ride.broken_vehicle := Ride.broken_vehicle src;
  rct2_ride.broken_car := Ride.broken_car src;
  rct2_ride.breakdown_reason := Ride.breakdown_reason src;
  rct2_ride.price_secondary := Ride.price_secondary src;
  rct2_ride.reliability := Ride.reliability src;
  rct2_ride.unreliability_factor := Ride.unreliability_factor src;
  rct2_ride.downtime := Ride.downtime src;
  rct2_ride.inspection_interval := Ride.inspection_interval src;
  rct2_ride.last_inspection := Ride.last_inspection src;
  rct2_ride.downtime_history := Ride.downtime_history src <$> seq 0 RCT2_DOWNTIME_HISTORY_SIZE;
  rct2_ride.no_primary_items_sold := Ride.no_primary_items_sold src;
  rct2_ride.no_secondary_items_sold := Ride.no_secondary_items_sold src;
  rct2_ride.breakdown_sound_modifier := Ride.breakdown_sound_modifier src;
  rct2_ride.not_fixed_timeout := Ride.not_fixed_timeout src;
  rct2_ride.last_crash_type := Ride.last_crash_type src;
  rct2_ride.connected_message_throttle := Ride.connected_message_throttle src;
  rct2_ride.income_per_hour := Ride.income_per_hour src;
  rct2_ride.profit := Ride.profit src;
  rct2_ride.track_colour_main :=
    (fun i => TrackColour.main (Ride.track_colour src i)) <$> seq 0 RCT12_NUM_COLOUR_SCHEMES;
  rct2_ride.track_colour_additional :=
    (fun i => TrackColour.additional (Ride.track_colour src i)) <$> seq 0 RCT12_NUM_COLOUR_SCHEMES;
  rct2_ride.track_colour_supports :=
    (fun i => TrackColour.supports (Ride.track_colour src i)) <$> seq 0 RCT12_NUM_COLOUR_SCHEMES;
  rct2_ride.music := Ride.music src;
  rct2_ride.entrance_style := Ride.entrance_style src;
  rct2_ride.vehicle_change_timeout := Ride.vehicle_change_timeout src;
  rct2_ride.num_block_brakes := Ride.num_block_brakes src;
  rct2_ride.lift_hill_speed := Ride.lift_hill_speed src;
  rct2_ride.guests_favourite := Ride.guests_favourite src;
  rct2_ride.lifecycle_flags := Ride.lifecycle_flags src;
  rct2_ride.vehicle_colours_extended :=
    (fun i => VehicleColour.Ternary (Ride.vehicle_colours src i)) <$> seq 0 RCT2_MAX_CARS_PER_TRAIN;
  rct2_ride.total_air_time := Ride.total_air_time src;
  rct2_ride.current_test_station := Ride.current_test_station src;
  rct2_ride.num_circuits := Ride.num_circuits src;
  rct2_ride.cable_lift_x := Ride.cable_lift_x src;
  rct2_ride.cable_lift_y := Ride.cable_lift_y src;
  rct2_ride.cable_lift_z := Ride.cable_lift_z src;
  rct2_ride.cable_lift := Ride.cable_lift src;
  rct2_ride.measurement_index := rct2_ride.measurement_index rct2_ride_zero;
|}.

(** The constructor: [RemoveTracklessRides = false] and [_s6] zeroed,
    every array of [_s6] at its declared size. *)
Definition rct_s6_data_zero : rct_s6_data := {|
  rct_s6_data.header := rct_s6_header.mk 0 0 0 0 0;
  rct_s6_data.initial_cash := 0;
  rct_s6_data.current_loan := 0;
  rct_s6_data.peep_spawns :=
    replicate RCT12_MAX_PEEP_SPAWNS (rct12_peep_spawn.mk 0 0 0 0);
  rct_s6_data.researched_ride_types := replicate researched_ride_types_words 0;
  rct_s6_data.researched_ride_entries := replicate researched_ride_entries_words 0;
  rct_s6_data.researched_scenery_items := replicate researched_scenery_items_words 0;
  rct_s6_data.maximum_loan := 0;
  rct_s6_data.game_version_number := 0;
  rct_s6_data.loan_hash := 0;
  rct_s6_data.park_entrance_x := replicate RCT12_MAX_PARK_ENTRANCES 0;
  rct_s6_data.park_entrance_y := replicate RCT12_MAX_PARK_ENTRANCES 0;
  rct_s6_data.park_entrance_z := replicate RCT12_MAX_PARK_ENTRANCES 0;
  rct_s6_data.park_entrance_direction := replicate RCT12_MAX_PARK_ENTRANCES 0;
  rct_s6_data.rides := replicate RCT12_MAX_RIDES_IN_PARK rct2_ride_zero;
  rct_s6_data.ride_measurements :=
    replicate RCT12_RIDE_MEASUREMENT_MAX_ITEMS RCT12RideMeasurement_zero;
|}.

Definition S6Exporter_new : S6Exporter := {|
  S6Exporter.RemoveTracklessRides := false;
  S6Exporter.ExportObjectsList := [];
  S6Exporter._s6 := rct_s6_data_zero;
|}.

(** ** S6Exporter::GetLoanHash

    [value] is an [int32_t]; [ror32] takes and returns [uint32_t]; the sum
    with the [uint32_t] [maxBankLoan] is computed unsigned; the function
    returns [uint32_t]. *)
Definition GetLoanHash (initialCash bankLoan maxBankLoan : Z) : Z :=
  let value := 0x70093A in
  let value := int32 (value - initialCash) in
  let value := int32 (ror32 (uint32 value) 5) in
  let value := int32 (value - bankLoan) in
  let value := int32 (ror32 (uint32 value) 7) in
  let value := int32 (uint32 (uint32 value + maxBankLoan)) in
  let value := int32 (ror32 (uint32 value) 3) in
  uint32 value.

(** ** S6Exporter::ExportPeepSpawns

    [gPeepSpawns !! i] is [Some] exactly when [gPeepSpawns.size() > i].
    The division of the [int32_t] height by 16 rounds towards zero. *)
Definition ExportPeepSpawns (live : LiveState) (s6 : rct_s6_data) : rct_s6_data :=
  for_loop RCT12_MAX_PEEP_SPAWNS
    (fun i s6 =>
       let spawn :=
         match gPeepSpawns live !! i with
         | Some src =>
             {| rct12_peep_spawn.x := uint16 (CoordsXYZD.x src);
                rct12_peep_spawn.y := uint16 (CoordsXYZD.y src);
                rct12_peep_spawn.z := uint8 (Z.quot (CoordsXYZD.z src) 16);
                rct12_peep_spawn.direction := CoordsXYZD.direction src |}
         | None =>
             {| rct12_peep_spawn.x := PEEP_SPAWN_UNDEFINED;
                rct12_peep_spawn.y := PEEP_SPAWN_UNDEFINED;
                rct12_peep_spawn.z := 0;
                rct12_peep_spawn.direction := 0 |}
         end in
       rct_s6_data.set_peep_spawns (<[i:=spawn]> (rct_s6_data.peep_spawns s6)) s6)
    s6.

(** ** The park-entrance loop of S6Exporter::Export

    The members of the [int32_t] coordinates are assigned to [int16_t]
    array slots. *)
Definition ExportParkEntrances (live : LiveState) (s6 : rct_s6_data) : rct_s6_data :=
  for_loop RCT12_MAX_PARK_ENTRANCES
    (fun i s6 =>
       let entrance := CoordsXYZD.mk LOCATION_NULL LOCATION_NULL 0 0 in
       let entrance :=
         match gParkEntrances live !! i with
         | Some e => e
         | None => entrance
         end in
       rct_s6_data.set_park_entrance i
         (int16 (CoordsXYZD.x entrance)) (int16 (CoordsXYZD.y entrance))
         (int16 (CoordsXYZD.z entrance)) (CoordsXYZD.direction entrance) s6)
    s6.

(** ** S6Exporter::ExportRides *)
Definition ExportRides (live : LiveState) (s6 : rct_s6_data) : rct_s6_data :=
  for_loop RCT12_MAX_RIDES_IN_PARK
    (fun index s6 =>
       let src := get_ride live index in
       let dst := rct2_ride_zero in
       let dst :=
         if Ride.type src =? RIDE_TYPE_NULL
         then rct2_ride.set_type RIDE_TYPE_NULL dst
         else ExportRide src in
       rct_s6_data.set_rides (<[index:=dst]> (rct_s6_data.rides s6)) s6)
    s6.

(** ** S6Exporter::ExportRideMeasurement

    Every member but [ride_index] is assigned; the four sample arrays are
    copied element by element over their whole (common) size. *)
Definition ExportRideMeasurement (dst : RCT12RideMeasurement) (src : RideMeasurement)
    : RCT12RideMeasurement := {|
  RCT12RideMeasurement.ride_index := RCT12RideMeasurement.ride_index dst;
  RCT12RideMeasurement.flags := RideMeasurement.flags src;
  RCT12RideMeasurement.last_use_tick := RideMeasurement.last_use_tick src;
  RCT12RideMeasurement.num_items := RideMeasurement.num_items src;
  RCT12RideMeasurement.current_item := RideMeasurement.current_item src;
  RCT12RideMeasurement.vehicle_index := RideMeasurement.vehicle_index src;
  RCT12RideMeasurement.current_station := RideMeasurement.current_station src;
  RCT12RideMeasurement.velocity := RideMeasurement.velocity src;
  RCT12RideMeasurement.altitude := RideMeasurement.altitude src;
  RCT12RideMeasurement.vertical := RideMeasurement.vertical src;
  RCT12RideMeasurement.lateral := RideMeasurement.lateral src;
|}.

(** ** S6Exporter::ExportRideMeasurements *)

(** "Get all the ride measurements": [get_ride] never returns null here,
    and [push_back] appends. *)
Definition collect_ride_measurements (live : LiveState) : list RideMeasurement :=
  for_loop RCT12_MAX_RIDES_IN_PARK
    (fun i rideMeasurements =>
       match Ride.measurement (get_ride live i) with
       | Some m => rideMeasurements ++ [m]
       | None => rideMeasurements
       end)
    [].

(** "If there are more than S6 can hold, trim it by LRU". *)
Definition trim_ride_measurements (rideMeasurements : list RideMeasurement)
    : list RideMeasurement :=
  if (RCT12_RIDE_MEASUREMENT_MAX_ITEMS <? length rideMeasurements)%nat
  then take RCT12_RIDE_MEASUREMENT_MAX_ITEMS (sort_by_last_use rideMeasurements)
  else rideMeasurements.

(** "Convert ride measurements to S6 format": the range-for with its
    [uint8_t] counter [i].  A slot outside an array is not written. *)
Fixpoint write_ride_measurements (rideMeasurements : list RideMeasurement) (i : Z)
    (s6 : rct_s6_data) : rct_s6_data :=
  match rideMeasurements with
  | [] => s6
  | src :: rest =>
      let slot := Z.to_nat i in
      let s6 :=
        rct_s6_data.set_ride_measurements
          (alter (fun dst => ExportRideMeasurement dst src) slot
                 (rct_s6_data.ride_measurements s6)) s6 in
      let rideId := RideMeasurement.ride src in
      let s6 :=
        rct_s6_data.set_ride_measurements
          (alter (RCT12RideMeasurement.set_ride_index (Z.of_nat rideId)) slot
                 (rct_s6_data.ride_measurements s6)) s6 in
      let s6 :=
        rct_s6_data.set_rides
          (alter (rct2_ride.set_measurement_index i) rideId
                 (rct_s6_data.rides s6)) s6 in
      write_ride_measurements rest (uint8 (i + 1)) s6
  end.

Definition ExportRideMeasurements (live : LiveState) (s6 : rct_s6_data) : rct_s6_data :=
  let rideMeasurements := collect_ride_measurements live in
  let rideMeasurements := trim_ride_measurements rideMeasurements in
  write_ride_measurements rideMeasurements 0 s6.

(** ** The three researched-flag exports *)

Definition ExportResearchedRideTypes (live : LiveState) (s6 : rct_s6_data) : rct_s6_data :=
  let words := (fun _ => 0) <$> rct_s6_data.researched_ride_types s6 in
  let words :=
    for_loop RIDE_TYPE_COUNT
      (fun rideType words =>
         if ride_type_is_invented live rideType then
           let quadIndex := Z.shiftr (Z.of_nat rideType) 5 in
           let bitIndex := Z.land (Z.of_nat rideType) 0x1F in
           alter (fun w => Z.lor w (uint32 (Z.shiftl 1 bitIndex)))
                 (Z.to_nat quadIndex) words
         else words)
      words in
  rct_s6_data.set_researched_ride_types words s6.

Definition ExportResearchedRideEntries (live : LiveState) (s6 : rct_s6_data) : rct_s6_data :=
  let words := (fun _ => 0) <$> rct_s6_data.researched_ride_entries s6 in
  let words :=
    for_loop MAX_RIDE_OBJECTS
      (fun rideEntryIndex words =>
         if ride_entry_is_invented live rideEntryIndex then
           let quadIndex := Z.shiftr (Z.of_nat rideEntryIndex) 5 in
           let bitIndex := Z.land (Z.of_nat rideEntryIndex) 0x1F in
           alter (fun w => Z.lor w (uint32 (Z.shiftl 1 bitIndex)))
                 (Z.to_nat quadIndex) words
         else words)
      words in
  rct_s6_data.set_researched_ride_entries words s6.

Definition ExportResearchedSceneryItems (live : LiveState) (s6 : rct_s6_data) : rct_s6_data :=
  let words := (fun _ => 0) <$> rct_s6_data.researched_scenery_items s6 in
  let words :=
    for_loop RCT2_MAX_RESEARCHED_SCENERY_ITEMS
      (fun sceneryEntryIndex words =>
         if scenery_is_invented live sceneryEntryIndex then
           let quadIndex := Z.shiftr (Z.of_nat sceneryEntryIndex) 5 in
           let bitIndex := Z.land (Z.of_nat sceneryEntryIndex) 0x1F in
           alter (fun w => Z.lor w (uint32 (Z.shiftl 1 bitIndex)))
                 (Z.to_nat quadIndex) words
         else words)
      words in
  rct_s6_data.set_researched_scenery_items words s6.

(** ** S6Exporter::Save

    The chunk writer and [Save] share the one stream; the list of events
    records, in order, what was sent to it. *)
Definition WriteChunk (s6 : rct_s6_data) (start : s6_member) (size : chunk_length)
    (encoding : SAWYER_ENCODING) (io : IStream * list SaveEvent)
    : IStream * list SaveEvent :=
  (IStream.Write (sawyer_chunk encoding (s6_bytes s6 start size)) io.1,
   io.2 ++ [WroteChunk (mkChunk start size encoding)]).

(** The header assignments at the start of [Save]. *)
Definition Save_header (e : S6Exporter) (isScenario : bool) : rct_s6_data :=
  let s6 := S6Exporter._s6 e in
  let header := {|
    rct_s6_header.type := if isScenario then S6_TYPE_SCENARIO else S6_TYPE_SAVEDGAME;
    rct_s6_header.classic_flag := 0;
    rct_s6_header.num_packed_objects :=
      uint16 (Z.of_nat (length (S6Exporter.ExportObjectsList e)));
    rct_s6_header.version := S6_RCT2_VERSION;
    rct_s6_header.magic_number := S6_MAGIC_NUMBER;
  |} in
  let s6 := rct_s6_data.set_header header s6 in
  rct_s6_data.set_game_version_number 201028 s6.

(** The chunk-writing part of [Save], steps 0 to 13. *)
Definition Save_chunks (e : S6Exporter) (s6 : rct_s6_data) (stream : IStream)
    : IStream * list SaveEvent :=
  let io := (stream, []) in
  (* 0: Write header chunk *)
  let io := WriteChunk s6 m_header SizeOfMember ROTATE io in
  (* 1: Write scenario info chunk *)
  let io :=
    if rct_s6_header.type (rct_s6_data.header s6) =? S6_TYPE_SCENARIO
    then WriteChunk s6 m_info SizeOfMember ROTATE io
    else io in
  (* 2: Write packed objects *)
  let io :=
    if 0 <? rct_s6_header.num_packed_objects (rct_s6_data.header s6)
    then (WritePackedObjects io.1 (S6Exporter.ExportObjectsList e),
          io.2 ++ [WrotePackedObjects])
    else io in
  (* 3: Write available objects chunk *)
  let io := WriteChunk s6 m_objects SizeOfMember ROTATE io in
  (* 4: Misc fields (data, rand...) chunk *)
  let io := WriteChunk s6 m_elapsed_months (Bytes 16) RLECOMPRESSED io in
  (* 5: Map elements + sprites and other fields chunk *)
  let io := WriteChunk s6 m_tile_elements (Bytes 0x180000) RLECOMPRESSED io in
  if rct_s6_header.type (rct_s6_data.header s6) =? S6_TYPE_SCENARIO
  then
    (* 6 to 13: *)
    let io := WriteChunk s6 m_next_free_tile_element_pointer_index
                (Bytes 0x27104C) RLECOMPRESSED io in
    let io := WriteChunk s6 m_guests_in_park (Bytes 4) RLECOMPRESSED io in
    let io := WriteChunk s6 m_last_guests_in_park (Bytes 8) RLECOMPRESSED io in
    let io := WriteChunk s6 m_park_rating (Bytes 2) RLECOMPRESSED io in
    let io := WriteChunk s6 m_active_research_types (Bytes 1082) RLECOMPRESSED io in
    let io := WriteChunk s6 m_current_expenditure (Bytes 16) RLECOMPRESSED io in
    let io := WriteChunk s6 m_park_value (Bytes 4) RLECOMPRESSED io in
    WriteChunk s6 m_completed_company_value (Bytes 0x761E8) RLECOMPRESSED io
  else
    (* 6: Everything else... *)
    WriteChunk s6 m_next_free_tile_element_pointer_index
      (Bytes 0x2E8570) RLECOMPRESSED io.

(** [Save]: the header, the chunks, then the read-back and the checksum. *)
Definition Save (e : S6Exporter) (stream : IStream) (isScenario : bool)
    : option (S6Exporter * IStream * list SaveEvent) :=
  let s6 := Save_header e isScenario in
  let io := Save_chunks e s6 stream in
  (* Determine number of bytes written *)
  let fileSize := IStream.GetLength io.1 in
  (* Read all written bytes back into a single buffer *)
  let stream := IStream.SetPosition 0 io.1 in
  match IStream.ReadArray fileSize stream with
  | None => None
  | Some (data, stream) =>
      let checksum := sawyercoding_calculate_checksum data in
      (* Write the checksum on the end *)
      let stream := IStream.SetPosition fileSize stream in
      let stream := IStream.WriteValue_uint32 checksum stream in
      Some (S6Exporter.mk (S6Exporter.RemoveTracklessRides e)
                          (S6Exporter.ExportObjectsList e) s6,
            stream, io.2)
  end.

Definition SaveGame (e : S6Exporter) (stream : IStream) := Save e stream false.
Definition SaveScenario (e : S6Exporter) (stream : IStream) := Save e stream true.

(** The two tails of a saved file. *)
Definition scenario_tail : list SaveEvent :=
  [WroteChunk (mkChunk m_next_free_tile_element_pointer_index (Bytes 0x27104C) RLECOMPRESSED);
   WroteChunk (mkChunk m_guests_in_park (Bytes 4) RLECOMPRESSED);
   WroteChunk (mkChunk m_last_guests_in_park (Bytes 8) RLECOMPRESSED);
   WroteChunk (mkChunk m_park_rating (Bytes 2) RLECOMPRESSED);
   WroteChunk (mkChunk m_active_research_types (Bytes 1082) RLECOMPRESSED);
   WroteChunk (mkChunk m_current_expenditure (Bytes 16) RLECOMPRESSED);
   WroteChunk (mkChunk m_park_value (Bytes 4) RLECOMPRESSED);
   WroteChunk (mkChunk m_completed_company_value (Bytes 0x761E8) RLECOMPRESSED)].
Definition saved_game_tail : list SaveEvent :=
  [WroteChunk (mkChunk m_next_free_tile_element_pointer_index (Bytes 0x2E8570) RLECOMPRESSED)].
Definition scenario_info_chunk : SaveEvent :=
  WroteChunk (mkChunk m_info SizeOfMember ROTATE).

(** ** S6Exporter::Export

    The three sprite routines run first, then the two assertions.  Of
    the gather, the routines embedded above are kept, in the order of
    the source, with the registers they depend on.  What is left out
    fills members of [_s6] that are not modelled: the plain copies of
    registers and tables, [ExportSprites], [ExportMarketingCampaigns] and
    [ExportResearchList].  The three fix-up passes at the end are
    collaborators. *)
Definition Export (e : S6Exporter) (live : LiveState)
    : Outcome (S6Exporter * LiveState * list LogEntry) :=
  let spatial_cycle := check_for_spatial_index_cycles (gSprites live) in
  let regular_cycle := check_for_sprite_list_cycles (gSprites live) in
  let '(disjoint_sprites_count, sprites) := fix_disjoint_sprites (gSprites live) in
  let live :=
    mkLiveState sprites (gInitialCash live) (gBankLoan live) (gMaxBankLoan live)
      (gPeepSpawns live) (gParkEntrances live) (get_ride live)
      (ride_type_is_invented live) (ride_entry_is_invented live)
      (scenery_is_invented live) in
  openrct2_assert (spatial_cycle =? -1) (SpriteCycleInSpatialList spatial_cycle)
  (openrct2_assert (regular_cycle =? -1) (SpriteCycleInRegularList regular_cycle)
  ((* This one is less harmful, no need to assert for it *)
   let log :=
     if 0 <? disjoint_sprites_count
     then [DisjointNullSprites disjoint_sprites_count]
     else [] in
   let s6 := S6Exporter._s6 e in
   let s6 := rct_s6_data.set_initial_cash (gInitialCash live) s6 in
   let s6 := rct_s6_data.set_current_loan (gBankLoan live) s6 in
   let s6 := ExportPeepSpawns live s6 in
   let s6 := ExportResearchedRideTypes live s6 in
   let s6 := ExportResearchedRideEntries live s6 in
   let s6 := ExportResearchedSceneryItems live s6 in
   let s6 := rct_s6_data.set_maximum_loan (gMaxBankLoan live) s6 in
   let s6 :=
     rct_s6_data.set_loan_hash
       (GetLoanHash (gInitialCash live) (gBankLoan live) (uint32 (gMaxBankLoan live)))
       s6 in
   let s6 := ExportParkEntrances live s6 in
   let s6 := ExportRides live s6 in
   let s6 := ExportRideMeasurements live s6 in
   let s6 :=
     if S6Exporter.RemoveTracklessRides e
     then scenario_remove_trackless_rides s6
     else s6 in
   let s6 := scenario_fix_ghosts s6 in
   let s6 := game_convert_strings_to_rct2 s6 in
   Completed (S6Exporter.mk (S6Exporter.RemoveTracklessRides e)
                            (S6Exporter.ExportObjectsList e) s6,
              live, log))).

End Exporter.

(** ** Concrete collaborators and parks

    Used to run the exporter: the sprite state is the triple of the
    results of the three sprite routines, the entrance and exit of a
    station are members of the station, a chunk is framed by its encoding
    and length, the checksum is the sum of the bytes. *)

Definition encoding_byte (e : SAWYER_ENCODING) : Z :=
  match e with NONE => 0 | RLE => 1 | RLECOMPRESSED => 2 | ROTATE => 3 end.

Definition sample_collaborators : Collaborators := {|
  SpriteState := Z * Z * Z;
  check_for_spatial_index_cycles := fun s => s.1.1;
  check_for_sprite_list_cycles := fun s => s.1.2;
  fix_disjoint_sprites := fun s => (s.2, (s.1.1, s.1.2, 0));
  ride_get_entrance_location :=
    fun ride i => RideStation.Entrance (Ride.stations ride i);
  ride_get_exit_location :=
    fun ride i => RideStation.Exit (Ride.stations ride i);
  isNull := fun c => CoordsXYZD.x c =? -32768;
  scenario_remove_trackless_rides := fun s6 => s6;
  scenario_fix_ghosts := fun s6 => s6;
  game_convert_strings_to_rct2 := fun s6 => s6;
  s6_bytes := fun s6 m _ =>
    match m with
    | m_header =>
        [rct_s6_header.type (rct_s6_data.header s6);
         uint8 (rct_s6_header.num_packed_objects (rct_s6_data.header s6))]
    | _ => [7; 7]
    end;
  sawyer_chunk := fun e bytes =>
    encoding_byte e :: IStream.uint32_bytes (Z.of_nat (length bytes)) ++ bytes;
  WritePackedObjects := fun stream objects =>
    IStream.Write (Z.of_nat <$> objects) stream;
  sawyercoding_calculate_checksum := fun bytes => uint32 (foldr Z.add 0 bytes);
|}.

Definition blank_station : RideStation := {|
  RideStation.Start := 0;
  RideStation.Height := 0;
  RideStation.Length := 0;
  RideStation.Depart := 0;
  RideStation.TrainAtStation := 0;
  RideStation.Entrance := CoordsXYZD.mk (-32768) 0 0 0;
  RideStation.Exit := CoordsXYZD.mk 3 258 0 0;
  RideStation.SegmentLength := 0;
  RideStation.SegmentTime := 0;
  RideStation.QueueTime := 0;
  RideStation.QueueLength := 0;
  RideStation.LastPeepInQueue := 0;
|}.

(** A live ride of the given id, type, hole and inversion counts, shelter
    and measurement, every other field zero: a building block for
    concrete parks. *)
Definition sample_ride (id : nat) (type holes inversions sheltered_eighths : Z)
    (m : option RideMeasurement) : Ride := {|
  Ride.id := id;
  Ride.type := type;
  Ride.subtype := 0;
  Ride.mode := 0;
  Ride.colour_scheme_type := 0;
  Ride.vehicle_colours := fun _ => VehicleColour.mk 0 0 0;
  Ride.status := 0;
  Ride.name := 0;
  Ride.name_arguments := 0;
  Ride.overall_view := 0;
  Ride.stations := fun _ => blank_station;
  Ride.vehicles := fun _ => 0;
  Ride.depart_flags := 0;
  Ride.num_stations := 0;
  Ride.num_vehicles := 0;
  Ride.num_cars_per_train := 0;
  Ride.proposed_num_vehicles := 0;
  Ride.proposed_num_cars_per_train := 0;
  Ride.max_trains := 0;
  Ride.min_max_cars_per_train := 0;
  Ride.min_waiting_time := 0;
  Ride.max_waiting_time := 0;
  Ride.operation_option := 0;
  Ride.boat_hire_return_direction := 0;
  Ride.boat_hire_return_position := 0;
  Ride.special_track_elements := 0;
  Ride.max_speed := 0;
  Ride.average_speed := 0;
  Ride.current_test_segment := 0;
  Ride.average_speed_test_timeout := 0;
  Ride.max_positive_vertical_g := 0;
  Ride.max_negative_vertical_g := 0;
  Ride.max_lateral_g := 0;
  Ride.previous_vertical_g := 0;
  Ride.previous_lateral_g := 0;
  Ride.testing_flags := 0;
  Ride.cur_test_track_location := 0;
  Ride.turn_count_default := 0;
  Ride.turn_count_banked := 0;
  Ride.turn_count_sloped := 0;
  Ride.holes := holes;
  Ride.inversions := inversions;
  Ride.sheltered_eighths := sheltered_eighths;
  Ride.drops := 0;
  Ride.start_drop_height := 0;
  Ride.highest_drop_height := 0;
  Ride.sheltered_length := 0;
  Ride.var_11C := 0;
  Ride.num_sheltered_sections := 0;
  Ride.cur_test_track_z := 0;
  Ride.cur_num_customers := 0;
  Ride.num_customers_timeout := 0;
  Ride.num_customers := fun _ => 0;
  Ride.price := 0;
  Ride.chairlift_bullwheel_location := fun _ => 0;
  Ride.chairlift_bullwheel_z := fun _ => 0;
  Ride.ratings := 0;
  Ride.value := 0;
  Ride.chairlift_bullwheel_rotation := 0;
  Ride.satisfaction := 0;
  Ride.satisfaction_time_out := 0;
  Ride.satisfaction_next := 0;
  Ride.window_invalidate_flags := 0;
  Ride.total_customers := 0;
  Ride.total_profit := 0;
  Ride.popularity := 0;
  Ride.popularity_time_out := 0;
  Ride.popularity_next := 0;
  Ride.num_riders := 0;
  Ride.music_tune_id := 0;
  Ride.slide_in_use := 0;
  Ride.slide_peep := 0;
  Ride.slide_peep_t_shirt_colour := 0;
  Ride.spiral_slide_progress := 0;
  Ride.build_date := 0;
  Ride.upkeep_cost := 0;
  Ride.race_winner := 0;
  Ride.music_position := 0;
  Ride.breakdown_reason_pending := 0;
  Ride.mechanic_status := 0;
  Ride.mechanic := 0;
  Ride.inspection_station := 0;
  Ride.broken_vehicle := 0;
  Ride.broken_car := 0;
  Ride.breakdown_reason := 0;
  Ride.price_secondary := 0;
  Ride.reliability := 0;
  Ride.unreliability_factor := 0;
  Ride.downtime := 0;
  Ride.inspection_interval := 0;
  Ride.last_inspection := 0;
  Ride.downtime_history := fun _ => 0;
  Ride.no_primary_items_sold := 0;
  Ride.no_secondary_items_sold := 0;
  Ride.breakdown_sound_modifier := 0;
  Ride.not_fixed_timeout := 0;
  Ride.last_crash_type := 0;
  Ride.connected_message_throttle := 0;
  Ride.income_per_hour := 0;
  Ride.profit := 0;
  Ride.track_colour := fun _ => TrackColour.mk 0 0 0;
  Ride.music := 0;
  Ride.entrance_style := 0;
  Ride.vehicle_change_timeout := 0;
  Ride.num_block_brakes := 0;
  Ride.lift_hill_speed := 0;
  Ride.guests_favourite := 0;
  Ride.lifecycle_flags := 0;
  Ride.total_air_time := 0;
  Ride.current_test_station := 0;
  Ride.num_circuits := 0;
  Ride.cable_lift_x := 0;
  Ride.cable_lift_y := 0;
  Ride.cable_lift_z := 0;
  Ride.cable_lift := 0;
  Ride.measurement := m;
|}.

(** A measurement owned by ride [ride], last used at [tick]. *)
Definition measurement_of (ride : nat) (tick : Z) : RideMeasurement := {|
  RideMeasurement.ride := ride;
  RideMeasurement.flags := 1;
  RideMeasurement.last_use_tick := tick;
  RideMeasurement.num_items := 0;
  RideMeasurement.current_item := 0;
  RideMeasurement.vehicle_index := 0;
  RideMeasurement.current_station := 0;
  RideMeasurement.velocity := [];
  RideMeasurement.altitude := [];
  RideMeasurement.vertical := [];
  RideMeasurement.lateral := [];
|}.

(** A park whose rides 0 to 8 each own a measurement, ride [i] last
    measured at tick [i + 1]; the other slots of the ride list are unused.
    Ride 1 has 40 inversions and is three eighths sheltered.  The sprite
    state is a parameter. *)
Definition park_with_sprites (sprites : Z * Z * Z) : @LiveState sample_collaborators :=
  @mkLiveState sample_collaborators
    (* gSprites *) sprites
    (* gInitialCash, gBankLoan, gMaxBankLoan *) 100000 100000 200000
    (* gPeepSpawns *) [CoordsXYZD.mk 70000 96 (-40) 1]
    (* gParkEntrances *) [CoordsXYZD.mk 1600 32 112 2]
    (* get_ride *)
    (fun i =>
       if (i <? 9)%nat then
         sample_ride i 0 0 (if (i =? 1)%nat then 40 else 0)
           (if (i =? 1)%nat then 3 else 0)
           (Some (measurement_of i (Z.of_nat i + 1)))
       else sample_ride i 255 0 0 0 None)
    (* ride_type_is_invented, ride_entry_is_invented, scenery_is_invented *)
    (fun i => (i mod 3 =? 0)%nat)
    (fun i => (i mod 5 =? 0)%nat)
    (fun i => (i mod 7 =? 0)%nat).

(** No cycle, three disjoint null sprites. *)
Definition nine_measured_rides : @LiveState sample_collaborators :=
  park_with_sprites (-1, -1, 3).

(** ** Closed forms used in the statements *)

(** The hash written with unsigned words only: the signed intermediate
    values of the source carry the same 32 bits. *)
Definition loan_hash_words (initialCash bankLoan maxBankLoan : Z) : Z :=
  let value := uint32 (0x70093A - initialCash) in
  let value := ror32 value 5 in
  let value := uint32 (value - bankLoan) in
  let value := ror32 value 7 in
  let value := uint32 (value + maxBankLoan) in
  ror32 value 3.

Section ClosedForms.
Context `{!LegacyConstants} `{!Collaborators}.

(** The body shared by the three researched-flag loops, and the loop
    after the [std::fill]. *)
Definition set_flag (invented : nat -> bool) (index : nat) (words : list Z) : list Z :=
  if invented index then
    alter (fun w => Z.lor w (uint32 (Z.shiftl 1 (Z.land (Z.of_nat index) 0x1F))))
          (Z.to_nat (Z.shiftr (Z.of_nat index) 5)) words
  else words.
Definition pack_flags (n : nat) (invented : nat -> bool) (words : list Z) : list Z :=
  for_loop n (set_flag invented) ((fun _ => 0) <$> words).

(** What holds of the words after [n] iterations: bit [b] of word [q] is
    set exactly when the flag [32 q + b] has been visited and is
    invented. *)
Definition packed_upto (n : nat) (invented : nat -> bool) (words : list Z) : Prop :=
  forall (q : nat) (w : Z), words !! q = Some w ->
    0 <= w /\
    forall b : Z, 0 <= b ->
      Z.testbit w b
      = bool_decide (b < 32 /\ 32 * Z.of_nat q + b < Z.of_nat n)
        && invented (Z.to_nat (32 * Z.of_nat q + b)).

(** The record [ExportRides] stores in slot [index]. *)
Definition exported_ride (live : LiveState) (index : nat) : rct2_ride :=
  let src := get_ride live index in
  if Ride.type src =? RIDE_TYPE_NULL
  then rct2_ride.set_type RIDE_TYPE_NULL rct2_ride_zero
  else ExportRide src.

(** The record [ExportPeepSpawns] stores in slot [i]. *)
Definition exported_peep_spawn (live : LiveState) (i : nat) : rct12_peep_spawn :=
  match gPeepSpawns live !! i with
  | Some src =>
      rct12_peep_spawn.mk (uint16 (CoordsXYZD.x src)) (uint16 (CoordsXYZD.y src))
        (uint8 (Z.quot (CoordsXYZD.z src) 16)) (CoordsXYZD.direction src)
  | None => rct12_peep_spawn.mk PEEP_SPAWN_UNDEFINED PEEP_SPAWN_UNDEFINED 0 0
  end.

(** The entrance the park-entrance loop exports to slot [i]. *)
Definition exported_park_entrance (live : LiveState) (i : nat) : CoordsXYZD :=
  match gParkEntrances live !! i with
  | Some e => e
  | None => CoordsXYZD.mk LOCATION_NULL LOCATION_NULL 0 0
  end.

(** The record the measurement loop leaves in the slot of [src]. *)
Definition exported_measurement (src : RideMeasurement) : RCT12RideMeasurement :=
  RCT12RideMeasurement.set_ride_index (Z.of_nat (RideMeasurement.ride src))
    (ExportRideMeasurement RCT12RideMeasurement_zero src).

(** The count a ride stores in the low bits of its [inversions] byte. *)
Definition inversion_count (src : Ride) : Z :=
  if Ride.type src =? RIDE_TYPE_MINI_GOLF then Ride.holes src else Ride.inversions src.
Definition inversion_count_max (src : Ride) : Z :=
  if Ride.type src =? RIDE_TYPE_MINI_GOLF then RCT12_MAX_GOLF_HOLES
  else RCT12_MAX_INVERSIONS.

End ClosedForms.

(** "Truncation to the legacy field width", read for the five-bit count
    of the inversions byte of the record exported for [src]. *)
Definition inversion_count_truncated `{!LegacyConstants} `{!Collaborators}
    (src : Ride) : Prop :=
  Z.land (rct2_ride.inversions (ExportRide src)) 0x1F = inversion_count src mod 2 ^ 5.

(** The bytes an event of [Save] puts on the stream, when the event is a
    chunk. *)
Definition event_bytes `{!Collaborators} (s6 : rct_s6_data) (ev : SaveEvent) : list Z :=
  match ev with
  | WroteChunk c => sawyer_chunk (chunk_encoding c) (s6_bytes s6 (chunk_start c) (chunk_size c))
  | WrotePackedObjects => []
  end.

(** The bytes an event of [Save] puts on the stream, [packed] being the
    bytes of the packed objects. *)
Definition event_output `{!Collaborators} (packed : list Z) (s6 : rct_s6_data)
    (ev : SaveEvent) : list Z :=
  match ev with
  | WroteChunk c => sawyer_chunk (chunk_encoding c) (s6_bytes s6 (chunk_start c) (chunk_size c))
  | WrotePackedObjects => packed
  end.

(** [WritePackedObjects] writes the bytes [packed_bytes objects] at the
    position of the stream. *)
Definition packed_objects_appended `{!Collaborators}
    (packed_bytes : list nat -> list Z) : Prop :=
  forall (stream : IStream) (objects : list nat),
    WritePackedObjects stream objects = IStream.Write (packed_bytes objects) stream.

(** The events of [Save] before the tail. *)
Definition head_events (info packed : bool) : list SaveEvent :=
  [WroteChunk (mkChunk m_header SizeOfMember ROTATE)]
  ++ (if info then [scenario_info_chunk] else [])
  ++ (if packed then [WrotePackedObjects] else [])
  ++ [WroteChunk (mkChunk m_objects SizeOfMember ROTATE);
      WroteChunk (mkChunk m_elapsed_months (Bytes 16) RLECOMPRESSED);
      WroteChunk (mkChunk m_tile_elements (Bytes 0x180000) RLECOMPRESSED)].

Section LruStatements.
Context `{!LegacyConstants} `{!Collaborators}.

(** The three assignments of one iteration of the measurement loop. *)
Definition write_slot (src : RideMeasurement) (i : Z) (s6 : rct_s6_data) : rct_s6_data :=
  let slot := Z.to_nat i in
  let s6 :=
    rct_s6_data.set_ride_measurements
      (alter (fun dst => ExportRideMeasurement dst src) slot
             (rct_s6_data.ride_measurements s6)) s6 in
  let rideId := RideMeasurement.ride src in
  let s6 :=
    rct_s6_data.set_ride_measurements
      (alter (RCT12RideMeasurement.set_ride_index (Z.of_nat rideId)) slot
             (rct_s6_data.ride_measurements s6)) s6 in
  rct_s6_data.set_rides
    (alter (rct2_ride.set_measurement_index i) rideId (rct_s6_data.rides s6)) s6.

(** The samples that stay and the samples that go when a park has more
    measurements than the table holds. *)
Definition kept_measurements (live : LiveState) : list RideMeasurement :=
  take RCT12_RIDE_MEASUREMENT_MAX_ITEMS
    (sort_by_last_use (collect_ride_measurements live)).
Definition evicted_measurements (live : LiveState) : list RideMeasurement :=
  drop RCT12_RIDE_MEASUREMENT_MAX_ITEMS
    (sort_by_last_use (collect_ride_measurements live)).

(** "The kept samples appear in their original relative order": of two
    samples in the table, the one in the lower slot comes first in the
    collection gathered from the ride list. *)
Definition exported_in_original_order (live : LiveState) (s6 : rct_s6_data) : Prop :=
  forall (i j p q : nat) (m n : RideMeasurement),
    (i < j)%nat ->
    collect_ride_measurements live !! p = Some m ->
    collect_ride_measurements live !! q = Some n ->
    rct_s6_data.ride_measurements s6 !! i = Some (exported_measurement m) ->
    rct_s6_data.ride_measurements s6 !! j = Some (exported_measurement n) ->
    (p < q)%nat.

(** "Every evicted owner's back-reference is set to none", for a value
    [none] of the back-reference field. *)
Definition evicted_owners_marked (none : Z) (live : LiveState) (s6 : rct_s6_data)
    : Prop :=
  forall e : RideMeasurement,
    e ∈ evicted_measurements live ->
    rct2_ride.measurement_index <$> rct_s6_data.rides s6 !! RideMeasurement.ride e
    = Some none.

End LruStatements.

(** The park [nine_measured_rides] after the rides and the measurements
    are exported into a fresh S6 record. *)
Definition nine_measured_rides_exported : rct_s6_data :=
  @ExportRideMeasurements rct2_constants sample_collaborators nine_measured_rides
    (@ExportRides rct2_constants sample_collaborators nine_measured_rides
       (@rct_s6_data_zero rct2_constants)).

(** * Further routines of S6Exporter.cpp

    The members of [_s6] that these routines fill are kept in records of
    their own, one per routine. *)

(** ** S6Exporter::ExportMarketingCampaigns *)

(** MarketingCampaign (management/Marketing.h): [Type], [WeeksLeft],
    [Flags] and a union of [RideId] and [ShopItemType], given here by its
    two readings. *)
Module MarketingCampaign.
Record t := mk {
  Type_ : Z;
  WeeksLeft : Z;
  Flags : Z;
  RideId : Z;
  ShopItemType : Z;
}.
End MarketingCampaign.
Definition MarketingCampaign := MarketingCampaign.t.

(** Constants of management/Marketing.h. *)
Class MarketingConstants := {
  ADVERTISING_CAMPAIGN_RIDE_FREE : Z;
  ADVERTISING_CAMPAIGN_FOOD_OR_DRINK_FREE : Z;
  ADVERTISING_CAMPAIGN_RIDE : Z;
  CAMPAIGN_ACTIVE_FLAG : Z;
}.

Definition marketing_constants : MarketingConstants := {|
  ADVERTISING_CAMPAIGN_RIDE_FREE := 1;
  ADVERTISING_CAMPAIGN_FOOD_OR_DRINK_FREE := 3;
  ADVERTISING_CAMPAIGN_RIDE := 5;
  CAMPAIGN_ACTIVE_FLAG := 128;
|}.

(** The two [uint8_t] arrays of [_s6] that the routine fills. *)
Module rct_s6_campaigns.
Record t := mk {
  campaign_weeks_left : list Z;
  campaign_ride_index : list Z;
}.
Definition set_campaign_weeks_left v s := mk v (campaign_ride_index s).
Definition set_campaign_ride_index v s := mk (campaign_weeks_left s) v.
End rct_s6_campaigns.
Definition rct_s6_campaigns := rct_s6_campaigns.t.

Section MarketingCampaigns.
Context `{!MarketingConstants}.

(** Both arrays are cleared, then the range-for over [gMarketingCampaigns]
    writes the slots of each campaign's [Type].  A slot outside an array
    is not written. *)
Definition ExportMarketingCampaigns (gMarketingCampaigns : list MarketingCampaign)
    (s6 : rct_s6_campaigns) : rct_s6_campaigns :=
  let s6 :=
    rct_s6_campaigns.set_campaign_weeks_left
      ((fun _ => 0) <$> rct_s6_campaigns.campaign_weeks_left s6) s6 in
  let s6 :=
    rct_s6_campaigns.set_campaign_ride_index
      ((fun _ => 0) <$> rct_s6_campaigns.campaign_ride_index s6) s6 in
  foldl
    (fun s6 campaign =>
       let type := Z.to_nat (MarketingCampaign.Type_ campaign) in
       let s6 :=
         rct_s6_campaigns.set_campaign_weeks_left
           (<[type := uint8 (Z.lor (MarketingCampaign.WeeksLeft campaign)
                                   CAMPAIGN_ACTIVE_FLAG)]>
              (rct_s6_campaigns.campaign_weeks_left s6)) s6 in
       if (MarketingCampaign.Type_ campaign =? ADVERTISING_CAMPAIGN_RIDE_FREE)
          || (MarketingCampaign.Type_ campaign =? ADVERTISING_CAMPAIGN_RIDE)
       then
         rct_s6_campaigns.set_campaign_ride_index
           (<[type := uint8 (MarketingCampaign.RideId campaign)]>
              (rct_s6_campaigns.campaign_ride_index s6)) s6
       else if MarketingCampaign.Type_ campaign
               =? ADVERTISING_CAMPAIGN_FOOD_OR_DRINK_FREE
       then
         rct_s6_campaigns.set_campaign_ride_index
           (<[type := uint8 (MarketingCampaign.ShopItemType campaign)]>
              (rct_s6_campaigns.campaign_ride_index s6)) s6
       else s6)
    s6 gMarketingCampaigns.

End MarketingCampaigns.

(** ** The 64-bit registers split in two 32-bit halves by Export *)

(** The two local arrays of [Export], [uint32_t researchedTrackPiecesA[128]]
    and [...B[128]]: they are declared without an initialiser, so the
    loop starts from whatever they hold ([stackA], [stackB]); its counter
    is a [uint8_t], and [RideTypePossibleTrackConfigurations] has fewer
    than 256 entries.  The two [memcpy] then fill the two members of
    [_s6], which have the size of the local arrays. *)
Definition researched_track_pieces (RideTypePossibleTrackConfigurations : list Z)
    (stackA stackB : list Z) : list Z * list Z :=
  for_loop (length RideTypePossibleTrackConfigurations)
    (fun i '(researchedTrackPiecesA, researchedTrackPiecesB) =>
       let config := RideTypePossibleTrackConfigurations !!! i in
       (<[i := Z.land config 0xFFFFFFFF]> researchedTrackPiecesA,
        <[i := Z.land (Z.shiftr config 32) 0xFFFFFFFF]> researchedTrackPiecesB))
    (stackA, stackB).

(** [_s6.same_price_throughout] and [_s6.same_price_throughout_extended],
    both [uint32_t], from the [uint64_t] register. *)
Definition same_price_throughout (gSamePriceThroughoutPark : Z) : Z :=
  uint32 (Z.land gSamePriceThroughoutPark 0xFFFFFFFF).
Definition same_price_throughout_extended (gSamePriceThroughoutPark : Z) : Z :=
  uint32 (Z.shiftr gSamePriceThroughoutPark 32).

(** ** Sprites

    A sprite of the game is a union ([rct_sprite]) whose members all
    begin with the common properties; which member is meant is told by
    [sprite_identifier] and, for the miscellaneous sprites, by [type].
    The union is given by the readings the exporter makes of it: the
    common properties once, and for every member the members that follow
    them. *)

(** Constants of world/Sprite.h and of the headers of the sprite
    structures. *)
Class SpriteConstants := {
  SPRITE_IDENTIFIER_VEHICLE : Z;
  SPRITE_IDENTIFIER_PEEP : Z;
  SPRITE_IDENTIFIER_MISC : Z;
  SPRITE_IDENTIFIER_LITTER : Z;
  SPRITE_IDENTIFIER_NULL : Z;
  SPRITE_MISC_STEAM_PARTICLE : Z;
  SPRITE_MISC_MONEY_EFFECT : Z;
  SPRITE_MISC_CRASHED_VEHICLE_PARTICLE : Z;
  SPRITE_MISC_EXPLOSION_CLOUD : Z;
  SPRITE_MISC_CRASH_SPLASH : Z;
  SPRITE_MISC_EXPLOSION_FLARE : Z;
  SPRITE_MISC_JUMPING_FOUNTAIN_WATER : Z;
  SPRITE_MISC_BALLOON : Z;
  SPRITE_MISC_DUCK : Z;
  SPRITE_MISC_JUMPING_FOUNTAIN_SNOW : Z;
  RCT2_MAX_SPRITES : nat;
  NUM_SPRITE_LISTS : nat;
  (* std::size of the arrays of a vehicle and of a peep *)
  vehicle_peep_size : nat;
  peep_ride_types_been_on_size : nat;
  peep_rides_been_on_size : nat;
  peep_thoughts_size : nat;
  peep_pathfind_history_size : nat;
}.

(** The values of the constants in the game. *)
Definition sprite_constants : SpriteConstants := {|
  SPRITE_IDENTIFIER_VEHICLE := 0;
  SPRITE_IDENTIFIER_PEEP := 1;
  SPRITE_IDENTIFIER_MISC := 2;
  SPRITE_IDENTIFIER_LITTER := 3;
  SPRITE_IDENTIFIER_NULL := 255;
  SPRITE_MISC_STEAM_PARTICLE := 0;
  SPRITE_MISC_MONEY_EFFECT := 1;
  SPRITE_MISC_CRASHED_VEHICLE_PARTICLE := 2;
  SPRITE_MISC_EXPLOSION_CLOUD := 3;
  SPRITE_MISC_CRASH_SPLASH := 4;
  SPRITE_MISC_EXPLOSION_FLARE := 5;
  SPRITE_MISC_JUMPING_FOUNTAIN_WATER := 6;
  SPRITE_MISC_BALLOON := 7;
  SPRITE_MISC_DUCK := 8;
  SPRITE_MISC_JUMPING_FOUNTAIN_SNOW := 9;
  RCT2_MAX_SPRITES := 100 * 100;
  NUM_SPRITE_LISTS := 6;
  vehicle_peep_size := 32;
  peep_ride_types_been_on_size := 16;
  peep_rides_been_on_size := 32;
  peep_thoughts_size := 5;
  peep_pathfind_history_size := 4;
|}.

(** rct_sprite_common: the members every sprite begins with. *)
Module rct_sprite_common.
Record t := mk {
  sprite_identifier : Z;
  type : Z;
  next_in_quadrant : Z;
  next : Z;
  previous : Z;
  linked_list_type_offset : Z;
  sprite_height_negative : Z;
  sprite_index : Z;
  flags : Z;
  x : Z;
  y : Z;
  z : Z;
  sprite_width : Z;
  sprite_height_positive : Z;
  sprite_left : Z;
  sprite_top : Z;
  sprite_right : Z;
  sprite_bottom : Z;
  sprite_direction : Z;
}.
End rct_sprite_common.
Definition rct_sprite_common := rct_sprite_common.t.

(** RCT12SpriteBase: the same members in the legacy layout. *)
Module RCT12SpriteBase.
Record t := mk {
  sprite_identifier : Z;
  type : Z;
  next_in_quadrant : Z;
  next : Z;
  previous : Z;
  linked_list_type_offset : Z;
  sprite_height_negative : Z;
  sprite_index : Z;
  flags : Z;
  x : Z;
  y : Z;
  z : Z;
  sprite_width : Z;
  sprite_height_positive : Z;
  sprite_left : Z;
  sprite_top : Z;
  sprite_right : Z;
  sprite_bottom : Z;
  sprite_direction : Z;
}.
End RCT12SpriteBase.
Definition RCT12SpriteBase := RCT12SpriteBase.t.

(** rct_vehicle (ride/Vehicle.h): the members after the common ones that
    the exporter reads; arrays are functions of the index. *)
Module rct_vehicle.
Record t := mk {
  vehicle_sprite_type : Z;
  bank_rotation : Z;
  remaining_distance : Z;
  velocity : Z;
  acceleration : Z;
  ride : Z;
  vehicle_type : Z;
  colours : Z;
  track_progress : Z;
  track_direction : Z;
  track_type : Z;
  track_x : Z;
  track_y : Z;
  track_z : Z;
  next_vehicle_on_train : Z;
  prev_vehicle_on_ride : Z;
  next_vehicle_on_ride : Z;
  var_44 : Z;
  mass : Z;
  update_flags : Z;
  swing_sprite : Z;
  current_station : Z;
  current_time : Z;
  crash_z : Z;
  status : Z;
  sub_state : Z;
  peep : nat -> Z;
  peep_tshirt_colours : nat -> Z;
  num_seats : Z;
  num_peeps : Z;
  next_free_seat : Z;
  restraints_position : Z;
  crash_x : Z;
  sound2_flags : Z;
  spin_sprite : Z;
  sound1_id : Z;
  sound1_volume : Z;
  sound2_id : Z;
  sound2_volume : Z;
  sound_vector_factor : Z;
  time_waiting : Z;
  speed : Z;
  powered_acceleration : Z;
  dodgems_collision_direction : Z;
  animation_frame : Z;
  var_C8 : Z;
  var_CA : Z;
  scream_sound_id : Z;
  var_CD : Z;
  var_CE : Z;
  var_CF : Z;
  lost_time_out : Z;
  vertical_drop_countdown : Z;
  var_D3 : Z;
  mini_golf_current_animation : Z;
  mini_golf_flags : Z;
  ride_subtype : Z;
  colours_extended : Z;
  seat_rotation : Z;
  target_seat_rotation : Z;
}.
End rct_vehicle.
Definition rct_vehicle := rct_vehicle.t.

(** RCT2SpriteVehicle (rct2/RCT2.h): the members after the common ones. *)
Module RCT2SpriteVehicle.
Record t := mk {
  vehicle_sprite_type : Z;
  bank_rotation : Z;
  remaining_distance : Z;
  velocity : Z;
  acceleration : Z;
  ride : Z;
  vehicle_type : Z;
  colours : Z;
  track_progress : Z;
  track_direction : Z;
  track_type : Z;
  track_x : Z;
  track_y : Z;
  track_z : Z;
  next_vehicle_on_train : Z;
  prev_vehicle_on_ride : Z;
  next_vehicle_on_ride : Z;
  var_44 : Z;
  mass : Z;
  update_flags : Z;
  swing_sprite : Z;
  current_station : Z;
  current_time : Z;
  crash_z : Z;
  status : Z;
  sub_state : Z;
  peep : list Z;
  peep_tshirt_colours : list Z;
  num_seats : Z;
  num_peeps : Z;
  next_free_seat : Z;
  restraints_position : Z;
  crash_x : Z;
  sound2_flags : Z;
  spin_sprite : Z;
  sound1_id : Z;
  sound1_volume : Z;
  sound2_id : Z;
  sound2_volume : Z;
  sound_vector_factor : Z;
  time_waiting : Z;
  speed : Z;
  powered_acceleration : Z;
  dodgems_collision_direction : Z;
  animation_frame : Z;
  var_C8 : Z;
  var_CA : Z;
  scream_sound_id : Z;
  var_CD : Z;
  var_CE : Z;
  var_CF : Z;
  lost_time_out : Z;
  vertical_drop_countdown : Z;
  var_D3 : Z;
  mini_golf_current_animation : Z;
  mini_golf_flags : Z;
  ride_subtype : Z;
  colours_extended : Z;
  seat_rotation : Z;
  target_seat_rotation : Z;
}.
End RCT2SpriteVehicle.
Definition RCT2SpriteVehicle := RCT2SpriteVehicle.t.

(** rct_peep_thought and its legacy counterpart. *)
Module rct_peep_thought.
Record t := mk { type : Z; item : Z; freshness : Z; fresh_timeout : Z }.
End rct_peep_thought.
Definition rct_peep_thought := rct_peep_thought.t.

Module rct12_peep_thought.
Record t := mk { type : Z; item : Z; freshness : Z; fresh_timeout : Z }.
End rct12_peep_thought.
Definition rct12_peep_thought := rct12_peep_thought.t.

(** Peep (peep/Peep.h): the members after the common ones that the
    exporter reads.  [type] is the [PeepType] member of Peep, not the
    [type] of the common properties. *)
Module Peep.
Record t := mk {
  name_string_idx : Z;
  next_x : Z;
  next_y : Z;
  next_z : Z;
  next_flags : Z;
  outside_of_park : Z;
  state : Z;
  sub_state : Z;
  sprite_type : Z;
  type : Z;
  no_of_rides : Z;
  tshirt_colour : Z;
  trousers_colour : Z;
  destination_x : Z;
  destination_y : Z;
  destination_tolerance : Z;
  var_37 : Z;
  energy : Z;
  energy_target : Z;
  happiness : Z;
  happiness_target : Z;
  nausea : Z;
  nausea_target : Z;
  hunger : Z;
  thirst : Z;
  toilet : Z;
  mass : Z;
  time_to_consume : Z;
  intensity : Z;
  nausea_tolerance : Z;
  window_invalidate_flags : Z;
  paid_on_drink : Z;
  ride_types_been_on : nat -> Z;
  item_extra_flags : Z;
  photo2_ride_ref : Z;
  photo3_ride_ref : Z;
  photo4_ride_ref : Z;
  current_ride : Z;
  current_ride_station : Z;
  current_train : Z;
  time_to_sitdown : Z;
  special_sprite : Z;
  action_sprite_type : Z;
  next_action_sprite_type : Z;
  action_sprite_image_offset : Z;
  action : Z;
  action_frame : Z;
  step_progress : Z;
  next_in_queue : Z;
  direction : Z;
  interaction_ride_index : Z;
  time_in_queue : Z;
  rides_been_on : nat -> Z;
  id : Z;
  cash_in_pocket : Z;
  cash_spent : Z;
  time_in_park : Z;
  rejoin_queue_timeout : Z;
  previous_ride : Z;
  previous_ride_time_out : Z;
  thoughts : nat -> rct_peep_thought;
  path_check_optimisation : Z;
  guest_heading_to_ride_id : Z;
  peep_is_lost_countdown : Z;
  photo1_ride_ref : Z;
  peep_flags : Z;
  pathfind_goal : Z;
  pathfind_history : nat -> Z;
  no_action_frame_num : Z;
  litter_count : Z;
  time_on_ride : Z;
  disgusting_count : Z;
  paid_to_enter : Z;
  paid_on_rides : Z;
  paid_on_food : Z;
  paid_on_souvenirs : Z;
  no_of_food : Z;
  no_of_drinks : Z;
  no_of_souvenirs : Z;
  vandalism_seen : Z;
  voucher_type : Z;
  voucher_arguments : Z;
  surroundings_thought_timeout : Z;
  angriness : Z;
  time_lost : Z;
  days_in_queue : Z;
  balloon_colour : Z;
  umbrella_colour : Z;
  hat_colour : Z;
  favourite_ride : Z;
  favourite_ride_rating : Z;
  item_standard_flags : Z;
}.
End Peep.
Definition Peep := Peep.t.

(** RCT2SpritePeep (rct2/RCT2.h): the members after the common ones. *)
Module RCT2SpritePeep.
Record t := mk {
  name_string_idx : Z;
  next_x : Z;
  next_y : Z;
  next_z : Z;
  next_flags : Z;
  outside_of_park : Z;
  state : Z;
  sub_state : Z;
  sprite_type : Z;
  peep_type : Z;
  no_of_rides : Z;
  tshirt_colour : Z;
  trousers_colour : Z;
  destination_x : Z;
  destination_y : Z;
  destination_tolerance : Z;
  var_37 : Z;
  energy : Z;
  energy_target : Z;
  happiness : Z;
  happiness_target : Z;
  nausea : Z;
  nausea_target : Z;
  hunger : Z;
  thirst : Z;
  toilet : Z;
  mass : Z;
  time_to_consume : Z;
  intensity : Z;
  nausea_tolerance : Z;
  window_invalidate_flags : Z;
  paid_on_drink : Z;
  ride_types_been_on : list Z;
  item_extra_flags : Z;
  photo2_ride_ref : Z;
  photo3_ride_ref : Z;
  photo4_ride_ref : Z;
  current_ride : Z;
  current_ride_station : Z;
  current_train : Z;
  time_to_sitdown : Z;
  special_sprite : Z;
  action_sprite_type : Z;
  next_action_sprite_type : Z;
  action_sprite_image_offset : Z;
  action : Z;
  action_frame : Z;
  step_progress : Z;
  next_in_queue : Z;
  direction : Z;
  interaction_ride_index : Z;
  time_in_queue : Z;
  rides_been_on : list Z;
  id : Z;
  cash_in_pocket : Z;
  cash_spent : Z;
  time_in_park : Z;
  rejoin_queue_timeout : Z;
  previous_ride : Z;
  previous_ride_time_out : Z;
  thoughts : list rct12_peep_thought;
  path_check_optimisation : Z;
  guest_heading_to_ride_id : Z;
  peep_is_lost_countdown : Z;
  photo1_ride_ref : Z;
  peep_flags : Z;
  pathfind_goal : Z;
  pathfind_history : list Z;
  no_action_frame_num : Z;
  litter_count : Z;
  time_on_ride : Z;
  disgusting_count : Z;
  paid_to_enter : Z;
  paid_on_rides : Z;
  paid_on_food : Z;
  paid_on_souvenirs : Z;
  no_of_food : Z;
  no_of_drinks : Z;
  no_of_souvenirs : Z;
  vandalism_seen : Z;
  voucher_type : Z;
  voucher_arguments : Z;
  surroundings_thought_timeout : Z;
  angriness : Z;
  time_lost : Z;
  days_in_queue : Z;
  balloon_colour : Z;
  umbrella_colour : Z;
  hat_colour : Z;
  favourite_ride : Z;
  favourite_ride_rating : Z;
  item_standard_flags : Z;
}.
End RCT2SpritePeep.
Definition RCT2SpritePeep := RCT2SpritePeep.t.

(** The miscellaneous sprites: the members after the common ones.  The
    live and the legacy structure of a kind name the same members, so one
    record serves for both; [colour_0] and [colour_1] are [colour[0]] and
    [colour[1]].  The source assigns [frame] of the crashed vehicle
    particle twice, from the same member. *)
Module SteamParticle.
Record t := mk {
  time_to_move : Z;
  frame : Z;
}.
End SteamParticle.
Definition SteamParticle := SteamParticle.t.

Module MoneyEffect.
Record t := mk {
  move_delay : Z;
  num_movements : Z;
  vertical : Z;
  value : Z;
  offset_x : Z;
  wiggle : Z;
}.
End MoneyEffect.
Definition MoneyEffect := MoneyEffect.t.

Module CrashedVehicleParticle.
Record t := mk {
  frame : Z;
  time_to_live : Z;
  colour_0 : Z;
  colour_1 : Z;
  crashed_sprite_base : Z;
  velocity_x : Z;
  velocity_y : Z;
  velocity_z : Z;
  acceleration_x : Z;
  acceleration_y : Z;
  acceleration_z : Z;
}.
End CrashedVehicleParticle.
Definition CrashedVehicleParticle := CrashedVehicleParticle.t.

Module Particle.
Record t := mk {
  frame : Z;
}.
End Particle.
Definition Particle := Particle.t.

Module JumpingFountain.
Record t := mk {
  num_ticks_alive : Z;
  frame : Z;
  fountain_flags : Z;
  target_x : Z;
  target_y : Z;
  iteration : Z;
}.
End JumpingFountain.
Definition JumpingFountain := JumpingFountain.t.

Module Balloon.
Record t := mk {
  popped : Z;
  time_to_move : Z;
  frame : Z;
  colour : Z;
}.
End Balloon.
Definition Balloon := Balloon.t.

Module Duck.
Record t := mk {
  frame : Z;
  target_x : Z;
  target_y : Z;
  state : Z;
}.
End Duck.
Definition Duck := Duck.t.

(** rct_sprite: the union, by its readings. *)
Module rct_sprite.
Record t := mk {
  generic : rct_sprite_common;
  vehicle : rct_vehicle;
  peep : Peep;
  (* rct_litter: [creationTick] *)
  litter : Z;
  steam_particle : SteamParticle;
  money_effect : MoneyEffect;
  crashed_vehicle_particle : CrashedVehicleParticle;
  (* rct_sprite_generic: [frame] *)
  particle : Particle;
  jumping_fountain : JumpingFountain;
  balloon : Balloon;
  duck : Duck;
}.
End rct_sprite.
Definition rct_sprite := rct_sprite.t.

(** RCT2Sprite: the legacy union.  [ExportSprite] clears it and then
    writes the common properties and the members of at most one kind, so
    it is given by the common properties and the kind that was written;
    every other byte is zero. *)
Inductive RCT2SpriteMembers :=
| no_members
| vehicle_members (dst : RCT2SpriteVehicle)
| peep_members (dst : RCT2SpritePeep)
| litter_members (creationTick : Z)
| steam_particle_members (dst : SteamParticle)
| money_effect_members (dst : MoneyEffect)
| crashed_vehicle_particle_members (dst : CrashedVehicleParticle)
| particle_members (dst : Particle)
| jumping_fountain_members (dst : JumpingFountain)
| balloon_members (dst : Balloon)
| duck_members (dst : Duck).

Module RCT2Sprite.
Record t := mk {
  unknown : RCT12SpriteBase;
  members : RCT2SpriteMembers;
}.
End RCT2Sprite.
Definition RCT2Sprite := RCT2Sprite.t.

(** The two [log_warning] of the sprite export, each with its [%d]
    argument. *)
Inductive SpriteWarning :=
| SpriteIdentifierCanNotBeExported (sprite_identifier : Z)
| MiscSpriteTypeCanNotBeExported (type : Z).

(** The sprite pool of the game and the functions of world/Sprite.h that
    reach it. *)
Class SpriteCollaborators := {
  SpritePool : Type;
  sprite_clear_all_unused : SpritePool -> SpritePool;
  get_sprite : SpritePool -> nat -> rct_sprite;
  gSpriteListHead : SpritePool -> nat -> Z;
  gSpriteListCount : SpritePool -> nat -> Z;
}.

(** The three members of [_s6] that [ExportSprites] fills. *)
Module rct_s6_sprites.
Record t := mk {
  sprites : list RCT2Sprite;
  sprite_lists_head : list Z;
  sprite_lists_count : list Z;
}.
Definition set_sprites v s := mk v (sprite_lists_head s) (sprite_lists_count s).
Definition set_sprite_lists_head v s := mk (sprites s) v (sprite_lists_count s).
Definition set_sprite_lists_count v s := mk (sprites s) (sprite_lists_head s) v.
End rct_s6_sprites.
Definition rct_s6_sprites := rct_s6_sprites.t.

Section Sprites.
Context `{!SpriteConstants}.

(** S6Exporter::ExportSpriteCommonProperties *)
Definition ExportSpriteCommonProperties (src : rct_sprite_common) : RCT12SpriteBase := {|
  RCT12SpriteBase.sprite_identifier := rct_sprite_common.sprite_identifier src;
  RCT12SpriteBase.type := rct_sprite_common.type src;
  RCT12SpriteBase.next_in_quadrant := rct_sprite_common.next_in_quadrant src;
  RCT12SpriteBase.next := rct_sprite_common.next src;
  RCT12SpriteBase.previous := rct_sprite_common.previous src;
  RCT12SpriteBase.linked_list_type_offset := rct_sprite_common.linked_list_type_offset src;
  RCT12SpriteBase.sprite_height_negative := rct_sprite_common.sprite_height_negative src;
  RCT12SpriteBase.sprite_index := rct_sprite_common.sprite_index src;
  RCT12SpriteBase.flags := rct_sprite_common.flags src;
  RCT12SpriteBase.x := rct_sprite_common.x src;
  RCT12SpriteBase.y := rct_sprite_common.y src;
  RCT12SpriteBase.z := rct_sprite_common.z src;
  RCT12SpriteBase.sprite_width := rct_sprite_common.sprite_width src;
  RCT12SpriteBase.sprite_height_positive := rct_sprite_common.sprite_height_positive src;
  RCT12SpriteBase.sprite_left := rct_sprite_common.sprite_left src;
  RCT12SpriteBase.sprite_top := rct_sprite_common.sprite_top src;
  RCT12SpriteBase.sprite_right := rct_sprite_common.sprite_right src;
  RCT12SpriteBase.sprite_bottom := rct_sprite_common.sprite_bottom src;
  RCT12SpriteBase.sprite_direction := rct_sprite_common.sprite_direction src;
|}.

(** S6Exporter::ExportSpriteVehicle: the common properties, then the
    assignments in the order of the source. *)
Definition ExportSpriteVehicle (csrc : rct_sprite_common) (src : rct_vehicle)
    : RCT2Sprite :=
  RCT2Sprite.mk (ExportSpriteCommonProperties csrc)
    (vehicle_members {|
     RCT2SpriteVehicle.vehicle_sprite_type := rct_vehicle.vehicle_sprite_type src;
     RCT2SpriteVehicle.bank_rotation := rct_vehicle.bank_rotation src;
     RCT2SpriteVehicle.remaining_distance := rct_vehicle.remaining_distance src;
     RCT2SpriteVehicle.velocity := rct_vehicle.velocity src;
     RCT2SpriteVehicle.acceleration := rct_vehicle.acceleration src;
     RCT2SpriteVehicle.ride := rct_vehicle.ride src;
     RCT2SpriteVehicle.vehicle_type := rct_vehicle.vehicle_type src;
     RCT2SpriteVehicle.colours := rct_vehicle.colours src;
     RCT2SpriteVehicle.track_progress := rct_vehicle.track_progress src;
     RCT2SpriteVehicle.track_direction := rct_vehicle.track_direction src;
     RCT2SpriteVehicle.track_type := rct_vehicle.track_type src;
     RCT2SpriteVehicle.track_x := rct_vehicle.track_x src;
     RCT2SpriteVehicle.track_y := rct_vehicle.track_y src;
     RCT2SpriteVehicle.track_z := rct_vehicle.track_z src;
     RCT2SpriteVehicle.next_vehicle_on_train := rct_vehicle.next_vehicle_on_train src;
     RCT2SpriteVehicle.prev_vehicle_on_ride := rct_vehicle.prev_vehicle_on_ride src;
     RCT2SpriteVehicle.next_vehicle_on_ride := rct_vehicle.next_vehicle_on_ride src;
     RCT2SpriteVehicle.var_44 := rct_vehicle.var_44 src;
     RCT2SpriteVehicle.mass := rct_vehicle.mass src;
     RCT2SpriteVehicle.update_flags := rct_vehicle.update_flags src;
     RCT2SpriteVehicle.swing_sprite := rct_vehicle.swing_sprite src;
     RCT2SpriteVehicle.current_station := rct_vehicle.current_station src;
     RCT2SpriteVehicle.current_time := rct_vehicle.current_time src;
     RCT2SpriteVehicle.crash_z := rct_vehicle.crash_z src;
     RCT2SpriteVehicle.status := rct_vehicle.status src;
     RCT2SpriteVehicle.sub_state := rct_vehicle.sub_state src;
     RCT2SpriteVehicle.peep := rct_vehicle.peep src <$> seq 0 vehicle_peep_size;
     RCT2SpriteVehicle.peep_tshirt_colours :=
       rct_vehicle.peep_tshirt_colours src <$> seq 0 vehicle_peep_size;
     RCT2SpriteVehicle.num_seats := rct_vehicle.num_seats src;
     RCT2SpriteVehicle.num_peeps := rct_vehicle.num_peeps src;
     RCT2SpriteVehicle.next_free_seat := rct_vehicle.next_free_seat src;
     RCT2SpriteVehicle.restraints_position := rct_vehicle.restraints_position src;
     RCT2SpriteVehicle.crash_x := rct_vehicle.crash_x src;
     RCT2SpriteVehicle.sound2_flags := rct_vehicle.sound2_flags src;
     RCT2SpriteVehicle.spin_sprite := rct_vehicle.spin_sprite src;
     RCT2SpriteVehicle.sound1_id := rct_vehicle.sound1_id src;
     RCT2SpriteVehicle.sound1_volume := rct_vehicle.sound1_volume src;
     RCT2SpriteVehicle.sound2_id := rct_vehicle.sound2_id src;
     RCT2SpriteVehicle.sound2_volume := rct_vehicle.sound2_volume src;
     RCT2SpriteVehicle.sound_vector_factor := rct_vehicle.sound_vector_factor src;
     RCT2SpriteVehicle.time_waiting := rct_vehicle.time_waiting src;
     RCT2SpriteVehicle.speed := rct_vehicle.speed src;
     RCT2SpriteVehicle.powered_acceleration := rct_vehicle.powered_acceleration src;
     RCT2SpriteVehicle.dodgems_collision_direction :=
       rct_vehicle.dodgems_collision_direction src;
     RCT2SpriteVehicle.animation_frame := rct_vehicle.animation_frame src;
     RCT2SpriteVehicle.var_C8 := rct_vehicle.var_C8 src;
     RCT2SpriteVehicle.var_CA := rct_vehicle.var_CA src;
     RCT2SpriteVehicle.scream_sound_id := rct_vehicle.scream_sound_id src;
     RCT2SpriteVehicle.var_CD := rct_vehicle.var_CD src;
     RCT2SpriteVehicle.var_CE := rct_vehicle.var_CE src;
     RCT2SpriteVehicle.var_CF := rct_vehicle.var_CF src;
     RCT2SpriteVehicle.lost_time_out := rct_vehicle.lost_time_out src;
     RCT2SpriteVehicle.vertical_drop_countdown :=
       rct_vehicle.vertical_drop_countdown src;
     RCT2SpriteVehicle.var_D3 := rct_vehicle.var_D3 src;
     RCT2SpriteVehicle.mini_golf_current_animation :=
       rct_vehicle.mini_golf_current_animation src;
     RCT2SpriteVehicle.mini_golf_flags := rct_vehicle.mini_golf_flags src;
     RCT2SpriteVehicle.ride_subtype := rct_vehicle.ride_subtype src;
     RCT2SpriteVehicle.colours_extended := rct_vehicle.colours_extended src;
     RCT2SpriteVehicle.seat_rotation := rct_vehicle.seat_rotation src;
     RCT2SpriteVehicle.target_seat_rotation := rct_vehicle.target_seat_rotation src;
     |}).

(** S6Exporter::ExportSpritePeep: the common properties, then the
    assignments in the order of the source; the casts to [uint8_t] are
    written out. *)
Definition ExportSpritePeep (csrc : rct_sprite_common) (src : Peep) : RCT2Sprite :=
  RCT2Sprite.mk (ExportSpriteCommonProperties csrc)
    (peep_members {|
     RCT2SpritePeep.name_string_idx := Peep.name_string_idx src;
     RCT2SpritePeep.next_x := Peep.next_x src;
     RCT2SpritePeep.next_y := Peep.next_y src;
     RCT2SpritePeep.next_z := Peep.next_z src;
     RCT2SpritePeep.next_flags := Peep.next_flags src;
     RCT2SpritePeep.outside_of_park := Peep.outside_of_park src;
     RCT2SpritePeep.state := uint8 (Peep.state src);
     RCT2SpritePeep.sub_state := Peep.sub_state src;
     RCT2SpritePeep.sprite_type := uint8 (Peep.sprite_type src);
     RCT2SpritePeep.peep_type := uint8 (Peep.type src);
     RCT2SpritePeep.no_of_rides := Peep.no_of_rides src;
     RCT2SpritePeep.tshirt_colour := Peep.tshirt_colour src;
     RCT2SpritePeep.trousers_colour := Peep.trousers_colour src;
     RCT2SpritePeep.destination_x := Peep.destination_x src;
     RCT2SpritePeep.destination_y := Peep.destination_y src;
     RCT2SpritePeep.destination_tolerance := Peep.destination_tolerance src;
     RCT2SpritePeep.var_37 := Peep.var_37 src;
     RCT2SpritePeep.energy := Peep.energy src;
     RCT2SpritePeep.energy_target := Peep.energy_target src;
     RCT2SpritePeep.happiness := Peep.happiness src;
     RCT2SpritePeep.happiness_target := Peep.happiness_target src;
     RCT2SpritePeep.nausea := Peep.nausea src;
     RCT2SpritePeep.nausea_target := Peep.nausea_target src;
     RCT2SpritePeep.hunger := Peep.hunger src;
     RCT2SpritePeep.thirst := Peep.thirst src;
     RCT2SpritePeep.toilet := Peep.toilet src;
     RCT2SpritePeep.mass := Peep.mass src;
     RCT2SpritePeep.time_to_consume := Peep.time_to_consume src;
     RCT2SpritePeep.intensity := Peep.intensity src;
     RCT2SpritePeep.nausea_tolerance := Peep.nausea_tolerance src;
     RCT2SpritePeep.window_invalidate_flags := Peep.window_invalidate_flags src;
     RCT2SpritePeep.paid_on_drink := Peep.paid_on_drink src;
     RCT2SpritePeep.ride_types_been_on :=
       Peep.ride_types_been_on src <$> seq 0 peep_ride_types_been_on_size;
     RCT2SpritePeep.item_extra_flags := Peep.item_extra_flags src;
     RCT2SpritePeep.photo2_ride_ref := Peep.photo2_ride_ref src;
     RCT2SpritePeep.photo3_ride_ref := Peep.photo3_ride_ref src;
     RCT2SpritePeep.photo4_ride_ref := Peep.photo4_ride_ref src;
     RCT2SpritePeep.current_ride := Peep.current_ride src;
     RCT2SpritePeep.current_ride_station := Peep.current_ride_station src;
     RCT2SpritePeep.current_train := Peep.current_train src;
     RCT2SpritePeep.time_to_sitdown := Peep.time_to_sitdown src;
     RCT2SpritePeep.special_sprite := Peep.special_sprite src;
     RCT2SpritePeep.action_sprite_type := uint8 (Peep.action_sprite_type src);
     RCT2SpritePeep.next_action_sprite_type := uint8 (Peep.next_action_sprite_type src);
     RCT2SpritePeep.action_sprite_image_offset := Peep.action_sprite_image_offset src;
     RCT2SpritePeep.action := uint8 (Peep.action src);
     RCT2SpritePeep.action_frame := Peep.action_frame src;
     RCT2SpritePeep.step_progress := Peep.step_progress src;
     RCT2SpritePeep.next_in_queue := Peep.next_in_queue src;
     RCT2SpritePeep.direction := Peep.direction src;
     RCT2SpritePeep.interaction_ride_index := Peep.interaction_ride_index src;
     RCT2SpritePeep.time_in_queue := Peep.time_in_queue src;
     RCT2SpritePeep.rides_been_on :=
       Peep.rides_been_on src <$> seq 0 peep_rides_been_on_size;
     RCT2SpritePeep.id := Peep.id src;
     RCT2SpritePeep.cash_in_pocket := Peep.cash_in_pocket src;
     RCT2SpritePeep.cash_spent := Peep.cash_spent src;
     RCT2SpritePeep.time_in_park := Peep.time_in_park src;
     RCT2SpritePeep.rejoin_queue_timeout := Peep.rejoin_queue_timeout src;
     RCT2SpritePeep.previous_ride := Peep.previous_ride src;
     RCT2SpritePeep.previous_ride_time_out := Peep.previous_ride_time_out src;
     RCT2SpritePeep.thoughts := 
      (fun i =>
         let srcThought := Peep.thoughts src i in
         {| rct12_peep_thought.type := uint8 (rct_peep_thought.type srcThought);
            rct12_peep_thought.item := rct_peep_thought.item srcThought;
            rct12_peep_thought.freshness := rct_peep_thought.freshness srcThought;
            rct12_peep_thought.fresh_timeout :=
              rct_peep_thought.fresh_timeout srcThought |})
        <$> seq 0 peep_thoughts_size;
     RCT2SpritePeep.path_check_optimisation := Peep.path_check_optimisation src;
     RCT2SpritePeep.guest_heading_to_ride_id := Peep.guest_heading_to_ride_id src;
     RCT2SpritePeep.peep_is_lost_countdown := Peep.peep_is_lost_countdown src;
     RCT2SpritePeep.photo1_ride_ref := Peep.photo1_ride_ref src;
     RCT2SpritePeep.peep_flags := Peep.peep_flags src;
     RCT2SpritePeep.pathfind_goal := Peep.pathfind_goal src;
     RCT2SpritePeep.pathfind_history :=
       Peep.pathfind_history src <$> seq 0 peep_pathfind_history_size;
     RCT2SpritePeep.no_action_frame_num := Peep.no_action_frame_num src;
     RCT2SpritePeep.litter_count := Peep.litter_count src;
     RCT2SpritePeep.time_on_ride := Peep.time_on_ride src;
     RCT2SpritePeep.disgusting_count := Peep.disgusting_count src;
     RCT2SpritePeep.paid_to_enter := Peep.paid_to_enter src;
     RCT2SpritePeep.paid_on_rides := Peep.paid_on_rides src;
     RCT2SpritePeep.paid_on_food := Peep.paid_on_food src;
     RCT2SpritePeep.paid_on_souvenirs := Peep.paid_on_souvenirs src;
     RCT2SpritePeep.no_of_food := Peep.no_of_food src;
     RCT2SpritePeep.no_of_drinks := Peep.no_of_drinks src;
     RCT2SpritePeep.no_of_souvenirs := Peep.no_of_souvenirs src;
     RCT2SpritePeep.vandalism_seen := Peep.vandalism_seen src;
     RCT2SpritePeep.voucher_type := Peep.voucher_type src;
     RCT2SpritePeep.voucher_arguments := Peep.voucher_arguments src;
     RCT2SpritePeep.surroundings_thought_timeout :=
       Peep.surroundings_thought_timeout src;
     RCT2SpritePeep.angriness := Peep.angriness src;
     RCT2SpritePeep.time_lost := Peep.time_lost src;
     RCT2SpritePeep.days_in_queue := Peep.days_in_queue src;
     RCT2SpritePeep.balloon_colour := Peep.balloon_colour src;
     RCT2SpritePeep.umbrella_colour := Peep.umbrella_colour src;
     RCT2SpritePeep.hat_colour := Peep.hat_colour src;
     RCT2SpritePeep.favourite_ride := Peep.favourite_ride src;
     RCT2SpritePeep.favourite_ride_rating := Peep.favourite_ride_rating src;
     RCT2SpritePeep.item_standard_flags := Peep.item_standard_flags src;
     |}).

(** S6Exporter::ExportSpriteLitter *)
Definition ExportSpriteLitter (csrc : rct_sprite_common) (creationTick : Z)
    : RCT2Sprite :=
  RCT2Sprite.mk (ExportSpriteCommonProperties csrc) (litter_members creationTick).

(** S6Exporter::ExportSpriteMisc: the switch is on the [type] that has
    just been written to the destination; the casts of [csrc] are the
    readings of the union. *)
Definition ExportSpriteMisc (union : rct_sprite) : RCT2Sprite * list SpriteWarning :=
  let cdst := ExportSpriteCommonProperties (rct_sprite.generic union) in
  let type := RCT12SpriteBase.type cdst in
  if type =? SPRITE_MISC_STEAM_PARTICLE then
    let src := rct_sprite.steam_particle union in
    (RCT2Sprite.mk cdst
       (steam_particle_members {|
           SteamParticle.time_to_move := SteamParticle.time_to_move src;
           SteamParticle.frame := SteamParticle.frame src;
         |}), [])
  else if type =? SPRITE_MISC_MONEY_EFFECT then
    let src := rct_sprite.money_effect union in
    (RCT2Sprite.mk cdst
       (money_effect_members {|
           MoneyEffect.move_delay := MoneyEffect.move_delay src;
           MoneyEffect.num_movements := MoneyEffect.num_movements src;
           MoneyEffect.vertical := MoneyEffect.vertical src;
           MoneyEffect.value := MoneyEffect.value src;
           MoneyEffect.offset_x := MoneyEffect.offset_x src;
           MoneyEffect.wiggle := MoneyEffect.wiggle src;
         |}), [])
  else if type =? SPRITE_MISC_CRASHED_VEHICLE_PARTICLE then
    let src := rct_sprite.crashed_vehicle_particle union in
    (RCT2Sprite.mk cdst
       (crashed_vehicle_particle_members {|
           CrashedVehicleParticle.frame := CrashedVehicleParticle.frame src;
           CrashedVehicleParticle.time_to_live := CrashedVehicleParticle.time_to_live src;
           CrashedVehicleParticle.colour_0 := CrashedVehicleParticle.colour_0 src;
           CrashedVehicleParticle.colour_1 := CrashedVehicleParticle.colour_1 src;
           CrashedVehicleParticle.crashed_sprite_base := CrashedVehicleParticle.crashed_sprite_base src;
           CrashedVehicleParticle.velocity_x := CrashedVehicleParticle.velocity_x src;
           CrashedVehicleParticle.velocity_y := CrashedVehicleParticle.velocity_y src;
           CrashedVehicleParticle.velocity_z := CrashedVehicleParticle.velocity_z src;
           CrashedVehicleParticle.acceleration_x := CrashedVehicleParticle.acceleration_x src;
           CrashedVehicleParticle.acceleration_y := CrashedVehicleParticle.acceleration_y src;
           CrashedVehicleParticle.acceleration_z := CrashedVehicleParticle.acceleration_z src;
         |}), [])
  else if (type =? SPRITE_MISC_EXPLOSION_CLOUD)
          || (type =? SPRITE_MISC_EXPLOSION_FLARE)
          || (type =? SPRITE_MISC_CRASH_SPLASH) then
    let src := rct_sprite.particle union in
    (RCT2Sprite.mk cdst
       (particle_members {|
           Particle.frame := Particle.frame src;
         |}), [])
  else if (type =? SPRITE_MISC_JUMPING_FOUNTAIN_WATER)
          || (type =? SPRITE_MISC_JUMPING_FOUNTAIN_SNOW) then
    let src := rct_sprite.jumping_fountain union in
    (RCT2Sprite.mk cdst
       (jumping_fountain_members {|
           JumpingFountain.num_ticks_alive := JumpingFountain.num_ticks_alive src;
           JumpingFountain.frame := JumpingFountain.frame src;
           JumpingFountain.fountain_flags := JumpingFountain.fountain_flags src;
           JumpingFountain.target_x := JumpingFountain.target_x src;
           JumpingFountain.target_y := JumpingFountain.target_y src;
           JumpingFountain.iteration := JumpingFountain.iteration src;
         |}), [])
  else if type =? SPRITE_MISC_BALLOON then
    let src := rct_sprite.balloon union in
    (RCT2Sprite.mk cdst
       (balloon_members {|
           Balloon.popped := Balloon.popped src;
           Balloon.time_to_move := Balloon.time_to_move src;
           Balloon.frame := Balloon.frame src;
           Balloon.colour := Balloon.colour src;
         |}), [])
  else if type =? SPRITE_MISC_DUCK then
    let src := rct_sprite.duck union in
    (RCT2Sprite.mk cdst
       (duck_members {|
           Duck.frame := Duck.frame src;
           Duck.target_x := Duck.target_x src;
           Duck.target_y := Duck.target_y src;
           Duck.state := Duck.state src;
         |}), [])
  else
    (RCT2Sprite.mk cdst no_members, [MiscSpriteTypeCanNotBeExported type]).

(** S6Exporter::ExportSprite.  The [memset] makes the result independent
    of what the destination held. *)
Definition ExportSprite (src : rct_sprite) : RCT2Sprite * list SpriteWarning :=
  let sprite_identifier :=
    rct_sprite_common.sprite_identifier (rct_sprite.generic src) in
  if sprite_identifier =? SPRITE_IDENTIFIER_NULL then
    (RCT2Sprite.mk (ExportSpriteCommonProperties (rct_sprite.generic src)) no_members,
     [])
  else if sprite_identifier =? SPRITE_IDENTIFIER_VEHICLE then
    (ExportSpriteVehicle (rct_sprite.generic src) (rct_sprite.vehicle src), [])
  else if sprite_identifier =? SPRITE_IDENTIFIER_PEEP then
    (ExportSpritePeep (rct_sprite.generic src) (rct_sprite.peep src), [])
  else if sprite_identifier =? SPRITE_IDENTIFIER_MISC then
    ExportSpriteMisc src
  else if sprite_identifier =? SPRITE_IDENTIFIER_LITTER then
    (ExportSpriteLitter (rct_sprite.generic src) (rct_sprite.litter src), [])
  else
    (RCT2Sprite.mk (ExportSpriteCommonProperties (rct_sprite.generic src)) no_members,
     [SpriteIdentifierCanNotBeExported sprite_identifier]).

Context `{!SpriteCollaborators}.

(** S6Exporter::ExportSprites: the pool is changed by
    [sprite_clear_all_unused], the warnings are collected in the order
    in which they are logged. *)
Definition ExportSprites (pool : SpritePool) (s6 : rct_s6_sprites)
    : SpritePool * rct_s6_sprites * list SpriteWarning :=
  let pool := sprite_clear_all_unused pool in
  let '(s6, log) :=
    for_loop RCT2_MAX_SPRITES
      (fun i '(s6, log) =>
         let '(dst, warnings) := ExportSprite (get_sprite pool i) in
         (rct_s6_sprites.set_sprites (<[i:=dst]> (rct_s6_sprites.sprites s6)) s6,
          log ++ warnings))
      (s6, []) in
  let s6 :=
    for_loop NUM_SPRITE_LISTS
      (fun i s6 =>
         let s6 :=
           rct_s6_sprites.set_sprite_lists_head
             (<[i:=gSpriteListHead pool i]> (rct_s6_sprites.sprite_lists_head s6)) s6 in
         rct_s6_sprites.set_sprite_lists_count
           (<[i:=gSpriteListCount pool i]> (rct_s6_sprites.sprite_lists_count s6)) s6)
      s6 in
  (pool, s6, log).

End Sprites.

(** A sprite with every member zero, used to build concrete sprites, and
    a pool that is the list of its sprites. *)
Definition rct_vehicle_zero : rct_vehicle := {|
  rct_vehicle.vehicle_sprite_type := 0;
  rct_vehicle.bank_rotation := 0;
  rct_vehicle.remaining_distance := 0;
  rct_vehicle.velocity := 0;
  rct_vehicle.acceleration := 0;
  rct_vehicle.ride := 0;
  rct_vehicle.vehicle_type := 0;
  rct_vehicle.colours := 0;
  rct_vehicle.track_progress := 0;
  rct_vehicle.track_direction := 0;
  rct_vehicle.track_type := 0;
  rct_vehicle.track_x := 0;
  rct_vehicle.track_y := 0;
  rct_vehicle.track_z := 0;
  rct_vehicle.next_vehicle_on_train := 0;
  rct_vehicle.prev_vehicle_on_ride := 0;
  rct_vehicle.next_vehicle_on_ride := 0;
  rct_vehicle.var_44 := 0;
  rct_vehicle.mass := 0;
  rct_vehicle.update_flags := 0;
  rct_vehicle.swing_sprite := 0;
  rct_vehicle.current_station := 0;
  rct_vehicle.current_time := 0;
  rct_vehicle.crash_z := 0;
  rct_vehicle.status := 0;
  rct_vehicle.sub_state := 0;
  rct_vehicle.peep := fun _ => 0;
  rct_vehicle.peep_tshirt_colours := fun _ => 0;
  rct_vehicle.num_seats := 0;
  rct_vehicle.num_peeps := 0;
  rct_vehicle.next_free_seat := 0;
  rct_vehicle.restraints_position := 0;
  rct_vehicle.crash_x := 0;
  rct_vehicle.sound2_flags := 0;
  rct_vehicle.spin_sprite := 0;
  rct_vehicle.sound1_id := 0;
  rct_vehicle.sound1_volume := 0;
  rct_vehicle.sound2_id := 0;
  rct_vehicle.sound2_volume := 0;
  rct_vehicle.sound_vector_factor := 0;
  rct_vehicle.time_waiting := 0;
  rct_vehicle.speed := 0;
  rct_vehicle.powered_acceleration := 0;
  rct_vehicle.dodgems_collision_direction := 0;
  rct_vehicle.animation_frame := 0;
  rct_vehicle.var_C8 := 0;
  rct_vehicle.var_CA := 0;
  rct_vehicle.scream_sound_id := 0;
  rct_vehicle.var_CD := 0;
  rct_vehicle.var_CE := 0;
  rct_vehicle.var_CF := 0;
  rct_vehicle.lost_time_out := 0;
  rct_vehicle.vertical_drop_countdown := 0;
  rct_vehicle.var_D3 := 0;
  rct_vehicle.mini_golf_current_animation := 0;
  rct_vehicle.mini_golf_flags := 0;
  rct_vehicle.ride_subtype := 0;
  rct_vehicle.colours_extended := 0;
  rct_vehicle.seat_rotation := 0;
  rct_vehicle.target_seat_rotation := 0;
|}.

Definition Peep_zero : Peep := {|
  Peep.name_string_idx := 0;
  Peep.next_x := 0;
  Peep.next_y := 0;
  Peep.next_z := 0;
  Peep.next_flags := 0;
  Peep.outside_of_park := 0;
  Peep.state := 0;
  Peep.sub_state := 0;
  Peep.sprite_type := 0;
  Peep.type := 0;
  Peep.no_of_rides := 0;
  Peep.tshirt_colour := 0;
  Peep.trousers_colour := 0;
  Peep.destination_x := 0;
  Peep.destination_y := 0;
  Peep.destination_tolerance := 0;
  Peep.var_37 := 0;
  Peep.energy := 0;
  Peep.energy_target := 0;
  Peep.happiness := 0;
  Peep.happiness_target := 0;
  Peep.nausea := 0;
  Peep.nausea_target := 0;
  Peep.hunger := 0;
  Peep.thirst := 0;
  Peep.toilet := 0;
  Peep.mass := 0;
  Peep.time_to_consume := 0;
  Peep.intensity := 0;
  Peep.nausea_tolerance := 0;
  Peep.window_invalidate_flags := 0;
  Peep.paid_on_drink := 0;
  Peep.ride_types_been_on := fun _ => 0;
  Peep.item_extra_flags := 0;
  Peep.photo2_ride_ref := 0;
  Peep.photo3_ride_ref := 0;
  Peep.photo4_ride_ref := 0;
  Peep.current_ride := 0;
  Peep.current_ride_station := 0;
  Peep.current_train := 0;
  Peep.time_to_sitdown := 0;
  Peep.special_sprite := 0;
  Peep.action_sprite_type := 0;
  Peep.next_action_sprite_type := 0;
  Peep.action_sprite_image_offset := 0;
  Peep.action := 0;
  Peep.action_frame := 0;
  Peep.step_progress := 0;
  Peep.next_in_queue := 0;
  Peep.direction := 0;
  Peep.interaction_ride_index := 0;
  Peep.time_in_queue := 0;
  Peep.rides_been_on := fun _ => 0;
  Peep.id := 0;
  Peep.cash_in_pocket := 0;
  Peep.cash_spent := 0;
  Peep.time_in_park := 0;
  Peep.rejoin_queue_timeout := 0;
  Peep.previous_ride := 0;
  Peep.previous_ride_time_out := 0;
  Peep.thoughts := fun _ => rct_peep_thought.mk 0 0 0 0;
  Peep.path_check_optimisation := 0;
  Peep.guest_heading_to_ride_id := 0;
  Peep.peep_is_lost_countdown := 0;
  Peep.photo1_ride_ref := 0;
  Peep.peep_flags := 0;
  Peep.pathfind_goal := 0;
  Peep.pathfind_history := fun _ => 0;
  Peep.no_action_frame_num := 0;
  Peep.litter_count := 0;
  Peep.time_on_ride := 0;
  Peep.disgusting_count := 0;
  Peep.paid_to_enter := 0;
  Peep.paid_on_rides := 0;
  Peep.paid_on_food := 0;
  Peep.paid_on_souvenirs := 0;
  Peep.no_of_food := 0;
  Peep.no_of_drinks := 0;
  Peep.no_of_souvenirs := 0;
  Peep.vandalism_seen := 0;
  Peep.voucher_type := 0;
  Peep.voucher_arguments := 0;
  Peep.surroundings_thought_timeout := 0;
  Peep.angriness := 0;
  Peep.time_lost := 0;
  Peep.days_in_queue := 0;
  Peep.balloon_colour := 0;
  Peep.umbrella_colour := 0;
  Peep.hat_colour := 0;
  Peep.favourite_ride := 0;
  Peep.favourite_ride_rating := 0;
  Peep.item_standard_flags := 0;
|}.

Definition rct_sprite_common_zero : rct_sprite_common := {|
  rct_sprite_common.sprite_identifier := 0;
  rct_sprite_common.type := 0;
  rct_sprite_common.next_in_quadrant := 0;
  rct_sprite_common.next := 0;
  rct_sprite_common.previous := 0;
  rct_sprite_common.linked_list_type_offset := 0;
  rct_sprite_common.sprite_height_negative := 0;
  rct_sprite_common.sprite_index := 0;
  rct_sprite_common.flags := 0;
  rct_sprite_common.x := 0;
  rct_sprite_common.y := 0;
  rct_sprite_common.z := 0;
  rct_sprite_common.sprite_width := 0;
  rct_sprite_common.sprite_height_positive := 0;
  rct_sprite_common.sprite_left := 0;
  rct_sprite_common.sprite_top := 0;
  rct_sprite_common.sprite_right := 0;
  rct_sprite_common.sprite_bottom := 0;
  rct_sprite_common.sprite_direction := 0;
|}.

Definition rct_sprite_zero : rct_sprite := {|
  rct_sprite.generic := rct_sprite_common_zero;
  rct_sprite.vehicle := rct_vehicle_zero;
  rct_sprite.peep := Peep_zero;
  rct_sprite.litter := 0;
  rct_sprite.steam_particle := SteamParticle.mk 0 0;
  rct_sprite.money_effect := MoneyEffect.mk 0 0 0 0 0 0;
  rct_sprite.crashed_vehicle_particle := CrashedVehicleParticle.mk 0 0 0 0 0 0 0 0 0 0 0;
  rct_sprite.particle := Particle.mk 0;
  rct_sprite.jumping_fountain := JumpingFountain.mk 0 0 0 0 0 0;
  rct_sprite.balloon := Balloon.mk 0 0 0 0;
  rct_sprite.duck := Duck.mk 0 0 0 0;
|}.

(** The zero sprite with the given identifier, type and index. *)
Definition sprite_of (sprite_identifier type sprite_index : Z) : rct_sprite :=
  rct_sprite.mk
    (rct_sprite_common.mk sprite_identifier type 0 0 0 0 0 sprite_index
       0 0 0 0 0 0 0 0 0 0 0)
    rct_vehicle_zero Peep_zero 0
    (rct_sprite.steam_particle rct_sprite_zero)
    (rct_sprite.money_effect rct_sprite_zero)
    (rct_sprite.crashed_vehicle_particle rct_sprite_zero)
    (rct_sprite.particle rct_sprite_zero)
    (rct_sprite.jumping_fountain rct_sprite_zero)
    (rct_sprite.balloon rct_sprite_zero)
    (rct_sprite.duck rct_sprite_zero).

Definition sample_sprite_collaborators : SpriteCollaborators := {|
  SpritePool := list rct_sprite;
  sprite_clear_all_unused := fun pool => pool;
  get_sprite := fun pool i => default rct_sprite_zero (pool !! i);
  gSpriteListHead := fun pool i => Z.of_nat i;
  gSpriteListCount := fun pool i => 0;
|}.

(** ** scenario_save *)

(** The three flags, an enum of [uint32_t]. *)
Definition S6_SAVE_FLAG_EXPORT : Z := Z.shiftl 1 0.
Definition S6_SAVE_FLAG_SCENARIO : Z := Z.shiftl 1 1.
Definition S6_SAVE_FLAG_AUTOMATIC : Z := Z.shiftl 1 31.

(** [flags & flag] as a condition: [flags] is an [int32_t] and the flag
    a [uint32_t], so [flags] is converted to [uint32_t] first. *)
Definition flag_set (flags flag : Z) : bool :=
  negb (Z.land (uint32 flags) flag =? 0).

(** What [scenario_save] tells the user interface: the two
    [log_verbose] and [gfx_invalidate_screen]. *)
Inductive UiEvent :=
| log_verbose_saving_scenario
| log_verbose_saving_game
| gfx_invalidate_screen.

(** The game as [scenario_save] reaches it: the state that [Export]
    reads, and [gScreenAge]. *)
Module Game.
Section GameRecord.
Context `{!Collaborators}.
Record t := mk {
  live : LiveState;
  gScreenAge : Z;
}.
End GameRecord.
End Game.

(** Functions of other translation units that [scenario_save] calls.
    [FileStream_new] is the constructor [FileStream(path,
    FILE_MODE_WRITE)]: it gives the stream, or throws ([None]) when the
    file cannot be opened. *)
Class SaveCollaborators `{!Collaborators} := {
  Path : Type;
  window_close_construction_windows : LiveState -> LiveState;
  map_reorganise_elements : LiveState -> LiveState;
  viewport_set_saved_view : LiveState -> LiveState;
  GetPackableObjects : LiveState -> list nat;
  FileStream_new : Path -> option IStream;
}.

(** The result of [scenario_save]: the value returned, the game
    afterwards, the stream of the file when it was written, what the user
    interface was told and what [Export] logged. *)
Module Saved.
Section SavedRecord.
Context `{!Collaborators}.
Record t := mk {
  result : bool;
  game : Game.t;
  file : option IStream;
  ui : list UiEvent;
  log : list LogEntry;
}.
End SavedRecord.
End Saved.

Section ScenarioSave.
Context `{!LegacyConstants} `{!Collaborators} `{!SaveCollaborators}.

(** The overloads of [SaveScenario] and [SaveGame] that take a path: an
    exception of the stream ([None]) leaves the function. *)
Definition SaveScenario_path (e : S6Exporter) (path : Path)
    : option (S6Exporter * IStream * list SaveEvent) :=
  match FileStream_new path with
  | Some fs => SaveScenario e fs
  | None => None
  end.
Definition SaveGame_path (e : S6Exporter) (path : Path)
    : option (S6Exporter * IStream * list SaveEvent) :=
  match FileStream_new path with
  | Some fs => SaveGame e fs
  | None => None
  end.

(** [scenario_save].  An exception in the [try] block ([None]) is
    caught; a failed assertion of [Export] is not an exception and stops
    the function. *)
Definition scenario_save (path : Path) (flags : Z) (game : Game.t)
    : Outcome Saved.t :=
  let ui :=
    if flag_set flags S6_SAVE_FLAG_SCENARIO
    then [log_verbose_saving_scenario]
    else [log_verbose_saving_game] in
  let live := Game.live game in
  let live :=
    if negb (flag_set flags S6_SAVE_FLAG_AUTOMATIC)
    then window_close_construction_windows live
    else live in
  let live := map_reorganise_elements live in
  let live := viewport_set_saved_view live in
  let result := false in
  let s6exporter := S6Exporter_new in
  (* try *)
  let s6exporter :=
    if flag_set flags S6_SAVE_FLAG_EXPORT
    then S6Exporter.mk (S6Exporter.RemoveTracklessRides s6exporter)
           (GetPackableObjects live) (S6Exporter._s6 s6exporter)
    else s6exporter in
  let s6exporter :=
    S6Exporter.mk true (S6Exporter.ExportObjectsList s6exporter)
      (S6Exporter._s6 s6exporter) in
  match Export s6exporter live with
  | AssertionFailed message => AssertionFailed message
  | Completed (s6exporter, live, log) =>
      let saved :=
        if flag_set flags S6_SAVE_FLAG_SCENARIO
        then SaveScenario_path s6exporter path
        else SaveGame_path s6exporter path in
      let result := match saved with Some _ => true | None => result end in
      (* catch (const std::exception&) {} *)
      let ui := ui ++ [gfx_invalidate_screen] in
      let gScreenAge :=
        if result && negb (flag_set flags S6_SAVE_FLAG_AUTOMATIC)
        then 0
        else Game.gScreenAge game in
      Completed
        (Saved.mk result (Game.mk live gScreenAge)
           (match saved with Some (_, stream, _) => Some stream | None => None end)
           ui log)
  end.

End ScenarioSave.

(** Collaborators of [scenario_save] for the concrete parks: closing the
    construction windows doubles the bank loan (any visible change would
    do), a path is a number and only the even ones can be opened. *)
Definition sample_save_collaborators : @SaveCollaborators sample_collaborators := {|
  Path := Z;
  window_close_construction_windows :=
    fun live =>
      @mkLiveState sample_collaborators (gSprites live) (gInitialCash live)
        (2 * gBankLoan live) (gMaxBankLoan live) (gPeepSpawns live)
        (gParkEntrances live) (get_ride live) (ride_type_is_invented live)
        (ride_entry_is_invented live) (scenery_is_invented live);
  map_reorganise_elements := fun live => live;
  viewport_set_saved_view := fun live => live;
  GetPackableObjects := fun live => [7%nat; 9%nat];
  FileStream_new := fun path => if Z.even path then Some (IStream.mk [] 0) else None;
|}.

(** ** More concrete parks *)

(** A park whose rides 0 to 2 each own a measurement; its peep spawn and
    its park entrance lie inside the ranges of the legacy format. *)
Definition three_measured_rides : @LiveState sample_collaborators :=
  @mkLiveState sample_collaborators
    (* gSprites *) (-1, -1, 0)
    (* gInitialCash, gBankLoan, gMaxBankLoan *) 100000 150000 200000
    (* gPeepSpawns *) [CoordsXYZD.mk 1000 96 47 1]
    (* gParkEntrances *) [CoordsXYZD.mk 1600 32 112 2]
    (* get_ride *)
    (fun i =>
       if (i <? 3)%nat then
         sample_ride i 0 0 0 0 (Some (measurement_of i (Z.of_nat i + 1)))
       else sample_ride i 255 0 0 0 None)
    (* ride_type_is_invented, ride_entry_is_invented, scenery_is_invented *)
    (fun i => (i mod 3 =? 0)%nat)
    (fun i => (i mod 5 =? 0)%nat)
    (fun i => (i mod 7 =? 0)%nat).

(** The same park with a second peep spawn, which the table has room
    for, and a third, which it has not. *)
Definition three_peep_spawns : @LiveState sample_collaborators :=
  @mkLiveState sample_collaborators
    (gSprites three_measured_rides) 100000 150000 200000
    [CoordsXYZD.mk 1000 96 47 1; CoordsXYZD.mk 64 2000 16 3; CoordsXYZD.mk 5 5 5 0]
    (gParkEntrances three_measured_rides) (get_ride three_measured_rides)
    (ride_type_is_invented three_measured_rides)
    (ride_entry_is_invented three_measured_rides)
    (scenery_is_invented three_measured_rides).
Definition four_peep_spawns : @LiveState sample_collaborators :=
  @mkLiveState sample_collaborators
    (gSprites three_measured_rides) 100000 150000 200000
    [CoordsXYZD.mk 1000 96 47 1; CoordsXYZD.mk 64 2000 16 3; CoordsXYZD.mk 9 9 9 2;
     CoordsXYZD.mk 1 1 1 1]
    (gParkEntrances three_measured_rides) (get_ride three_measured_rides)
    (ride_type_is_invented three_measured_rides)
    (ride_entry_is_invented three_measured_rides)
    (scenery_is_invented three_measured_rides).

(** Three campaigns: a free-ride campaign for ride 7, a park campaign,
    and a second free-ride campaign, for ride 9. *)
Definition sample_campaigns : list MarketingCampaign :=
  [MarketingCampaign.mk 1 4 0 7 7; MarketingCampaign.mk 4 2 0 0 0;
   MarketingCampaign.mk 1 6 0 9 9].
Definition sample_s6_campaigns : rct_s6_campaigns :=
  rct_s6_campaigns.mk (replicate 20 55) (replicate 22 55).

(** A pool of four sprites: a peep, a duck, a miscellaneous sprite of
    type 77, and a sprite of identifier 9. *)
Definition sample_pool : list rct_sprite :=
  [sprite_of 1 0 0; sprite_of 2 8 1; sprite_of 2 77 2; sprite_of 9 0 3].

(** ** Further closed forms *)

Section FurtherStatements.
Context `{!LegacyConstants} `{!Collaborators}.

(** The measurements that reach the table: all of them, or the most
    recent ones when there are too many. *)
Definition exported_measurements (live : LiveState) : list RideMeasurement :=
  trim_ride_measurements (collect_ride_measurements live).


End FurtherStatements.

Section GatherStatements.
Context `{!LegacyConstants} `{!Collaborators}.

(** The gather of [Export] between the sprite checks and the fix-up
    passes, as one transformer of the S6 record. *)
Definition Export_gather (live : LiveState) (s6 : rct_s6_data) : rct_s6_data :=
  let s6 := rct_s6_data.set_initial_cash (gInitialCash live) s6 in
  let s6 := rct_s6_data.set_current_loan (gBankLoan live) s6 in
  let s6 := ExportPeepSpawns live s6 in
  let s6 := ExportResearchedRideTypes live s6 in
  let s6 := ExportResearchedRideEntries live s6 in
  let s6 := ExportResearchedSceneryItems live s6 in
  let s6 := rct_s6_data.set_maximum_loan (gMaxBankLoan live) s6 in
  let s6 :=
    rct_s6_data.set_loan_hash
      (GetLoanHash (gInitialCash live) (gBankLoan live) (uint32 (gMaxBankLoan live)))
      s6 in
  let s6 := ExportParkEntrances live s6 in
  let s6 := ExportRides live s6 in
  ExportRideMeasurements live s6.

(** The three fix-up passes at the end of [Export]. *)
Definition Export_fixups (e : S6Exporter) (s6 : rct_s6_data) : rct_s6_data :=
  let s6 :=
    if S6Exporter.RemoveTracklessRides e
    then scenario_remove_trackless_rides s6
    else s6 in
  let s6 := scenario_fix_ghosts s6 in
  game_convert_strings_to_rct2 s6.

(** The live state after [fix_disjoint_sprites]. *)
Definition repaired (live : LiveState) : LiveState :=
  mkLiveState (fix_disjoint_sprites (gSprites live)).2 (gInitialCash live)
    (gBankLoan live) (gMaxBankLoan live) (gPeepSpawns live) (gParkEntrances live)
    (get_ride live) (ride_type_is_invented live) (ride_entry_is_invented live)
    (scenery_is_invented live).

End GatherStatements.

Section MarketingStatements.
Context `{!MarketingConstants}.

(** The campaign that decides the slots of a type: the last one of that
    type in the list. *)
Definition last_campaign (type : Z) (campaigns : list MarketingCampaign)
    : option MarketingCampaign :=
  last (filter (fun c => MarketingCampaign.Type_ c = type) campaigns).

Definition exported_weeks_left (type : Z) (campaigns : list MarketingCampaign) : Z :=
  match last_campaign type campaigns with
  | Some c => uint8 (Z.lor (MarketingCampaign.WeeksLeft c) CAMPAIGN_ACTIVE_FLAG)
  | None => 0
  end.

Definition exported_ride_index (type : Z) (campaigns : list MarketingCampaign) : Z :=
  match last_campaign type campaigns with
  | Some c =>
      if (type =? ADVERTISING_CAMPAIGN_RIDE_FREE) || (type =? ADVERTISING_CAMPAIGN_RIDE)
      then uint8 (MarketingCampaign.RideId c)
      else if type =? ADVERTISING_CAMPAIGN_FOOD_OR_DRINK_FREE
      then uint8 (MarketingCampaign.ShopItemType c)
      else 0
  | None => 0
  end.

End MarketingStatements.

Section SpriteStatements.
Context `{!SpriteConstants}.

(** The ten [type]s that [ExportSpriteMisc] has a case for. *)
Definition exportable_misc_types : list Z :=
  [SPRITE_MISC_STEAM_PARTICLE; SPRITE_MISC_MONEY_EFFECT;
   SPRITE_MISC_CRASHED_VEHICLE_PARTICLE; SPRITE_MISC_EXPLOSION_CLOUD;
   SPRITE_MISC_EXPLOSION_FLARE; SPRITE_MISC_CRASH_SPLASH;
   SPRITE_MISC_JUMPING_FOUNTAIN_WATER; SPRITE_MISC_JUMPING_FOUNTAIN_SNOW;
   SPRITE_MISC_BALLOON; SPRITE_MISC_DUCK].

(** The warnings that the export of one sprite logs. *)
Definition sprite_warnings (src : rct_sprite) : list SpriteWarning :=
  let sprite_identifier :=
    rct_sprite_common.sprite_identifier (rct_sprite.generic src) in
  let type := rct_sprite_common.type (rct_sprite.generic src) in
  if decide (sprite_identifier
             ∈ [SPRITE_IDENTIFIER_NULL; SPRITE_IDENTIFIER_VEHICLE;
                SPRITE_IDENTIFIER_PEEP; SPRITE_IDENTIFIER_LITTER])
  then []
  else if decide (sprite_identifier = SPRITE_IDENTIFIER_MISC)
  then
    if decide (type ∈ exportable_misc_types) then []
    else [MiscSpriteTypeCanNotBeExported type]
  else [SpriteIdentifierCanNotBeExported sprite_identifier].

End SpriteStatements.

Section ScenarioSaveStatements.
Context `{!LegacyConstants} `{!Collaborators} `{!SaveCollaborators}.

(** The state that [scenario_save] hands to [Export]. *)
Definition prepared (flags : Z) (live : LiveState) : LiveState :=
  viewport_set_saved_view
    (map_reorganise_elements
       (if flags <? 0 then live else window_close_construction_windows live)).

(** The exporter that [scenario_save] sets up. *)
Definition save_exporter (flags : Z) (live : LiveState) : S6Exporter :=
  S6Exporter.mk true
    (if Z.odd flags then GetPackableObjects (prepared flags live) else [])
    rct_s6_data_zero.

End ScenarioSaveStatements.

(** * Properties *)

(** ** Fixed-width integers *)

Lemma uint32_int32 x : uint32 (int32 x) = uint32 x.
Proof.
  unfold uint32, int32.
  rewrite Zminus_mod, Zmod_mod, <- Zminus_mod. f_equal. lia.
Qed.

Lemma uint32_range x : 0 <= uint32 x < 2 ^ 32.
Proof. unfold uint32. apply Z.mod_pos_bound. lia. Qed.

Lemma uint32_id x : 0 <= x < 2 ^ 32 -> uint32 x = x.
Proof. intros. unfold uint32. apply Z.mod_small. lia. Qed.

Lemma uint32_idemp x : uint32 (uint32 x) = uint32 x.
Proof. apply uint32_id, uint32_range. Qed.

Lemma uint32_testbit x i :
  0 <= i -> Z.testbit (uint32 x) i = (if i <? 32 then Z.testbit x i else false).
Proof.
  intros Hi. unfold uint32. rewrite <- Z.land_ones by lia.
  rewrite Z.land_spec, Z.testbit_ones by lia.
  destruct (Z.leb_spec 0 i); [|lia]. destruct (Z.ltb_spec i 32); simpl.
  - apply andb_true_r.
  - apply andb_false_r.
Qed.

Lemma testbit_above32 x i : 0 <= x < 2 ^ 32 -> 32 <= i -> Z.testbit x i = false.
Proof.
  intros Hx Hi. rewrite <- (uint32_id x Hx), uint32_testbit by lia.
  destruct (Z.ltb_spec i 32); [lia|done].
Qed.

(** Bit [i] of a rotated word is bit [i + s] of the word, wrapping at 32. *)
Lemma ror32_testbit x s i :
  0 <= x < 2 ^ 32 -> 0 < s < 32 -> 0 <= i ->
  Z.testbit (ror32 x s) i =
    if i <? 32 - s then Z.testbit x (i + s)
    else if i <? 32 then Z.testbit x (i - (32 - s)) else false.
Proof.
  intros Hx Hs Hi. unfold ror32.
  rewrite Z.lor_spec, Z.shiftr_spec, uint32_testbit by lia.
  destruct (Z.ltb_spec i (32 - s)), (Z.ltb_spec i 32); try lia.
  - rewrite Z.shiftl_spec by lia. rewrite (Z.testbit_neg_r x (i - (32 - s))) by lia.
    apply orb_false_r.
  - rewrite Z.shiftl_spec by lia. rewrite (testbit_above32 x (i + s)) by lia. done.
  - rewrite (testbit_above32 x (i + s)) by lia. done.
Qed.

Lemma ror32_range x s : 0 <= x < 2 ^ 32 -> 0 < s < 32 -> 0 <= ror32 x s < 2 ^ 32.
Proof.
  intros Hx Hs.
  assert (Hnn : 0 <= ror32 x s).
  { unfold ror32. apply Z.lor_nonneg. split.
    - apply Z.shiftr_nonneg. lia.
    - apply uint32_range. }
  split; [done|].
  destruct (Z.eq_dec (ror32 x s) 0) as [->|Hne]; [lia|].
  apply Z.log2_lt_pow2; [lia|].
  destruct (Z.lt_ge_cases (Z.log2 (ror32 x s)) 32) as [|Hge]; [done|].
  pose proof (Z.bit_log2 (ror32 x s) ltac:(lia)) as Hb.
  rewrite ror32_testbit in Hb by lia.
  destruct (Z.ltb_spec (Z.log2 (ror32 x s)) (32 - s)); [lia|].
  destruct (Z.ltb_spec (Z.log2 (ror32 x s)) 32); [lia|done].
Qed.

(** A rotation loses no bit. *)
Lemma ror32_inj x y s :
  0 <= x < 2 ^ 32 -> 0 <= y < 2 ^ 32 -> 0 < s < 32 ->
  ror32 x s = ror32 y s -> x = y.
Proof.
  intros Hx Hy Hs Heq. apply Z.bits_inj'. intros i Hi.
  destruct (Z.lt_ge_cases i 32) as [Hlt|Hge].
  - destruct (Z.lt_ge_cases i s) as [Hlo|Hhi].
    + pose proof (f_equal (fun v => Z.testbit v (i + (32 - s))) Heq) as Hb.
      simpl in Hb. rewrite !ror32_testbit in Hb by lia.
      destruct (Z.ltb_spec (i + (32 - s)) (32 - s)); [lia|].
      destruct (Z.ltb_spec (i + (32 - s)) 32); [|lia].
      replace (i + (32 - s) - (32 - s)) with i in Hb by lia. done.
    + pose proof (f_equal (fun v => Z.testbit v (i - s)) Heq) as Hb.
      simpl in Hb. rewrite !ror32_testbit in Hb by lia.
      destruct (Z.ltb_spec (i - s) (32 - s)); [|lia].
      replace (i - s + s) with i in Hb by lia. done.
  - by rewrite !testbit_above32.
Qed.

(** Two integers with the same 32-bit wrap-around differ by a multiple of
    [2 ^ 32]; inside one window of that width they are equal. *)
Lemma uint32_inj_window lo x y :
  lo <= x < lo + 2 ^ 32 -> lo <= y < lo + 2 ^ 32 ->
  uint32 x = uint32 y -> x = y.
Proof.
  unfold uint32. intros Hx Hy Heq.
  pose proof (Z.div_mod x (2 ^ 32) ltac:(lia)).
  pose proof (Z.div_mod y (2 ^ 32) ltac:(lia)).
  assert (x / 2 ^ 32 = y / 2 ^ 32) by lia. lia.
Qed.

Lemma uint32_sub_inj c x y lo :
  lo <= x < lo + 2 ^ 32 -> lo <= y < lo + 2 ^ 32 ->
  uint32 (c - x) = uint32 (c - y) -> x = y.
Proof.
  intros Hx Hy Heq.
  assert (c - x = c - y); [|lia].
  apply (uint32_inj_window (c - lo - 2 ^ 32 + 1)); [lia|lia|done].
Qed.

Lemma uint32_add_inj c x y lo :
  lo <= x < lo + 2 ^ 32 -> lo <= y < lo + 2 ^ 32 ->
  uint32 (c + x) = uint32 (c + y) -> x = y.
Proof.
  intros Hx Hy Heq.
  assert (c + x = c + y); [|lia].
  apply (uint32_inj_window (c + lo)); [lia|lia|done].
Qed.

Lemma uint32_add_r_inj c x y lo :
  lo <= x < lo + 2 ^ 32 -> lo <= y < lo + 2 ^ 32 ->
  uint32 (x + c) = uint32 (y + c) -> x = y.
Proof. rewrite !(Z.add_comm _ c). apply uint32_add_inj. Qed.

Lemma uint32_sub_r_inj c x y lo :
  lo <= x < lo + 2 ^ 32 -> lo <= y < lo + 2 ^ 32 ->
  uint32 (x - c) = uint32 (y - c) -> x = y.
Proof. rewrite <- !Z.add_opp_r. apply uint32_add_r_inj. Qed.

(** ** The loan hash *)

Lemma uint32_int32_sub x b : uint32 (int32 x - b) = uint32 (x - b).
Proof.
  unfold uint32 at 1. rewrite Zminus_mod. fold (uint32 (int32 x)).
  rewrite uint32_int32. unfold uint32. by rewrite <- Zminus_mod.
Qed.

Lemma uint32_uint32_add x y : uint32 (uint32 x + y) = uint32 (x + y).
Proof. unfold uint32. by rewrite Zplus_mod_idemp_l. Qed.

Lemma GetLoanHash_words initialCash bankLoan maxBankLoan :
  GetLoanHash initialCash bankLoan maxBankLoan
  = loan_hash_words initialCash bankLoan maxBankLoan.
Proof.
  unfold GetLoanHash, loan_hash_words. cbv zeta.
  rewrite !uint32_int32, uint32_idemp, uint32_int32_sub, uint32_uint32_add.
  apply uint32_id, ror32_range; [apply uint32_range|lia].
Qed.

(** C7: the integrity hash is the fixed sequence seed, minus the initial
    cash, rotate right 5, minus the loan, rotate right 7, plus the loan
    ceiling, rotate right 3, on 32-bit words; it yields one 32-bit value;
    and, the other two inputs held fixed, two different values of one
    input (each within its 32-bit type) give two different hashes. *)
Theorem GetLoanHash_sequence_injective (initialCash bankLoan maxBankLoan : Z) :
  - 2 ^ 31 <= initialCash < 2 ^ 31 ->
  - 2 ^ 31 <= bankLoan < 2 ^ 31 ->
  0 <= maxBankLoan < 2 ^ 32 ->
  GetLoanHash initialCash bankLoan maxBankLoan
  = ror32 (uint32 (ror32 (uint32 (ror32 (uint32 (0x70093A - initialCash)) 5
                                  - bankLoan)) 7
                   + maxBankLoan)) 3
  /\ 0 <= GetLoanHash initialCash bankLoan maxBankLoan < 2 ^ 32
  /\ (forall initialCash', - 2 ^ 31 <= initialCash' < 2 ^ 31 ->
        initialCash' <> initialCash ->
        GetLoanHash initialCash' bankLoan maxBankLoan
        <> GetLoanHash initialCash bankLoan maxBankLoan)
  /\ (forall bankLoan', - 2 ^ 31 <= bankLoan' < 2 ^ 31 ->
        bankLoan' <> bankLoan ->
        GetLoanHash initialCash bankLoan' maxBankLoan
        <> GetLoanHash initialCash bankLoan maxBankLoan)
  /\ (forall maxBankLoan', 0 <= maxBankLoan' < 2 ^ 32 ->
        maxBankLoan' <> maxBankLoan ->
        GetLoanHash initialCash bankLoan maxBankLoan'
        <> GetLoanHash initialCash bankLoan maxBankLoan).
Proof.
  intros Hcash Hloan Hmax.
  assert (Hr : forall x s, 0 < s < 32 -> 0 <= ror32 (uint32 x) s < 2 ^ 32)
    by (intros; apply ror32_range; [apply uint32_range|done]).
  split; [apply GetLoanHash_words|].
  split; [rewrite GetLoanHash_words; apply Hr; lia|].
  repeat split.
  - intros cash' Hcash' Hne Heq. apply Hne.
    rewrite !GetLoanHash_words in Heq. unfold loan_hash_words in Heq.
    apply ror32_inj in Heq; [|apply uint32_range..|lia].
    apply uint32_add_r_inj with (lo := 0) in Heq; [|apply Hr; lia..].
    apply ror32_inj in Heq; [|apply uint32_range..|lia].
    apply uint32_sub_r_inj with (lo := 0) in Heq; [|apply Hr; lia..].
    apply ror32_inj in Heq; [|apply uint32_range..|lia].
    by apply uint32_sub_inj with (lo := - 2 ^ 31) in Heq.
  - intros loan' Hloan' Hne Heq. apply Hne.
    rewrite !GetLoanHash_words in Heq. unfold loan_hash_words in Heq.
    apply ror32_inj in Heq; [|apply uint32_range..|lia].
    apply uint32_add_r_inj with (lo := 0) in Heq; [|apply Hr; lia..].
    apply ror32_inj in Heq; [|apply uint32_range..|lia].
    by apply uint32_sub_inj with (lo := - 2 ^ 31) in Heq.
  - intros max' Hmax' Hne Heq. apply Hne.
    rewrite !GetLoanHash_words in Heq. unfold loan_hash_words in Heq.
    apply ror32_inj in Heq; [|apply uint32_range..|lia].
    by apply uint32_add_inj with (lo := 0) in Heq.
Qed.

(** ** Loops *)

Lemma for_loop_0 {S : Type} (body : nat -> S -> S) (s : S) : for_loop 0 body s = s.
Proof. done. Qed.

Lemma for_loop_S {S : Type} (n : nat) (body : nat -> S -> S) (s : S) :
  for_loop (Datatypes.S n) body s = body n (for_loop n body s).
Proof. unfold for_loop. by rewrite seq_S, foldl_app. Qed.

(** An invariant that every iteration preserves holds after the loop. *)
Lemma for_loop_invariant {S : Type} (P : nat -> S -> Prop) (n : nat)
    (body : nat -> S -> S) (s : S) :
  P 0%nat s ->
  (forall i s, (i < n)%nat -> P i s -> P (Datatypes.S i) (body i s)) ->
  P n (for_loop n body s).
Proof.
  intros H0 Hstep. induction n as [|n IH]; [done|].
  rewrite for_loop_S. apply Hstep; [lia|]. apply IH. intros. apply Hstep; [lia|done].
Qed.

(** ** The researched-flag bit sets *)

Section BitSet.
Context `{!LegacyConstants} `{!Collaborators}.

Lemma ExportResearchedRideTypes_pack live s6 :
  rct_s6_data.researched_ride_types (ExportResearchedRideTypes live s6)
  = pack_flags RIDE_TYPE_COUNT (ride_type_is_invented live)
      (rct_s6_data.researched_ride_types s6).
Proof. done. Qed.

Lemma ExportResearchedRideEntries_pack live s6 :
  rct_s6_data.researched_ride_entries (ExportResearchedRideEntries live s6)
  = pack_flags MAX_RIDE_OBJECTS (ride_entry_is_invented live)
      (rct_s6_data.researched_ride_entries s6).
Proof. done. Qed.

Lemma ExportResearchedSceneryItems_pack live s6 :
  rct_s6_data.researched_scenery_items (ExportResearchedSceneryItems live s6)
  = pack_flags RCT2_MAX_RESEARCHED_SCENERY_ITEMS (scenery_is_invented live)
      (rct_s6_data.researched_scenery_items s6).
Proof. done. Qed.

Lemma quad_index (i : nat) : Z.to_nat (Z.shiftr (Z.of_nat i) 5) = (i / 32)%nat.
Proof.
  rewrite Z.shiftr_div_pow2 by lia. change (2 ^ 5) with (Z.of_nat 32).
  rewrite <- Nat2Z.inj_div. apply Nat2Z.id.
Qed.

Lemma bit_index (i : nat) : Z.land (Z.of_nat i) 0x1F = Z.of_nat (i mod 32).
Proof.
  change 0x1F with (Z.ones 5). rewrite Z.land_ones by lia.
  change (2 ^ 5) with (Z.of_nat 32). by rewrite <- Nat2Z.inj_mod.
Qed.

Lemma single_bit_testbit (b i : Z) :
  0 <= b < 32 -> 0 <= i ->
  Z.testbit (uint32 (Z.shiftl 1 b)) i = bool_decide (i = b).
Proof.
  intros Hb Hi. rewrite uint32_testbit by done.
  rewrite Z.shiftl_1_l, Z.pow2_bits_eqb by lia.
  destruct (Z.ltb_spec i 32), (Z.eqb_spec b i); case_bool_decide; try done; lia.
Qed.

Lemma set_flag_length invented i words :
  length (set_flag invented i words) = length words.
Proof. unfold set_flag. destruct (invented i); [apply length_alter|done]. Qed.

Lemma pack_flags_length n invented words :
  length (pack_flags n invented words) = length words.
Proof.
  unfold pack_flags.
  apply (for_loop_invariant (fun _ ws => length ws = length words)).
  - apply length_fmap.
  - intros i ws _ Hlen. by rewrite set_flag_length.
Qed.

Lemma set_flag_packed invented n words :
  packed_upto n invented words ->
  packed_upto (S n) invented (set_flag invented n words).
Proof.
  intros Hinv q w Hq. unfold set_flag in Hq.
  pose proof (Nat.div_mod_eq n 32) as Hdm.
  pose proof (Nat.mod_upper_bound n 32 ltac:(lia)) as Hmod.
  destruct (invented n) eqn:Hn.
  - rewrite quad_index, bit_index in Hq.
    destruct (decide (q = (n / 32)%nat)) as [->|Hne].
    + rewrite list_lookup_alter_eq in Hq.
      destruct (words !! (n / 32)%nat) as [w0|] eqn:Hw0; [|done].
      injection Hq as <-. destruct (Hinv _ _ Hw0) as [Hnn Hbits].
      split.
      { apply Z.lor_nonneg. split; [done|apply uint32_range]. }
      intros b Hb. rewrite Z.lor_spec, Hbits, single_bit_testbit by lia.
      destruct (decide (b = Z.of_nat (n mod 32))) as [->|Hb'].
      * replace (32 * Z.of_nat (n / 32) + Z.of_nat (n mod 32)) with (Z.of_nat n) by lia.
        rewrite Nat2Z.id, Hn.
        rewrite (bool_decide_eq_true_2 (_ = _)) by done.
        rewrite orb_true_r. symmetry.
        by rewrite bool_decide_eq_true_2 by lia.
      * rewrite (bool_decide_eq_false_2 (b = _)) by done.
        rewrite orb_false_r. f_equal. apply bool_decide_ext. lia.
    + rewrite list_lookup_alter_ne in Hq by done.
      destruct (Hinv _ _ Hq) as [Hnn Hbits]. split; [done|].
      intros b Hb. rewrite Hbits by done. f_equal. apply bool_decide_ext.
      assert (Z.of_nat q <> Z.of_nat (n / 32)) by lia. lia.
  - destruct (Hinv _ _ Hq) as [Hnn Hbits]. split; [done|].
    intros b Hb. rewrite Hbits by done.
    destruct (decide (32 * Z.of_nat q + b = Z.of_nat n)) as [Heq|Hne].
    + rewrite Heq, Nat2Z.id, Hn. by rewrite !andb_false_r.
    + f_equal. apply bool_decide_ext. lia.
Qed.

Lemma pack_flags_packed n invented words :
  packed_upto n invented (pack_flags n invented words).
Proof.
  unfold pack_flags.
  apply (for_loop_invariant (fun i ws => packed_upto i invented ws)).
  - intros q w Hq. apply list_lookup_fmap_Some in Hq as (? & -> & _).
    split; [done|]. intros b Hb. rewrite Z.bits_0.
    rewrite bool_decide_eq_false_2 by lia. done.
  - intros i ws _. apply set_flag_packed.
Qed.

Lemma nonneg_bits_bound (w : Z) :
  0 <= w -> (forall b, 32 <= b -> Z.testbit w b = false) -> w < 2 ^ 32.
Proof.
  intros Hnn Hbits. destruct (Z.eq_dec w 0) as [->|Hne]; [lia|].
  apply Z.log2_lt_pow2; [lia|].
  destruct (Z.lt_ge_cases (Z.log2 w) 32) as [|Hge]; [done|].
  pose proof (Z.bit_log2 w ltac:(lia)) as Hb. rewrite Hbits in Hb; done.
Qed.

(** The contract of the packer, for a flag array of [length words] words
    that is large enough for the [n] flags. *)
Lemma pack_flags_spec n invented words :
  (n <= 32 * length words)%nat ->
  length (pack_flags n invented words) = length words
  /\ (forall w, w ∈ pack_flags n invented words -> 0 <= w < 2 ^ 32)
  /\ (forall i : nat, (i < 32 * length words)%nat ->
        Z.testbit (pack_flags n invented words !!! (i / 32)%nat)
                  (Z.of_nat (i mod 32))
        = bool_decide (i < n)%nat && invented i).
Proof.
  intros Hn. pose proof (pack_flags_packed n invented words) as Hp.
  split; [apply pack_flags_length|]. split.
  - intros w Hw. apply list_elem_of_lookup in Hw as [q Hq].
    destruct (Hp _ _ Hq) as [Hnn Hbits]. split; [done|].
    apply nonneg_bits_bound; [done|]. intros b Hb.
    rewrite Hbits by lia. rewrite bool_decide_eq_false_2 by lia. done.
  - intros i Hi.
    pose proof (Nat.div_mod_eq i 32) as Hdm.
    pose proof (Nat.mod_upper_bound i 32 ltac:(lia)) as Hmod.
    assert (Hq : (i / 32 < length (pack_flags n invented words))%nat).
    { rewrite pack_flags_length. apply Nat.Div0.div_lt_upper_bound. lia. }
    apply lookup_lt_is_Some in Hq as [w Hq].
    rewrite (list_lookup_total_correct _ _ _ Hq).
    destruct (Hp _ _ Hq) as [_ Hbits]. rewrite Hbits by lia.
    replace (32 * Z.of_nat (i / 32) + Z.of_nat (i mod 32)) with (Z.of_nat i) by lia.
    rewrite Nat2Z.id. f_equal. apply bool_decide_ext. lia.
Qed.

(** C8: in each of the three researched-flag exports, bit [i mod 32] of
    word [i div 32] is set exactly when [i] is below the size of the
    domain and invented; so the bits of the domain carry the predicate and
    all the bits beyond it, in every word of the array, are zero; the
    words are 32-bit words. *)
Theorem researched_flags_packed (live : LiveState) (s6 : rct_s6_data) :
  (RIDE_TYPE_COUNT <= 32 * length (rct_s6_data.researched_ride_types s6))%nat ->
  (MAX_RIDE_OBJECTS <= 32 * length (rct_s6_data.researched_ride_entries s6))%nat ->
  (RCT2_MAX_RESEARCHED_SCENERY_ITEMS
   <= 32 * length (rct_s6_data.researched_scenery_items s6))%nat ->
  let types := rct_s6_data.researched_ride_types (ExportResearchedRideTypes live s6) in
  let entries := rct_s6_data.researched_ride_entries (ExportResearchedRideEntries live s6) in
  let scenery := rct_s6_data.researched_scenery_items (ExportResearchedSceneryItems live s6) in
  (length types = length (rct_s6_data.researched_ride_types s6)
   /\ (forall w, w ∈ types -> 0 <= w < 2 ^ 32)
   /\ forall i : nat, (i < 32 * length types)%nat ->
        Z.testbit (types !!! (i / 32)%nat) (Z.of_nat (i mod 32))
        = bool_decide (i < RIDE_TYPE_COUNT)%nat && ride_type_is_invented live i)
  /\ (length entries = length (rct_s6_data.researched_ride_entries s6)
      /\ (forall w, w ∈ entries -> 0 <= w < 2 ^ 32)
      /\ forall i : nat, (i < 32 * length entries)%nat ->
           Z.testbit (entries !!! (i / 32)%nat) (Z.of_nat (i mod 32))
           = bool_decide (i < MAX_RIDE_OBJECTS)%nat && ride_entry_is_invented live i)
  /\ (length scenery = length (rct_s6_data.researched_scenery_items s6)
      /\ (forall w, w ∈ scenery -> 0 <= w < 2 ^ 32)
      /\ forall i : nat, (i < 32 * length scenery)%nat ->
           Z.testbit (scenery !!! (i / 32)%nat) (Z.of_nat (i mod 32))
           = bool_decide (i < RCT2_MAX_RESEARCHED_SCENERY_ITEMS)%nat
             && scenery_is_invented live i).
Proof.
  intros Ht He Hs types entries scenery. subst types entries scenery.
  rewrite ExportResearchedRideTypes_pack, ExportResearchedRideEntries_pack,
    ExportResearchedSceneryItems_pack.
  split; [|split].
  - destruct (pack_flags_spec _ (ride_type_is_invented live) _ Ht) as (Hl & Hw & Hb).
    rewrite Hl. auto.
  - destruct (pack_flags_spec _ (ride_entry_is_invented live) _ He) as (Hl & Hw & Hb).
    rewrite Hl. auto.
  - destruct (pack_flags_spec _ (scenery_is_invented live) _ Hs) as (Hl & Hw & Hb).
    rewrite Hl. auto.
Qed.

End BitSet.

(** ** Arrays filled slot by slot *)

Lemma insert_filled {A : Type} (f : nat -> A) (k : nat) (l : list A) :
  (k < length l)%nat ->
  <[k:=f k]> ((f <$> seq 0 k) ++ drop k l) = (f <$> seq 0 (S k)) ++ drop (S k) l.
Proof.
  intros Hk. rewrite seq_S, fmap_app. simpl. rewrite <- app_assoc. simpl.
  destruct (lookup_lt_is_Some_2 l k Hk) as [x Hx].
  rewrite (drop_S l x k Hx).
  replace k with (length (f <$> seq 0 k) + 0)%nat at 1
    by (rewrite length_fmap, length_seq; lia).
  by rewrite insert_app_r.
Qed.

Lemma lookup_filled {A : Type} (f : nat -> A) (n i : nat) (l : list A) :
  (i < n)%nat -> ((f <$> seq 0 n) ++ drop n l) !! i = Some (f i).
Proof.
  intros Hi. rewrite lookup_app_l by (rewrite length_fmap, length_seq; lia).
  rewrite list_lookup_fmap.
  assert (seq 0 n !! i = Some i) as -> by (apply lookup_seq; lia). done.
Qed.

Lemma lookup_filled_ge {A : Type} (f : nat -> A) (n i : nat) (l : list A) :
  (n <= i)%nat -> (n <= length l)%nat -> ((f <$> seq 0 n) ++ drop n l) !! i = l !! i.
Proof.
  intros Hi Hn. rewrite lookup_app_r; rewrite length_fmap, length_seq; [|lia].
  rewrite lookup_drop. f_equal. lia.
Qed.

Lemma length_filled {A : Type} (f : nat -> A) (n : nat) (l : list A) :
  (n <= length l)%nat -> length ((f <$> seq 0 n) ++ drop n l) = length l.
Proof. intros. rewrite length_app, length_fmap, length_seq, length_drop. lia. Qed.

Section Tables.
Context `{!LegacyConstants} `{!Collaborators}.

(** *** The ride table *)

Lemma ExportRides_closed_form live s6 :
  (RCT12_MAX_RIDES_IN_PARK <= length (rct_s6_data.rides s6))%nat ->
  ExportRides live s6
  = rct_s6_data.set_rides
      ((exported_ride live <$> seq 0 RCT12_MAX_RIDES_IN_PARK)
       ++ drop RCT12_MAX_RIDES_IN_PARK (rct_s6_data.rides s6)) s6.
Proof.
  intros Hlen. unfold ExportRides.
  generalize (Nat.le_refl RCT12_MAX_RIDES_IN_PARK).
  generalize RCT12_MAX_RIDES_IN_PARK at 1 3 4 5 as k.
  induction k as [|k IH]; intros Hk.
  - rewrite for_loop_0. simpl seq. rewrite fmap_nil, app_nil_l, drop_0.
    by destruct s6.
  - rewrite for_loop_S, IH by lia.
    rewrite <- insert_filled by lia. reflexivity.
Qed.

Lemma ExportRides_lookup live s6 index :
  (RCT12_MAX_RIDES_IN_PARK <= length (rct_s6_data.rides s6))%nat ->
  (index < RCT12_MAX_RIDES_IN_PARK)%nat ->
  rct_s6_data.rides (ExportRides live s6) !! index = Some (exported_ride live index).
Proof.
  intros Hlen Hi. rewrite ExportRides_closed_form by done. simpl.
  by apply lookup_filled.
Qed.

Lemma ExportRides_length live s6 :
  (RCT12_MAX_RIDES_IN_PARK <= length (rct_s6_data.rides s6))%nat ->
  length (rct_s6_data.rides (ExportRides live s6)) = length (rct_s6_data.rides s6).
Proof.
  intros Hlen. rewrite ExportRides_closed_form by done. simpl.
  by apply length_filled.
Qed.

Lemma ExportRides_ride_measurements live s6 :
  (RCT12_MAX_RIDES_IN_PARK <= length (rct_s6_data.rides s6))%nat ->
  rct_s6_data.ride_measurements (ExportRides live s6)
  = rct_s6_data.ride_measurements s6.
Proof. intros Hlen. by rewrite ExportRides_closed_form. Qed.

(** No exported ride record carries a measurement slot yet. *)
Lemma exported_ride_measurement_index live index :
  rct2_ride.measurement_index (exported_ride live index) = 0.
Proof. unfold exported_ride. by destruct (_ =? _). Qed.

(** C6: a slot of the ride list whose live type is the unused-ride
    sentinel is exported as the cleared record with that sentinel in its
    type field: every other field is zero, none is taken from the live
    record. *)
Theorem ExportRides_null_ride (live : LiveState) (s6 : rct_s6_data) (index : nat) :
  (RCT12_MAX_RIDES_IN_PARK <= length (rct_s6_data.rides s6))%nat ->
  (index < RCT12_MAX_RIDES_IN_PARK)%nat ->
  Ride.type (get_ride live index) = RIDE_TYPE_NULL ->
  rct_s6_data.rides (ExportRides live s6) !! index
  = Some (rct2_ride.set_type RIDE_TYPE_NULL rct2_ride_zero).
Proof.
  intros Hlen Hi Hnull. rewrite ExportRides_lookup by done.
  unfold exported_ride. rewrite Hnull, Z.eqb_refl. done.
Qed.

(** *** The inversions byte *)

Lemma uint8_land x : uint8 x = Z.land x 255.
Proof. unfold uint8. change 255 with (Z.ones 8). by rewrite Z.land_ones. Qed.

Lemma uint8_id x : 0 <= x < 2 ^ 8 -> uint8 x = x.
Proof. intros. unfold uint8. apply Z.mod_small. lia. Qed.

Lemma shifted_low_bits (s : Z) : Z.land (uint8 (Z.shiftl s 5)) 0x1F = 0.
Proof.
  apply Z.bits_inj'. intros i Hi. rewrite Z.bits_0, uint8_land, !Z.land_spec.
  change 0x1F with (Z.ones 5). rewrite Z.testbit_ones by lia.
  destruct (Z.ltb_spec i 5).
  - rewrite Z.shiftl_spec_low by lia. done.
  - rewrite andb_false_r. apply andb_false_r.
Qed.

Lemma inversions_byte (count s : Z) :
  0 <= count < 32 ->
  let b := uint8 (Z.lor (uint8 count) (Z.shiftl s 5)) in
  b = Z.lor count (uint8 (Z.shiftl s 5))
  /\ 0 <= b < 256
  /\ Z.land b 0x1F = count
  /\ Z.shiftr b 5 = s mod 8.
Proof.
  intros Hc b.
  assert (Hb : b = Z.lor count (uint8 (Z.shiftl s 5))).
  { subst b. rewrite (uint8_id count) by lia.
    rewrite !uint8_land, Z.land_lor_distr_l. f_equal.
    rewrite <- uint8_land. apply uint8_id. lia. }
  split; [done|]. split; [subst b; unfold uint8; apply Z.mod_pos_bound; lia|].
  rewrite Hb. split.
  - rewrite Z.land_lor_distr_l, shifted_low_bits, Z.lor_0_r.
    change 0x1F with (Z.ones 5). rewrite Z.land_ones by lia.
    apply Z.mod_small. lia.
  - rewrite Z.shiftr_lor, !Z.shiftr_div_pow2 by lia.
    rewrite (Z.div_small count) by lia. rewrite Z.lor_0_l.
    unfold uint8. rewrite Z.shiftl_mul_pow2 by lia.
    change (2 ^ 5) with 32. change (2 ^ 8) with 256.
    Z.div_mod_to_equations. lia.
Qed.

Lemma ExportRide_inversions src :
  rct2_ride.inversions (ExportRide src)
  = uint8 (Z.lor (uint8 (Z.min (inversion_count src) (inversion_count_max src)))
                 (Z.shiftl (Ride.sheltered_eighths src) 5)).
Proof.
  unfold inversion_count, inversion_count_max. simpl.
  by destruct (Ride.type src =? RIDE_TYPE_MINI_GOLF).
Qed.

(** C10: in the exported record of a ride that is not the unused-ride
    sentinel, the inversions byte is the count (the holes of a mini golf,
    the inversions of any other ride) saturated at its maximum, in the low
    five bits, or-ed with the sheltered eighths shifted left by five: the
    low five bits are [min count maximum], the three high bits are the
    sheltered eighths (their low three bits, which is all of them up to
    seven). *)
Theorem ExportRide_inversions_packed (live : LiveState) (s6 : rct_s6_data)
    (index : nat) :
  (RCT12_MAX_RIDES_IN_PARK <= length (rct_s6_data.rides s6))%nat ->
  (index < RCT12_MAX_RIDES_IN_PARK)%nat ->
  0 <= RCT12_MAX_GOLF_HOLES < 32 ->
  0 <= RCT12_MAX_INVERSIONS < 32 ->
  let src := get_ride live index in
  Ride.type src <> RIDE_TYPE_NULL ->
  0 <= Ride.holes src < 256 ->
  0 <= Ride.inversions src < 256 ->
  0 <= Ride.sheltered_eighths src < 256 ->
  exists dst,
    rct_s6_data.rides (ExportRides live s6) !! index = Some dst
    /\ let count :=
         if Ride.type src =? RIDE_TYPE_MINI_GOLF
         then Z.min (Ride.holes src) RCT12_MAX_GOLF_HOLES
         else Z.min (Ride.inversions src) RCT12_MAX_INVERSIONS in
       rct2_ride.inversions dst
       = Z.lor count (uint8 (Z.shiftl (Ride.sheltered_eighths src) 5))
       /\ 0 <= rct2_ride.inversions dst < 256
       /\ Z.land (rct2_ride.inversions dst) 0x1F = count
       /\ Z.shiftr (rct2_ride.inversions dst) 5 = Ride.sheltered_eighths src mod 8
       /\ (Ride.sheltered_eighths src <= 7 ->
           Z.shiftr (rct2_ride.inversions dst) 5 = Ride.sheltered_eighths src).
Proof.
  intros Hlen Hi Hholes Hinv src Htype Hh Hv Hs.
  exists (ExportRide src). split.
  - rewrite ExportRides_lookup by done. unfold exported_ride. fold src.
    by destruct (Z.eqb_spec (Ride.type src) RIDE_TYPE_NULL).
  - intros count. rewrite ExportRide_inversions.
    assert (Hcount : Z.min (inversion_count src) (inversion_count_max src) = count).
    { unfold inversion_count, inversion_count_max, count.
      by destruct (Ride.type src =? RIDE_TYPE_MINI_GOLF). }
    rewrite Hcount.
    assert (Hrange : 0 <= count < 32).
    { unfold count. destruct (Ride.type src =? RIDE_TYPE_MINI_GOLF); lia. }
    destruct (inversions_byte count (Ride.sheltered_eighths src) Hrange)
      as (Hb & Hr & Hlow & Hhigh).
    repeat split; try done; try lia.
    intros Hle. rewrite Hhigh. apply Z.mod_small. lia.
Qed.

End Tables.

Section Sentinels.
Context `{!LegacyConstants} `{!Collaborators}.

(** *** Peep spawns and park entrances *)

Lemma ExportPeepSpawns_closed_form live s6 :
  (RCT12_MAX_PEEP_SPAWNS <= length (rct_s6_data.peep_spawns s6))%nat ->
  ExportPeepSpawns live s6
  = rct_s6_data.set_peep_spawns
      ((exported_peep_spawn live <$> seq 0 RCT12_MAX_PEEP_SPAWNS)
       ++ drop RCT12_MAX_PEEP_SPAWNS (rct_s6_data.peep_spawns s6)) s6.
Proof.
  intros Hlen. unfold ExportPeepSpawns.
  generalize (Nat.le_refl RCT12_MAX_PEEP_SPAWNS).
  generalize RCT12_MAX_PEEP_SPAWNS at 1 3 4 5 as k.
  induction k as [|k IH]; intros Hk.
  - rewrite for_loop_0. simpl seq. rewrite fmap_nil, app_nil_l, drop_0.
    by destruct s6.
  - rewrite for_loop_S, IH by lia.
    rewrite <- insert_filled by lia. reflexivity.
Qed.

Lemma ExportPeepSpawns_lookup live s6 i :
  (RCT12_MAX_PEEP_SPAWNS <= length (rct_s6_data.peep_spawns s6))%nat ->
  (i < RCT12_MAX_PEEP_SPAWNS)%nat ->
  rct_s6_data.peep_spawns (ExportPeepSpawns live s6) !! i
  = Some (exported_peep_spawn live i).
Proof.
  intros Hlen Hi. rewrite ExportPeepSpawns_closed_form by done. simpl.
  by apply lookup_filled.
Qed.

Lemma park_entrance_loop live s6 (k : nat) :
  (k <= length (rct_s6_data.park_entrance_x s6))%nat ->
  (k <= length (rct_s6_data.park_entrance_y s6))%nat ->
  (k <= length (rct_s6_data.park_entrance_z s6))%nat ->
  (k <= length (rct_s6_data.park_entrance_direction s6))%nat ->
  let filled (f : CoordsXYZD -> Z) (l : list Z) :=
    ((fun i => f (exported_park_entrance live i)) <$> seq 0 k) ++ drop k l in
  for_loop k
    (fun i s6 =>
       let entrance := CoordsXYZD.mk LOCATION_NULL LOCATION_NULL 0 0 in
       let entrance :=
         match gParkEntrances live !! i with
         | Some e => e
         | None => entrance
         end in
       rct_s6_data.set_park_entrance i
         (int16 (CoordsXYZD.x entrance)) (int16 (CoordsXYZD.y entrance))
         (int16 (CoordsXYZD.z entrance)) (CoordsXYZD.direction entrance) s6)
    s6
  = rct_s6_data.mk (rct_s6_data.header s6) (rct_s6_data.initial_cash s6)
      (rct_s6_data.current_loan s6) (rct_s6_data.peep_spawns s6)
      (rct_s6_data.researched_ride_types s6)
      (rct_s6_data.researched_ride_entries s6)
      (rct_s6_data.researched_scenery_items s6) (rct_s6_data.maximum_loan s6)
      (rct_s6_data.game_version_number s6) (rct_s6_data.loan_hash s6)
      (filled (fun e => int16 (CoordsXYZD.x e)) (rct_s6_data.park_entrance_x s6))
      (filled (fun e => int16 (CoordsXYZD.y e)) (rct_s6_data.park_entrance_y s6))
      (filled (fun e => int16 (CoordsXYZD.z e)) (rct_s6_data.park_entrance_z s6))
      (filled CoordsXYZD.direction (rct_s6_data.park_entrance_direction s6))
      (rct_s6_data.rides s6) (rct_s6_data.ride_measurements s6).
Proof.
  cbv zeta. induction k as [|k IH]; intros Hx Hy Hz Hd.
  - rewrite for_loop_0. simpl seq. rewrite !fmap_nil, !app_nil_l, !drop_0.
    by destruct s6.
  - rewrite for_loop_S, IH by lia.
    rewrite <- (insert_filled (fun i => int16 (CoordsXYZD.x (exported_park_entrance live i)))) by lia.
    rewrite <- (insert_filled (fun i => int16 (CoordsXYZD.y (exported_park_entrance live i)))) by lia.
    rewrite <- (insert_filled (fun i => int16 (CoordsXYZD.z (exported_park_entrance live i)))) by lia.
    rewrite <- (insert_filled (fun i => CoordsXYZD.direction (exported_park_entrance live i))) by lia.
    reflexivity.
Qed.

Lemma ExportParkEntrances_closed_form live s6 :
  let n := RCT12_MAX_PARK_ENTRANCES in
  (n <= length (rct_s6_data.park_entrance_x s6))%nat ->
  (n <= length (rct_s6_data.park_entrance_y s6))%nat ->
  (n <= length (rct_s6_data.park_entrance_z s6))%nat ->
  (n <= length (rct_s6_data.park_entrance_direction s6))%nat ->
  let filled (f : CoordsXYZD -> Z) (l : list Z) :=
    ((fun i => f (exported_park_entrance live i)) <$> seq 0 n) ++ drop n l in
  ExportParkEntrances live s6
  = rct_s6_data.mk (rct_s6_data.header s6) (rct_s6_data.initial_cash s6)
      (rct_s6_data.current_loan s6) (rct_s6_data.peep_spawns s6)
      (rct_s6_data.researched_ride_types s6)
      (rct_s6_data.researched_ride_entries s6)
      (rct_s6_data.researched_scenery_items s6) (rct_s6_data.maximum_loan s6)
      (rct_s6_data.game_version_number s6) (rct_s6_data.loan_hash s6)
      (filled (fun e => int16 (CoordsXYZD.x e)) (rct_s6_data.park_entrance_x s6))
      (filled (fun e => int16 (CoordsXYZD.y e)) (rct_s6_data.park_entrance_y s6))
      (filled (fun e => int16 (CoordsXYZD.z e)) (rct_s6_data.park_entrance_z s6))
      (filled CoordsXYZD.direction (rct_s6_data.park_entrance_direction s6))
      (rct_s6_data.rides s6) (rct_s6_data.ride_measurements s6).
Proof. intros n. apply park_entrance_loop. Qed.

Lemma int16_id x : - 2 ^ 15 <= x < 2 ^ 15 -> int16 x = x.
Proof. intros. unfold int16. rewrite Z.mod_small by lia. lia. Qed.

(** *** Station entrances and exits *)

Lemma ExportRide_entrance src i :
  (i < RCT12_MAX_STATIONS_PER_RIDE)%nat ->
  rct2_ride.entrances (ExportRide src) !! i
  = Some (let entrance := ride_get_entrance_location src i in
          if isNull entrance then RCT_XY8_UNDEFINED
          else LocationXY8_of (uint8 (CoordsXYZD.x entrance))
                              (uint8 (CoordsXYZD.y entrance))).
Proof.
  intros Hi. simpl. rewrite list_lookup_fmap.
  assert (seq 0 RCT12_MAX_STATIONS_PER_RIDE !! i = Some i) as ->
    by (apply lookup_seq; lia).
  done.
Qed.

Lemma ExportRide_exit src i :
  (i < RCT12_MAX_STATIONS_PER_RIDE)%nat ->
  rct2_ride.exits (ExportRide src) !! i
  = Some (let exit := ride_get_exit_location src i in
          if isNull exit then RCT_XY8_UNDEFINED
          else LocationXY8_of (uint8 (CoordsXYZD.x exit))
                              (uint8 (CoordsXYZD.y exit))).
Proof.
  intros Hi. simpl. rewrite list_lookup_fmap.
  assert (seq 0 RCT12_MAX_STATIONS_PER_RIDE !! i = Some i) as ->
    by (apply lookup_seq; lia).
  done.
Qed.


(** *** Narrowing conversions *)

(** C4, as amended: the narrowing conversions of the exporter truncate
    to the width of the legacy field (the coordinates of a live peep
    spawn to 16 bits, its height divided by 16 to 8 bits, the coordinates
    of a live park entrance to signed 16 bits, the tile of a set station
    entrance or exit to 8 bits each, the number of packed objects to 16
    bits), with one exception: the hole or inversion count of a ride is
    saturated at its maximum before it is stored in the five low bits of
    the inversions byte. *)
Theorem narrowing_truncates_except_inversions (live : LiveState)
    (s6 : rct_s6_data) (e : S6Exporter) (isScenario : bool) :
  (RCT12_MAX_PEEP_SPAWNS <= length (rct_s6_data.peep_spawns s6))%nat ->
  (RCT12_MAX_PARK_ENTRANCES <= length (rct_s6_data.park_entrance_x s6))%nat ->
  (RCT12_MAX_PARK_ENTRANCES <= length (rct_s6_data.park_entrance_y s6))%nat ->
  (RCT12_MAX_PARK_ENTRANCES <= length (rct_s6_data.park_entrance_z s6))%nat ->
  (RCT12_MAX_PARK_ENTRANCES <= length (rct_s6_data.park_entrance_direction s6))%nat ->
  0 <= RCT12_MAX_GOLF_HOLES < 32 ->
  0 <= RCT12_MAX_INVERSIONS < 32 ->
  (forall (i : nat) (src : PeepSpawn),
     (i < RCT12_MAX_PEEP_SPAWNS)%nat -> gPeepSpawns live !! i = Some src ->
     rct_s6_data.peep_spawns (ExportPeepSpawns live s6) !! i
     = Some (rct12_peep_spawn.mk (CoordsXYZD.x src mod 2 ^ 16)
               (CoordsXYZD.y src mod 2 ^ 16)
               (Z.quot (CoordsXYZD.z src) 16 mod 2 ^ 8)
               (CoordsXYZD.direction src)))
  /\ (forall (i : nat) (src : CoordsXYZD),
        (i < RCT12_MAX_PARK_ENTRANCES)%nat -> gParkEntrances live !! i = Some src ->
        rct_s6_data.park_entrance_x (ExportParkEntrances live s6) !! i
        = Some ((CoordsXYZD.x src + 2 ^ 15) mod 2 ^ 16 - 2 ^ 15)
        /\ rct_s6_data.park_entrance_y (ExportParkEntrances live s6) !! i
           = Some ((CoordsXYZD.y src + 2 ^ 15) mod 2 ^ 16 - 2 ^ 15)
        /\ rct_s6_data.park_entrance_z (ExportParkEntrances live s6) !! i
           = Some ((CoordsXYZD.z src + 2 ^ 15) mod 2 ^ 16 - 2 ^ 15))
  /\ (forall (src : Ride) (station : nat),
        (station < RCT12_MAX_STATIONS_PER_RIDE)%nat ->
        let entrance := ride_get_entrance_location src station in
        let exit := ride_get_exit_location src station in
        (isNull entrance = false ->
         rct2_ride.entrances (ExportRide src) !! station
         = Some (LocationXY8_of (CoordsXYZD.x entrance mod 2 ^ 8)
                                (CoordsXYZD.y entrance mod 2 ^ 8)))
        /\ (isNull exit = false ->
            rct2_ride.exits (ExportRide src) !! station
            = Some (LocationXY8_of (CoordsXYZD.x exit mod 2 ^ 8)
                                   (CoordsXYZD.y exit mod 2 ^ 8))))
  /\ rct_s6_header.num_packed_objects (rct_s6_data.header (Save_header e isScenario))
     = Z.of_nat (length (S6Exporter.ExportObjectsList e)) mod 2 ^ 16
  /\ (forall src : Ride,
        0 <= inversion_count src < 256 ->
        Z.land (rct2_ride.inversions (ExportRide src)) 0x1F
        = Z.min (inversion_count src) (inversion_count_max src)).
Proof.
  intros Hspawns Hx Hy Hz Hd Hholes Hinv.
  split; [|split; [|split; [|split]]].
  - intros i src Hi Hsrc. rewrite ExportPeepSpawns_lookup by done.
    unfold exported_peep_spawn, PeepSpawn in *. by rewrite Hsrc.
  - intros i src Hi Hsrc. rewrite ExportParkEntrances_closed_form by done.
    cbn [rct_s6_data.park_entrance_x rct_s6_data.park_entrance_y
         rct_s6_data.park_entrance_z].
    rewrite !lookup_filled by done.
    unfold exported_park_entrance, CoordsXYZD in *. by rewrite Hsrc.
  - intros src station Hstation entrance exit. split; intros Hset.
    + rewrite ExportRide_entrance by done. cbv zeta. fold entrance.
      by rewrite Hset.
    + rewrite ExportRide_exit by done. cbv zeta. fold exit. by rewrite Hset.
  - done.
  - intros src Hcount. rewrite ExportRide_inversions.
    assert (Hrange : 0 <= Z.min (inversion_count src) (inversion_count_max src) < 32).
    { unfold inversion_count_max.
      destruct (Ride.type src =? RIDE_TYPE_MINI_GOLF); lia. }
    by destruct (inversions_byte _ (Ride.sheltered_eighths src) Hrange)
      as (_ & _ & Hlow & _).
Qed.

End Sentinels.

(** ** The stream *)

Lemma read_back_all (s : IStream) :
  IStream.ReadArray (IStream.GetLength s) (IStream.SetPosition 0 s)
  = Some (IStream.data s, IStream.mk (IStream.data s) (length (IStream.data s))).
Proof.
  unfold IStream.ReadArray, IStream.GetLength, IStream.SetPosition. simpl.
  rewrite decide_True by lia. rewrite drop_0, firstn_all. done.
Qed.

Lemma write_at_end (bytes data : list Z) :
  IStream.Write bytes (IStream.mk data (length data))
  = IStream.mk (data ++ bytes) (length data + length bytes).
Proof.
  unfold IStream.Write. simpl. f_equal.
  rewrite Nat.sub_diag. simpl. rewrite app_nil_r, firstn_all.
  rewrite drop_ge by lia. by rewrite app_nil_r.
Qed.

Lemma uint32_bytes_round_trip (v : Z) :
  0 <= v < 2 ^ 32 -> IStream.uint32_of_bytes (IStream.uint32_bytes v) = v.
Proof.
  intros Hv. unfold IStream.uint32_bytes, IStream.uint32_of_bytes.
  change 255 with (Z.ones 8). rewrite !Z.land_ones, !Z.shiftr_div_pow2 by lia.
  change (2 ^ 8) with 256. change (2 ^ 16) with 65536.
  change (2 ^ 24) with 16777216. change (2 ^ 32) with 4294967296 in Hv.
  Z.div_mod_to_equations. lia.
Qed.

Section SaveProperties.
Context `{!LegacyConstants} `{!Collaborators}.

(** *** The checksum *)

(** [Save] always returns: the read-back asks for exactly the bytes of
    the stream.  The file is the stream as the chunk writes left it,
    followed by the four bytes of its checksum. *)
Lemma Save_file e stream isScenario :
  let s6 := Save_header e isScenario in
  let io := Save_chunks e s6 stream in
  let written := IStream.data io.1 in
  exists stream',
    Save e stream isScenario
    = Some (S6Exporter.mk (S6Exporter.RemoveTracklessRides e)
              (S6Exporter.ExportObjectsList e) s6, stream', io.2)
    /\ IStream.data stream'
       = written ++ IStream.uint32_bytes (sawyercoding_calculate_checksum written).
Proof.
  intros s6 io written. unfold Save. fold s6. fold io.
  rewrite read_back_all. cbv zeta.
  eexists. split; [reflexivity|].
  unfold IStream.WriteValue_uint32, IStream.SetPosition, IStream.GetLength.
  cbn [IStream.data]. fold written. by rewrite write_at_end.
Qed.

(** On a stream that the chunks are appended to, the bytes written are
    the bytes of the chunks, framing included, in the order of the
    events. *)
Lemma WriteChunk_joined s6 start size encoding (io : IStream * list SaveEvent) :
  IStream.position io.1 = length (IStream.data io.1)
  /\ IStream.data io.1 = mjoin (event_bytes s6 <$> io.2) ->
  let io' := WriteChunk s6 start size encoding io in
  IStream.position io'.1 = length (IStream.data io'.1)
  /\ IStream.data io'.1 = mjoin (event_bytes s6 <$> io'.2).
Proof.
  destruct io as [[data position] events].
  cbn [fst snd IStream.data IStream.position]. intros [-> Hdata].
  unfold WriteChunk. cbn [fst snd]. rewrite write_at_end.
  cbn [IStream.data IStream.position]. split; [by rewrite length_app|].
  rewrite fmap_app, join_app, <- Hdata. cbn [fmap list_fmap mjoin list_join].
  cbn [event_bytes chunk_encoding chunk_start chunk_size]. by rewrite app_nil_r.
Qed.

Lemma Save_chunks_fresh e s6 :
  rct_s6_header.num_packed_objects (rct_s6_data.header s6) = 0 ->
  let io := Save_chunks e s6 (IStream.mk [] 0) in
  IStream.data io.1 = mjoin (event_bytes s6 <$> io.2).
Proof.
  intros Hpacked io.
  cut (IStream.position io.1 = length (IStream.data io.1)
       /\ IStream.data io.1 = mjoin (event_bytes s6 <$> io.2)); [by intros [_ ?]|].
  subst io. unfold Save_chunks. rewrite Hpacked.
  change (0 <? 0) with false. cbv iota.
  destruct (_ =? S6_TYPE_SCENARIO); repeat apply WriteChunk_joined; done.
Qed.

(** On a stream that is appended to, every step of [Save] adds the bytes
    of its event after what the stream held. *)
Lemma WriteChunk_appended (before packed : list Z) s6 start size encoding
    (io : IStream * list SaveEvent) :
  IStream.position io.1 = length (IStream.data io.1)
  /\ IStream.data io.1 = before ++ mjoin (event_output packed s6 <$> io.2) ->
  let io' := WriteChunk s6 start size encoding io in
  IStream.position io'.1 = length (IStream.data io'.1)
  /\ IStream.data io'.1 = before ++ mjoin (event_output packed s6 <$> io'.2).
Proof.
  destruct io as [[data position] events].
  cbn [fst snd IStream.data IStream.position]. intros [-> Hdata].
  unfold WriteChunk. cbn [fst snd]. rewrite write_at_end.
  cbn [IStream.data IStream.position]. split; [by rewrite length_app|].
  rewrite fmap_app, join_app, app_assoc, <- Hdata. cbn [fmap list_fmap mjoin list_join].
  cbn [event_output chunk_encoding chunk_start chunk_size]. by rewrite app_nil_r.
Qed.

Lemma WritePackedObjects_appended (before : list Z) packed_bytes objects s6
    (io : IStream * list SaveEvent) :
  packed_objects_appended packed_bytes ->
  IStream.position io.1 = length (IStream.data io.1)
  /\ IStream.data io.1
     = before ++ mjoin (event_output (packed_bytes objects) s6 <$> io.2) ->
  let io' := (WritePackedObjects io.1 objects, io.2 ++ [WrotePackedObjects]) in
  IStream.position io'.1 = length (IStream.data io'.1)
  /\ IStream.data io'.1
     = before ++ mjoin (event_output (packed_bytes objects) s6 <$> io'.2).
Proof.
  intros Hpacked. destruct io as [[data position] events].
  cbn [fst snd IStream.data IStream.position]. intros [-> Hdata].
  rewrite Hpacked, write_at_end.
  cbn [IStream.data IStream.position]. split; [by rewrite length_app|].
  rewrite fmap_app, join_app, app_assoc, <- Hdata. cbn [fmap list_fmap mjoin list_join].
  cbn [event_output]. by rewrite app_nil_r.
Qed.

Lemma Save_chunks_appended e s6 stream packed_bytes :
  packed_objects_appended packed_bytes ->
  IStream.position stream = length (IStream.data stream) ->
  let io := Save_chunks e s6 stream in
  IStream.data io.1
  = IStream.data stream
    ++ mjoin (event_output (packed_bytes (S6Exporter.ExportObjectsList e)) s6 <$> io.2).
Proof.
  intros Hpacked Hend io.
  cut (IStream.position io.1 = length (IStream.data io.1)
       /\ IStream.data io.1
          = IStream.data stream
            ++ mjoin (event_output (packed_bytes (S6Exporter.ExportObjectsList e)) s6
                        <$> io.2)); [by intros [_ ?]|].
  assert (Hstart : IStream.position (stream, @nil SaveEvent).1
                   = length (IStream.data (stream, @nil SaveEvent).1)
                   /\ IStream.data (stream, @nil SaveEvent).1
                      = IStream.data stream
                        ++ mjoin (event_output
                                    (packed_bytes (S6Exporter.ExportObjectsList e)) s6
                                    <$> (stream, @nil SaveEvent).2)).
  { cbn [fst snd fmap list_fmap mjoin list_join]. by rewrite app_nil_r. }
  subst io. unfold Save_chunks.
  destruct (_ =? S6_TYPE_SCENARIO), (0 <? _);
    repeat first [apply WriteChunk_appended
                 |apply WritePackedObjects_appended; [exact Hpacked|]];
    exact Hstart.
Qed.

(** The file that [Save] leaves on a stream that is appended to: what the
    stream held, the bytes of the events in their order, the checksum. *)
Lemma Save_file_appended e stream isScenario packed_bytes :
  packed_objects_appended packed_bytes ->
  IStream.position stream = length (IStream.data stream) ->
  exists stream',
    let s6 := Save_header e isScenario in
    let events := (Save_chunks e s6 stream).2 in
    let written :=
      IStream.data stream
      ++ mjoin (event_output (packed_bytes (S6Exporter.ExportObjectsList e)) s6
                  <$> events) in
    Save e stream isScenario
    = Some (S6Exporter.mk (S6Exporter.RemoveTracklessRides e)
              (S6Exporter.ExportObjectsList e) s6, stream', events)
    /\ IStream.data stream'
       = written ++ IStream.uint32_bytes (sawyercoding_calculate_checksum written).
Proof.
  intros Hpacked Hend.
  destruct (Save_file e stream isScenario) as (stream' & HSave & Hdata).
  exists stream'. cbv zeta. split; [exact HSave|].
  rewrite Hdata. by rewrite (Save_chunks_appended e _ stream packed_bytes Hpacked Hend).
Qed.

(** C2: after the chunks are written, all the bytes of the stream are read
    back from position 0 and their checksum is appended as a 32-bit
    integer.  So the file is the written bytes followed by the four
    checksum bytes, and the checksum of the file without its last four
    bytes is the value stored in them.  When the chunks are written to a
    fresh stream (and no packed objects go in between) the checksummed
    bytes are exactly the chunks as the chunk writer emitted them,
    framing included. *)
Theorem Save_checksum_round_trip (e : S6Exporter) (stream : IStream)
    (isScenario : bool) :
  (forall data, 0 <= sawyercoding_calculate_checksum data < 2 ^ 32) ->
  let written :=
    IStream.data (Save_chunks e (Save_header e isScenario) stream).1 in
  exists e' stream' events,
    Save e stream isScenario = Some (e', stream', events)
    /\ let file := IStream.data stream' in
       file = written ++ IStream.uint32_bytes (sawyercoding_calculate_checksum written)
       /\ take (length file - 4) file = written
       /\ IStream.uint32_of_bytes (drop (length file - 4) file)
          = sawyercoding_calculate_checksum (take (length file - 4) file)
       /\ (stream = IStream.mk [] 0 -> S6Exporter.ExportObjectsList e = [] ->
           written = mjoin (event_bytes (S6Exporter._s6 e') <$> events)).
Proof.
  intros Hsum written.
  destruct (Save_file e stream isScenario) as (stream' & HSave & Hdata).
  do 3 eexists. split; [exact HSave|]. cbv zeta. fold written in Hdata.
  assert (Hlen : (length (IStream.data stream') - 4)%nat = length written).
  { rewrite Hdata, length_app. simpl. lia. }
  rewrite Hlen, Hdata.
  rewrite take_app_length, drop_app_length.
  split; [done|]. split; [done|]. split.
  - by apply uint32_bytes_round_trip.
  - intros -> Hnone. subst written. simpl.
    apply Save_chunks_fresh. simpl. by rewrite Hnone.
Qed.

(** *** The two modes *)

Lemma Save_chunks_events e s6 stream :
  (Save_chunks e s6 stream).2
  = head_events (rct_s6_header.type (rct_s6_data.header s6) =? S6_TYPE_SCENARIO)
      (0 <? rct_s6_header.num_packed_objects (rct_s6_data.header s6))
    ++ (if rct_s6_header.type (rct_s6_data.header s6) =? S6_TYPE_SCENARIO
        then scenario_tail else saved_game_tail).
Proof.
  unfold Save_chunks, head_events.
  destruct (_ =? S6_TYPE_SCENARIO), (0 <? _); reflexivity.
Qed.

Lemma not_in_head_events ev info packed :
  ev ∈ scenario_tail ++ saved_game_tail -> ev ∉ head_events info packed.
Proof.
  revert ev. apply Forall_forall.
  destruct info, packed; apply (bool_decide_unpack _); vm_compute; reflexivity.
Qed.

Lemma tails_disjoint ev : ev ∈ scenario_tail -> ev ∉ saved_game_tail.
Proof.
  revert ev. apply Forall_forall. apply (bool_decide_unpack _). vm_compute. reflexivity.
Qed.

Lemma Save_header_type e isScenario :
  rct_s6_header.type (rct_s6_data.header (Save_header e isScenario))
  = if isScenario then S6_TYPE_SCENARIO else S6_TYPE_SAVEDGAME.
Proof. done. Qed.

Lemma Save_header_num_packed_objects e isScenario :
  rct_s6_header.num_packed_objects (rct_s6_data.header (Save_header e isScenario))
  = uint16 (Z.of_nat (length (S6Exporter.ExportObjectsList e))).
Proof. done. Qed.

(** C3: for one exporter, saving as a scenario and saving as a game give
    headers that differ in the type only (the classic flag is 0, the
    count of packed objects, the version and the magic number are the
    same); the scenario-info chunk is written exactly when saving a
    scenario; and the file ends with the scenario tail when saving a
    scenario and with the saved-game tail otherwise, no chunk of the
    other tail being written anywhere.  The chunks are on the stream as
    the events list them: on a stream that is appended to, each of the
    two files is what the stream held, then the bytes of its events in
    their order, then the checksum of all that. *)
Theorem Save_scenario_versus_game (e : S6Exporter) (stream : IStream) :
  S6_TYPE_SAVEDGAME <> S6_TYPE_SCENARIO ->
  exists e_sc stream_sc events_sc e_sg stream_sg events_sg,
    SaveScenario e stream = Some (e_sc, stream_sc, events_sc)
    /\ SaveGame e stream = Some (e_sg, stream_sg, events_sg)
    /\ let header_sc := rct_s6_data.header (S6Exporter._s6 e_sc) in
       let header_sg := rct_s6_data.header (S6Exporter._s6 e_sg) in
       let packed :=
         0 <? uint16 (Z.of_nat (length (S6Exporter.ExportObjectsList e))) in
       header_sc = rct_s6_header.mk S6_TYPE_SCENARIO 0
                     (uint16 (Z.of_nat (length (S6Exporter.ExportObjectsList e))))
                     S6_RCT2_VERSION S6_MAGIC_NUMBER
       /\ header_sg = rct_s6_header.set_type S6_TYPE_SAVEDGAME header_sc
       /\ S6Exporter._s6 e_sc
          = rct_s6_data.set_header header_sc (S6Exporter._s6 e_sg)
       /\ events_sc = head_events true packed ++ scenario_tail
       /\ events_sg = head_events false packed ++ saved_game_tail
       /\ (scenario_info_chunk ∈ events_sc)
       /\ (scenario_info_chunk ∉ events_sg)
       /\ (forall ev, ev ∈ saved_game_tail -> ev ∉ events_sc)
       /\ (forall ev, ev ∈ scenario_tail -> ev ∉ events_sg)
       /\ (forall packed_bytes : list nat -> list Z,
             packed_objects_appended packed_bytes ->
             IStream.position stream = length (IStream.data stream) ->
             let output :=
               event_output (packed_bytes (S6Exporter.ExportObjectsList e)) in
             let written_sc :=
               IStream.data stream
               ++ mjoin (output (S6Exporter._s6 e_sc) <$> events_sc) in
             let written_sg :=
               IStream.data stream
               ++ mjoin (output (S6Exporter._s6 e_sg) <$> events_sg) in
             IStream.data stream_sc
             = written_sc
               ++ IStream.uint32_bytes (sawyercoding_calculate_checksum written_sc)
             /\ IStream.data stream_sg
                = written_sg
                  ++ IStream.uint32_bytes
                       (sawyercoding_calculate_checksum written_sg)).
Proof.
  intros Hdistinct. unfold SaveScenario, SaveGame.
  destruct (Save_file e stream true) as (stream_sc & Hsc & Hdata_sc).
  destruct (Save_file e stream false) as (stream_sg & Hsg & Hdata_sg).
  assert (Hev_sc : (Save_chunks e (Save_header e true) stream).2
                   = head_events true
                       (0 <? uint16 (Z.of_nat (length (S6Exporter.ExportObjectsList e))))
                     ++ scenario_tail).
  { rewrite Save_chunks_events, Save_header_type, Save_header_num_packed_objects.
    by rewrite Z.eqb_refl. }
  assert (Hev_sg : (Save_chunks e (Save_header e false) stream).2
                   = head_events false
                       (0 <? uint16 (Z.of_nat (length (S6Exporter.ExportObjectsList e))))
                     ++ saved_game_tail).
  { rewrite Save_chunks_events, Save_header_type, Save_header_num_packed_objects.
    cbv iota. by rewrite (proj2 (Z.eqb_neq _ _) Hdistinct). }
  rewrite Hev_sc in Hsc. rewrite Hev_sg in Hsg.
  do 6 eexists. split; [exact Hsc|]. split; [exact Hsg|].
  cbv zeta. cbn [S6Exporter._s6].
  split; [reflexivity|]. split; [reflexivity|]. split; [reflexivity|].
  split; [reflexivity|]. split; [reflexivity|].
  split; [|split; [|split; [|split]]].
  - unfold head_events. rewrite !elem_of_app, !elem_of_cons. auto.
  - destruct (0 <? _); apply (bool_decide_unpack _); vm_compute; reflexivity.
  - intros ev Hev. rewrite elem_of_app. intros [Hhead|Htail].
    + revert Hhead. apply not_in_head_events. rewrite elem_of_app. auto.
    + by apply (tails_disjoint ev).
  - intros ev Hev. rewrite elem_of_app. intros [Hhead|Htail].
    + revert Hhead. apply not_in_head_events. rewrite elem_of_app. auto.
    + by apply (tails_disjoint ev).
  - intros packed_bytes Hpacked Hend.
    rewrite Hdata_sc, Hdata_sg.
    rewrite (Save_chunks_appended e (Save_header e true) stream packed_bytes
               Hpacked Hend).
    rewrite (Save_chunks_appended e (Save_header e false) stream packed_bytes
               Hpacked Hend).
    rewrite Hev_sc, Hev_sg. done.
Qed.

(** *** The checks of Export *)


End SaveProperties.

(** ** Ride measurements *)

#[global] Instance more_recent_or_equal_total : Total more_recent_or_equal.
Proof. intros a b. unfold more_recent_or_equal. lia. Qed.
#[global] Instance more_recent_or_equal_trans : Transitive more_recent_or_equal.
Proof. intros a b c. unfold more_recent_or_equal. lia. Qed.

Lemma sort_by_last_use_perm l : sort_by_last_use l ≡ₚ l.
Proof. apply merge_sort_Permutation. Qed.

Lemma sort_by_last_use_sorted l :
  StronglySorted more_recent_or_equal (sort_by_last_use l).
Proof. apply StronglySorted_merge_sort; apply _. Qed.

(** A function that takes different values on the members of a list is
    injective on them. *)
Lemma NoDup_fmap_inj {A B : Type} (f : A -> B) (l : list A) (x y : A) :
  NoDup (f <$> l) -> x ∈ l -> y ∈ l -> f x = f y -> x = y.
Proof.
  induction l as [|a l IH]; [by rewrite elem_of_nil|].
  rewrite fmap_cons, NoDup_cons, !elem_of_cons.
  intros [Ha Hl] [->|Hx] [->|Hy] Hf; auto.
  - exfalso. apply Ha. rewrite Hf. apply list_elem_of_fmap. eauto.
  - exfalso. apply Ha. rewrite <- Hf. apply list_elem_of_fmap. eauto.
Qed.

(** With distinct ticks the result of the sort does not depend on the
    sorting algorithm: any arrangement of the list in which the ticks
    never increase is the one computed by [sort_by_last_use]. *)
Lemma sort_by_last_use_unique (l sorted : list RideMeasurement) :
  NoDup (RideMeasurement.last_use_tick <$> l) ->
  sorted ≡ₚ l ->
  Sorted more_recent_or_equal sorted ->
  sorted = sort_by_last_use l.
Proof.
  intros Hticks Hperm Hsorted.
  apply (Sorted_unique_strong more_recent_or_equal); [|done| |].
  - intros x y Hx Hy Hxy Hyx.
    apply (NoDup_fmap_inj RideMeasurement.last_use_tick l); [done| | |].
    + by rewrite <- Hperm.
    + by rewrite <- (sort_by_last_use_perm l).
    + unfold more_recent_or_equal in *. lia.
  - apply Sorted_merge_sort. apply _.
  - by rewrite sort_by_last_use_perm.
Qed.

Lemma strictly_sorted (l : list RideMeasurement) :
  StronglySorted more_recent_or_equal l ->
  NoDup (RideMeasurement.last_use_tick <$> l) ->
  StronglySorted
    (fun a b => RideMeasurement.last_use_tick b < RideMeasurement.last_use_tick a) l.
Proof.
  induction 1 as [|a l Hl IH Ha]; [constructor|].
  rewrite fmap_cons, NoDup_cons. intros [Hfresh Hnd].
  constructor; [by apply IH|].
  rewrite Forall_forall in Ha |- *. intros b Hb.
  specialize (Ha b Hb). unfold more_recent_or_equal in Ha.
  assert (RideMeasurement.last_use_tick b <> RideMeasurement.last_use_tick a); [|lia].
  intros Heq. apply Hfresh. rewrite <- Heq. apply list_elem_of_fmap. eauto.
Qed.

Section Measurements.
Context `{!LegacyConstants} `{!Collaborators}.

(** *** The collection *)

Lemma collect_ride_measurements_omap live :
  collect_ride_measurements live
  = omap (fun i => Ride.measurement (get_ride live i)) (seq 0 RCT12_MAX_RIDES_IN_PARK).
Proof.
  unfold collect_ride_measurements.
  induction RCT12_MAX_RIDES_IN_PARK as [|k IH]; [done|].
  rewrite for_loop_S, IH, seq_S, omap_app. simpl.
  destruct (Ride.measurement (get_ride live k)); [done|by rewrite app_nil_r].
Qed.

(** When every measurement points back to the ride that owns it, the
    owners of the collected measurements are distinct slots of the ride
    list. *)
Lemma collected_owners live :
  (forall i m, (i < RCT12_MAX_RIDES_IN_PARK)%nat ->
     Ride.measurement (get_ride live i) = Some m -> RideMeasurement.ride m = i) ->
  NoDup (RideMeasurement.ride <$> collect_ride_measurements live)
  /\ forall m, m ∈ collect_ride_measurements live ->
       (RideMeasurement.ride m < RCT12_MAX_RIDES_IN_PARK)%nat.
Proof.
  rewrite collect_ride_measurements_omap.
  induction RCT12_MAX_RIDES_IN_PARK as [|k IH]; intros Hown.
  - split; [constructor|]. intros m. by rewrite elem_of_nil.
  - destruct IH as [IHnd IHlt]; [intros; apply Hown; [lia|done]|].
    rewrite seq_S, omap_app, fmap_app. cbn [omap list_omap Nat.add].
    destruct (Ride.measurement (get_ride live k)) as [m|] eqn:Hm.
    + pose proof (Hown k m ltac:(lia) Hm) as Hk.
      cbn [fmap list_fmap]. split.
      * apply NoDup_app. split; [done|]. split; [|apply NoDup_singleton].
        intros r Hr. rewrite list_elem_of_singleton. intros ->.
        apply list_elem_of_fmap in Hr as (m' & Hr & Hm').
        specialize (IHlt m' Hm'). lia.
      * intros m'. rewrite elem_of_app, list_elem_of_singleton.
        intros [Hm' | ->]; [specialize (IHlt m' Hm')|]; lia.
    + cbn [fmap list_fmap]. rewrite !app_nil_r. split; [done|].
      intros m' Hm'. specialize (IHlt m' Hm'). lia.
Qed.

(** *** One iteration of the loop *)

Lemma exported_measurement_any_dst dst src :
  RCT12RideMeasurement.set_ride_index (Z.of_nat (RideMeasurement.ride src))
    (ExportRideMeasurement dst src)
  = exported_measurement src.
Proof. done. Qed.

Lemma write_ride_measurements_cons src rest i s6 :
  write_ride_measurements (src :: rest) i s6
  = write_ride_measurements rest (uint8 (i + 1)) (write_slot src i s6).
Proof. done. Qed.

Lemma write_slot_ride_measurements src i s6 :
  rct_s6_data.ride_measurements (write_slot src i s6)
  = alter (fun _ => exported_measurement src) (Z.to_nat i)
      (rct_s6_data.ride_measurements s6).
Proof.
  unfold write_slot. simpl. rewrite list_alter_alter_eq.
  apply list_alter_ext; [|done]. intros dst _. apply exported_measurement_any_dst.
Qed.

Lemma write_slot_rides src i s6 :
  rct_s6_data.rides (write_slot src i s6)
  = alter (rct2_ride.set_measurement_index i) (RideMeasurement.ride src)
      (rct_s6_data.rides s6).
Proof. done. Qed.

(** *** The loop *)

Lemma write_ride_measurements_spec (l : list RideMeasurement) :
  forall (i : Z) (s6 : rct_s6_data),
    0 <= i -> i + Z.of_nat (length l) <= 256 ->
    (Z.to_nat i + length l <= length (rct_s6_data.ride_measurements s6))%nat ->
    NoDup (RideMeasurement.ride <$> l) ->
    let s6' := write_ride_measurements l i s6 in
    length (rct_s6_data.ride_measurements s6')
    = length (rct_s6_data.ride_measurements s6)
    /\ (forall (k : nat) (m : RideMeasurement), l !! k = Some m ->
          rct_s6_data.ride_measurements s6' !! (Z.to_nat i + k)%nat
          = Some (exported_measurement m)
          /\ rct_s6_data.rides s6' !! RideMeasurement.ride m
             = rct2_ride.set_measurement_index (i + Z.of_nat k)
               <$> rct_s6_data.rides s6 !! RideMeasurement.ride m)
    /\ (forall j : nat, (j < Z.to_nat i \/ Z.to_nat i + length l <= j)%nat ->
          rct_s6_data.ride_measurements s6' !! j
          = rct_s6_data.ride_measurements s6 !! j)
    /\ (forall r : nat, r ∉ RideMeasurement.ride <$> l ->
          rct_s6_data.rides s6' !! r = rct_s6_data.rides s6 !! r).
Proof.
  induction l as [|src rest IH]; intros i s6 Hi H256 Hroom Hnd s6'.
  { subst s6'. simpl. by repeat split. }
  subst s6'. rewrite write_ride_measurements_cons.
  rewrite fmap_cons, NoDup_cons in Hnd. destruct Hnd as [Hfresh Hnd].
  simpl length in *.
  assert (Hslot : (Z.to_nat i < length (rct_s6_data.ride_measurements s6))%nat) by lia.
  (* the counter does not wrap while samples remain *)
  assert (Hnext : rest = [] \/ uint8 (i + 1) = i + 1).
  { destruct rest; [by left|right]. apply uint8_id. simpl length in H256. lia. }
  assert (Hu : 0 <= uint8 (i + 1) < 256 /\ uint8 (i + 1) <= i + 1).
  { unfold uint8. pose proof (Z.mod_pos_bound (i + 1) (2 ^ 8)).
    pose proof (Z.mod_le (i + 1) (2 ^ 8)). lia. }
  destruct (IH (uint8 (i + 1)) (write_slot src i s6)) as (IHlen & IHkept & IHslots & IHrides).
  { lia. }
  { destruct Hnext as [-> | Hnext]; simpl length; lia. }
  { rewrite write_slot_ride_measurements, length_alter. lia. }
  { done. }
  rewrite write_slot_ride_measurements, length_alter in IHlen.
  split; [done|]. split; [|split].
  - intros [|k] m Hm.
    + injection Hm as ->. rewrite Nat.add_0_r, Z.add_0_r. split.
      * rewrite IHslots by (destruct Hnext as [-> | Hnext]; simpl length; lia).
        rewrite write_slot_ride_measurements, list_lookup_alter_eq.
        by destruct (lookup_lt_is_Some_2 _ _ Hslot) as [dst ->].
      * rewrite IHrides by done. by rewrite write_slot_rides, list_lookup_alter_eq.
    + simpl in Hm. destruct Hnext as [-> | Hnext]; [by rewrite lookup_nil in Hm|].
      rewrite Hnext in IHkept |- *. destruct (IHkept k m Hm) as [Hslotk Hridek].
      split.
      * rewrite <- Hslotk. f_equal. lia.
      * rewrite Hridek, write_slot_rides, list_lookup_alter_ne.
        -- do 2 f_equal. lia.
        -- intros Heq. apply Hfresh. rewrite Heq.
           apply list_elem_of_fmap. exists m. split; [done|].
           apply list_elem_of_lookup. eauto.
  - intros j Hj.
    rewrite IHslots by (destruct Hnext as [-> | Hnext]; simpl length; lia).
    rewrite write_slot_ride_measurements, list_lookup_alter_ne; [done|lia].
  - intros r Hr. rewrite fmap_cons, not_elem_of_cons in Hr. destruct Hr as [Hne Hr].
    rewrite IHrides by done. rewrite write_slot_rides, list_lookup_alter_ne; done.
Qed.

(** *** The trim *)

Lemma ExportRideMeasurements_trimmed live s6 :
  (RCT12_RIDE_MEASUREMENT_MAX_ITEMS < length (collect_ride_measurements live))%nat ->
  ExportRideMeasurements live s6
  = write_ride_measurements (kept_measurements live) 0 s6.
Proof.
  intros Hmore. unfold ExportRideMeasurements, trim_ride_measurements.
  by rewrite (proj2 (Nat.ltb_lt _ _) Hmore).
Qed.

Lemma kept_evicted_perm live :
  kept_measurements live ++ evicted_measurements live
  ≡ₚ collect_ride_measurements live.
Proof.
  unfold kept_measurements, evicted_measurements.
  rewrite take_drop. apply sort_by_last_use_perm.
Qed.

Lemma kept_length live :
  (RCT12_RIDE_MEASUREMENT_MAX_ITEMS < length (collect_ride_measurements live))%nat ->
  length (kept_measurements live) = RCT12_RIDE_MEASUREMENT_MAX_ITEMS.
Proof.
  intros Hmore. unfold kept_measurements. apply length_take_le.
  rewrite (Permutation_length (sort_by_last_use_perm _)). lia.
Qed.

(** C1, as amended: when a park has more ride measurements than the
    table holds and their last-use ticks are distinct, the exported table
    holds exactly the most recent ones, as many as the table has slots:
    every kept sample is more recent than every evicted one.  The slots
    are in order of decreasing recency, most recent first (not in the
    order of the ride list).  The record in a slot carries the index of
    its owner, and the owner's [measurement_index] is the slot.  The
    ride record of an evicted owner is not written by this step: its
    [measurement_index] keeps the value [ExportRides] left, which is
    0. *)
Theorem ExportRideMeasurements_keeps_most_recent (live : LiveState)
    (s6 : rct_s6_data) :
  let ms := collect_ride_measurements live in
  let kept := kept_measurements live in
  let evicted := evicted_measurements live in
  let tick := RideMeasurement.last_use_tick in
  (RCT12_RIDE_MEASUREMENT_MAX_ITEMS < length ms)%nat ->
  (RCT12_RIDE_MEASUREMENT_MAX_ITEMS <= 256)%nat ->
  NoDup (tick <$> ms) ->
  (forall i m, (i < RCT12_MAX_RIDES_IN_PARK)%nat ->
     Ride.measurement (get_ride live i) = Some m -> RideMeasurement.ride m = i) ->
  (RCT12_MAX_RIDES_IN_PARK <= length (rct_s6_data.rides s6))%nat ->
  length (rct_s6_data.ride_measurements s6) = RCT12_RIDE_MEASUREMENT_MAX_ITEMS ->
  let s6' := ExportRideMeasurements live s6 in
  kept ++ evicted ≡ₚ ms
  /\ length kept = RCT12_RIDE_MEASUREMENT_MAX_ITEMS
  /\ (forall k e, k ∈ kept -> e ∈ evicted -> tick e < tick k)
  /\ StronglySorted (fun a b => tick b < tick a) kept
  /\ rct_s6_data.ride_measurements s6' = exported_measurement <$> kept
  /\ (forall (slot : nat) (m : RideMeasurement), kept !! slot = Some m ->
        RCT12RideMeasurement.ride_index
          <$> rct_s6_data.ride_measurements s6' !! slot
        = Some (Z.of_nat (RideMeasurement.ride m))
        /\ exists r,
             rct_s6_data.rides s6 !! RideMeasurement.ride m = Some r
             /\ rct_s6_data.rides s6' !! RideMeasurement.ride m
                = Some (rct2_ride.set_measurement_index (Z.of_nat slot) r))
  /\ (forall e, e ∈ evicted ->
        rct_s6_data.rides s6' !! RideMeasurement.ride e
        = rct_s6_data.rides s6 !! RideMeasurement.ride e)
  /\ (forall e, e ∈ evicted ->
        rct2_ride.measurement_index
          <$> rct_s6_data.rides (ExportRideMeasurements live (ExportRides live s6))
              !! RideMeasurement.ride e
        = Some 0).
Proof.
  intros ms kept evicted tick Hmore H256 Hticks Hown Hrides Htable s6'.
  pose proof (kept_evicted_perm live) as Hperm. fold kept evicted ms in Hperm.
  pose proof (kept_length live Hmore) as Hlen. fold kept in Hlen.
  destruct (collected_owners live Hown) as [Hnd Hlt]. fold ms in Hnd, Hlt.
  assert (Hsorted : StronglySorted more_recent_or_equal (kept ++ evicted)).
  { unfold kept, evicted, kept_measurements, evicted_measurements.
    rewrite take_drop. apply sort_by_last_use_sorted. }
  apply StronglySorted_app in Hsorted as (Hcross & Hkept & _).
  assert (Hticks' : NoDup (tick <$> kept ++ evicted)) by by rewrite Hperm.
  rewrite fmap_app in Hticks'.
  apply NoDup_app in Hticks' as (Hticks_kept & Hticks_cross & _).
  assert (Hnd' : NoDup (RideMeasurement.ride <$> kept ++ evicted)) by by rewrite Hperm.
  rewrite fmap_app in Hnd'. apply NoDup_app in Hnd' as (Hnd_kept & Hnd_cross & _).
  assert (Hevicted : forall e, e ∈ evicted ->
            RideMeasurement.ride e ∉ RideMeasurement.ride <$> kept).
  { intros e He Hin. apply (Hnd_cross _ Hin). apply list_elem_of_fmap. eauto. }
  (* the loop, on any record whose table has the declared size *)
  assert (Hloop : forall s,
    length (rct_s6_data.ride_measurements s) = RCT12_RIDE_MEASUREMENT_MAX_ITEMS ->
    rct_s6_data.ride_measurements (ExportRideMeasurements live s)
    = exported_measurement <$> kept
    /\ (forall slot m, kept !! slot = Some m ->
          rct_s6_data.rides (ExportRideMeasurements live s) !! RideMeasurement.ride m
          = rct2_ride.set_measurement_index (Z.of_nat slot)
            <$> rct_s6_data.rides s !! RideMeasurement.ride m)
    /\ (forall e, e ∈ evicted ->
          rct_s6_data.rides (ExportRideMeasurements live s) !! RideMeasurement.ride e
          = rct_s6_data.rides s !! RideMeasurement.ride e)).
  { intros s Hs. rewrite ExportRideMeasurements_trimmed by done. fold kept.
    destruct (write_ride_measurements_spec kept 0 s)
      as (Hl & Hslots & _ & Hothers); [lia|lia|simpl; lia|done|].
    split; [|split].
    - apply (list_eq_same_length _ _ RCT12_RIDE_MEASUREMENT_MAX_ITEMS).
      + by rewrite length_fmap.
      + by rewrite Hl.
      + intros slot x y Hslot Hx Hy.
        rewrite list_lookup_fmap in Hy.
        destruct (kept !! slot) as [m|] eqn:Hm; [|done].
        destruct (Hslots slot m Hm) as [Hx' _].
        change (Z.to_nat 0 + slot)%nat with slot in Hx'.
        simpl in Hy. injection Hy as <-.
        assert (Some x = Some (exported_measurement m)) as [= ->]; [|done].
        etrans; [symmetry; exact Hx|exact Hx'].
    - intros slot m Hm. destruct (Hslots slot m Hm) as [_ Hback].
      by rewrite Hback, Z.add_0_l.
    - intros e He. apply Hothers. by apply Hevicted. }
  destruct (Hloop s6 Htable) as (Htab & Hback & Hevict).
  split; [done|]. split; [done|]. split; [|split; [|split; [|split; [|split]]]].
  - intros k e Hk He. specialize (Hcross k e Hk He).
    unfold more_recent_or_equal in Hcross. fold tick in Hcross.
    assert (tick k <> tick e); [|lia].
    intros Heq. apply (Hticks_cross (tick k)); [|rewrite Heq];
      apply list_elem_of_fmap; eauto.
  - by apply strictly_sorted.
  - done.
  - intros slot m Hm. split.
    + subst s6'. rewrite Htab, list_lookup_fmap, Hm. done.
    + assert (Hin : m ∈ ms).
      { rewrite <- Hperm. apply elem_of_app. left.
        apply list_elem_of_lookup. eauto. }
      specialize (Hlt m Hin).
      destruct (lookup_lt_is_Some_2 (rct_s6_data.rides s6) (RideMeasurement.ride m))
        as [r Hr]; [lia|].
      exists r. split; [done|]. subst s6'. by rewrite (Hback slot m Hm), Hr.
  - done.
  - intros e He.
    destruct (Hloop (ExportRides live s6)) as (_ & _ & Hevict').
    { by rewrite ExportRides_ride_measurements. }
    rewrite (Hevict' e He).
    assert (Hin : e ∈ ms).
    { rewrite <- Hperm. apply elem_of_app. by right. }
    specialize (Hlt e Hin).
    rewrite ExportRides_lookup by done. simpl.
    by rewrite exported_ride_measurement_index.
Qed.

End Measurements.

(** ** The exporter on a concrete park *)

Lemma GetLoanHash_sequence_injective_witness :
  GetLoanHash 100000 150000 200000 = 2301911538
  /\ GetLoanHash 100001 150000 200000 <> GetLoanHash 100000 150000 200000
  /\ GetLoanHash 100000 150001 200000 <> GetLoanHash 100000 150000 200000
  /\ GetLoanHash 100000 150000 200001 <> GetLoanHash 100000 150000 200000.
Proof.
  destruct (GetLoanHash_sequence_injective 100000 150000 200000)
    as (Hseq & _ & Hcash & Hloan & Hmax); [lia..|].
  split; [rewrite Hseq; vm_compute; reflexivity|].
  split; [apply Hcash; lia|].
  split; [apply Hloan; lia|apply Hmax; lia].
Defined.

Lemma researched_flags_packed_witness :
  Z.testbit
    (rct_s6_data.researched_ride_types
       (@ExportResearchedRideTypes rct2_constants sample_collaborators
          nine_measured_rides (@rct_s6_data_zero rct2_constants)) !!! 1%nat) 1
  = true
  /\ Z.testbit
       (rct_s6_data.researched_scenery_items
          (@ExportResearchedSceneryItems rct2_constants sample_collaborators
             nine_measured_rides (@rct_s6_data_zero rct2_constants)) !!! 55%nat) 31
     = false.
Proof.
  destruct (@researched_flags_packed rct2_constants sample_collaborators
              nine_measured_rides (@rct_s6_data_zero rct2_constants))
    as ((_ & _ & Htypes) & _ & (_ & _ & Hscenery)); [vm_compute; lia..|].
  split.
  - exact (Htypes 33%nat ltac:(vm_compute; lia)).
  - exact (Hscenery 1791%nat ltac:(vm_compute; lia)).
Defined.

Lemma ExportRides_null_ride_witness :
  rct_s6_data.rides
    (@ExportRides rct2_constants sample_collaborators nine_measured_rides
       (@rct_s6_data_zero rct2_constants)) !! 9%nat
  = Some (rct2_ride.set_type 255 (@rct2_ride_zero rct2_constants)).
Proof.
  apply (@ExportRides_null_ride rct2_constants sample_collaborators
           nine_measured_rides (@rct_s6_data_zero rct2_constants) 9%nat).
  - vm_compute. lia.
  - vm_compute. lia.
  - reflexivity.
Defined.

Lemma ExportRide_inversions_packed_witness :
  exists dst,
    rct_s6_data.rides
      (@ExportRides rct2_constants sample_collaborators nine_measured_rides
         (@rct_s6_data_zero rct2_constants)) !! 1%nat = Some dst
    /\ Z.land (rct2_ride.inversions dst) 0x1F = 31
    /\ Z.shiftr (rct2_ride.inversions dst) 5 = 3.
Proof.
  destruct (@ExportRide_inversions_packed rct2_constants sample_collaborators
              nine_measured_rides (@rct_s6_data_zero rct2_constants) 1%nat)
    as (dst & Hdst & _ & _ & Hlow & _ & Hhigh).
  - vm_compute. lia.
  - vm_compute. lia.
  - vm_compute. split; [discriminate|reflexivity].
  - vm_compute. split; [discriminate|reflexivity].
  - vm_compute. discriminate.
  - vm_compute. split; [discriminate|reflexivity].
  - vm_compute. split; [discriminate|reflexivity].
  - vm_compute. split; [discriminate|reflexivity].
  - exists dst. split; [exact Hdst|]. split; [exact Hlow|].
    apply Hhigh. vm_compute. discriminate.
Defined.



Lemma narrowing_truncates_except_inversions_witness :
  rct_s6_data.peep_spawns
    (@ExportPeepSpawns rct2_constants sample_collaborators nine_measured_rides
       (@rct_s6_data_zero rct2_constants)) !! 0%nat
  = Some (rct12_peep_spawn.mk 4464 96 254 1).
Proof.
  destruct (@narrowing_truncates_except_inversions rct2_constants
              sample_collaborators nine_measured_rides
              (@rct_s6_data_zero rct2_constants)
              (@S6Exporter_new rct2_constants) true)
    as (Hspawns & _).
  1-5: vm_compute; lia.
  - vm_compute. split; [discriminate|reflexivity].
  - vm_compute. split; [discriminate|reflexivity].
  - apply (Hspawns 0%nat (CoordsXYZD.mk 70000 96 (-40) 1)).
    + vm_compute. lia.
    + reflexivity.
Defined.

(** C4, as stated, fails on ride 1 of the park: its 40 inversions are
    stored as 31, the maximum, where truncation to five bits gives 8. *)
Lemma inversions_saturate_counterexample :
  ~ @inversion_count_truncated rct2_constants sample_collaborators
      (get_ride nine_measured_rides 1%nat).
Proof. unfold inversion_count_truncated. vm_compute. discriminate. Qed.

Lemma Save_checksum_round_trip_witness :
  exists e' stream' events,
    @Save rct2_constants sample_collaborators (@S6Exporter_new rct2_constants)
      (IStream.mk [] 0) true = Some (e', stream', events)
    /\ IStream.uint32_of_bytes
         (drop (length (IStream.data stream') - 4) (IStream.data stream'))
       = @sawyercoding_calculate_checksum sample_collaborators
           (take (length (IStream.data stream') - 4) (IStream.data stream')).
Proof.
  destruct (@Save_checksum_round_trip rct2_constants sample_collaborators
              (@S6Exporter_new rct2_constants) (IStream.mk [] 0) true)
    as (e' & stream' & events & HSave & _ & _ & Hsum & _).
  - intros data. apply uint32_range.
  - exists e', stream', events. split; [exact HSave|exact Hsum].
Defined.

Lemma Save_scenario_versus_game_witness :
  exists e_sc stream_sc events_sc e_sg stream_sg events_sg,
    @SaveScenario rct2_constants sample_collaborators
      (@S6Exporter_new rct2_constants) (IStream.mk [] 0)
    = Some (e_sc, stream_sc, events_sc)
    /\ @SaveGame rct2_constants sample_collaborators
         (@S6Exporter_new rct2_constants) (IStream.mk [] 0)
       = Some (e_sg, stream_sg, events_sg)
    /\ (scenario_info_chunk ∈ events_sc)
    /\ (scenario_info_chunk ∉ events_sg)
    /\ take 14 (IStream.data stream_sc) = [3; 2; 0; 0; 0; 1; 0; 3; 2; 0; 0; 0; 7; 7]
    /\ length (IStream.data stream_sc) = 95%nat
    /\ take 7 (IStream.data stream_sg) = [3; 2; 0; 0; 0; 0; 0]
    /\ length (IStream.data stream_sg) = 39%nat.
Proof.
  destruct (@Save_scenario_versus_game rct2_constants sample_collaborators
              (@S6Exporter_new rct2_constants) (IStream.mk [] 0))
    as (e_sc & stream_sc & events_sc & e_sg & stream_sg & events_sg
        & Hsc & Hsg & _ & _ & Hs6 & Hev_sc & Hev_sg & Hin & Hout & _ & _ & Hfiles).
  - vm_compute. discriminate.
  - exists e_sc, stream_sc, events_sc, e_sg, stream_sg, events_sg.
    split; [exact Hsc|]. split; [exact Hsg|]. split; [exact Hin|]. split; [exact Hout|].
    destruct (Hfiles (fmap Z.of_nat)) as [Hfile_sc Hfile_sg].
    + intros stream objects. reflexivity.
    + reflexivity.
    + injection Hsc as <- _ _. injection Hsg as <- _ _.
      rewrite Hfile_sc, Hfile_sg, Hev_sc, Hev_sg. vm_compute. repeat split.
Defined.


Lemma nine_measured_rides_owners (i : nat) (m : RideMeasurement) :
  Ride.measurement (get_ride nine_measured_rides i) = Some m ->
  RideMeasurement.ride m = i.
Proof.
  unfold nine_measured_rides, park_with_sprites, get_ride.
  destruct (i <? 9)%nat; simpl; [|discriminate].
  intros [= <-]. reflexivity.
Qed.

Lemma ExportRideMeasurements_keeps_most_recent_witness :
  length (@kept_measurements rct2_constants sample_collaborators nine_measured_rides)
  = 8%nat
  /\ rct_s6_data.ride_measurements nine_measured_rides_exported
     = @exported_measurement rct2_constants
       <$> @kept_measurements rct2_constants sample_collaborators nine_measured_rides.
Proof.
  destruct (@ExportRideMeasurements_keeps_most_recent rct2_constants
              sample_collaborators nine_measured_rides
              (@ExportRides rct2_constants sample_collaborators nine_measured_rides
                 (@rct_s6_data_zero rct2_constants)))
    as (_ & Hlen & _ & _ & Htable & _).
  - vm_compute. lia.
  - vm_compute. lia.
  - apply (bool_decide_unpack _). vm_compute. reflexivity.
  - intros i m _. apply nine_measured_rides_owners.
  - vm_compute. lia.
  - vm_compute. reflexivity.
  - split; [exact Hlen|exact Htable].
Defined.

(** C1, as stated, fails on the park: the table lists the samples of
    rides 8, 7, ..., 1, most recent first, so slot 0 holds the sample that
    is ninth in the collection and slot 1 the one that is eighth; and the
    owner of the evicted sample, ride 0, is left with
    [measurement_index] 0, the slot of the sample of ride 8, whatever value
    outside the slots stands for "none". *)
Lemma lru_original_order_counterexample :
  ~ @exported_in_original_order rct2_constants sample_collaborators
      nine_measured_rides nine_measured_rides_exported
  /\ (forall none : Z, ~ 0 <= none < 8 ->
        ~ @evicted_owners_marked rct2_constants sample_collaborators none
            nine_measured_rides nine_measured_rides_exported)
  /\ RCT12RideMeasurement.ride_index
       <$> rct_s6_data.ride_measurements nine_measured_rides_exported
     = [8; 7; 6; 5; 4; 3; 2; 1]
  /\ rct2_ride.measurement_index
       <$> rct_s6_data.rides nine_measured_rides_exported !! 0%nat
     = Some 0.
Proof.
  split; [|split; [|split]].
  - intros Horder.
    specialize (Horder 0%nat 1%nat 8%nat 7%nat (measurement_of 8 9) (measurement_of 7 8)).
    assert (8 < 7)%nat; [|lia].
    apply Horder; [lia|vm_compute; reflexivity..].
  - intros none Hnone Hmarked.
    specialize (Hmarked (measurement_of 0 1)).
    assert (Hzero : Some 0 = Some none); [|injection Hzero as <-; lia].
    rewrite <- Hmarked; [vm_compute; reflexivity|].
    replace (@evicted_measurements rct2_constants sample_collaborators
               nine_measured_rides) with [measurement_of 0 1]
      by (vm_compute; reflexivity).
    apply list_elem_of_here.
  - vm_compute. reflexivity.
  - vm_compute. reflexivity.
Qed.

(** * Further properties *)

(** ** More on the ride measurements *)

Section MoreMeasurements.
Context `{!LegacyConstants} `{!Collaborators}.

(** The owners of the collected measurements come in the order of the
    ride list. *)
Lemma collected_owners_increasing live :
  (forall i m, (i < RCT12_MAX_RIDES_IN_PARK)%nat ->
     Ride.measurement (get_ride live i) = Some m -> RideMeasurement.ride m = i) ->
  StronglySorted lt (RideMeasurement.ride <$> collect_ride_measurements live).
Proof.
  rewrite collect_ride_measurements_omap.
  induction RCT12_MAX_RIDES_IN_PARK as [|k IH]; intros Hown; [constructor|].
  assert (Hown' : forall i m, (i < k)%nat ->
            Ride.measurement (get_ride live i) = Some m -> RideMeasurement.ride m = i)
    by (intros; apply Hown; [lia|done]).
  specialize (IH Hown').
  rewrite seq_S, omap_app, fmap_app. cbn [omap list_omap Nat.add].
  destruct (Ride.measurement (get_ride live k)) as [m|] eqn:Hm;
    cbn [fmap list_fmap]; [|by rewrite app_nil_r].
  apply StronglySorted_app. split; [|split; [done|repeat constructor]].
  intros r1 r2 Hr1. rewrite list_elem_of_singleton. intros ->.
  rewrite (Hown k m ltac:(lia) Hm).
  apply list_elem_of_fmap in Hr1 as (m1 & -> & Hm1).
  apply list_elem_of_omap in Hm1 as (i & Hi & Hmi).
  apply list_elem_of_lookup in Hi as [j Hj]. apply lookup_seq in Hj as [-> Hj].
  rewrite (Hown' _ _ Hj Hmi). lia.
Qed.

(** What is exported is part of what was collected, and fits the table. *)
Lemma exported_measurements_part live :
  exists dropped,
    exported_measurements live ++ dropped ≡ₚ collect_ride_measurements live.
Proof.
  unfold exported_measurements, trim_ride_measurements.
  destruct (_ <? _)%nat.
  - eexists. rewrite take_drop. apply sort_by_last_use_perm.
  - exists []. by rewrite app_nil_r.
Qed.

Lemma exported_measurements_length live :
  (length (exported_measurements live) <= RCT12_RIDE_MEASUREMENT_MAX_ITEMS)%nat.
Proof.
  unfold exported_measurements, trim_ride_measurements.
  destruct (Nat.ltb_spec RCT12_RIDE_MEASUREMENT_MAX_ITEMS
              (length (collect_ride_measurements live))).
  - rewrite length_take. lia.
  - done.
Qed.

(** X1: when the park has no more measurements than the table has slots,
    none is dropped and none is moved: slot [k] receives the [k]-th
    measurement of the ride list, so the owners in the table increase
    with the slot; the owner of slot [k] gets [k] as its
    [measurement_index]; the slots past the last measurement and the
    rides without a measurement are left as they were. *)
Theorem ExportRideMeasurements_all_fit (live : LiveState) (s6 : rct_s6_data) :
  let ms := collect_ride_measurements live in
  (length ms <= RCT12_RIDE_MEASUREMENT_MAX_ITEMS)%nat ->
  (RCT12_RIDE_MEASUREMENT_MAX_ITEMS <= 256)%nat ->
  (forall i m, (i < RCT12_MAX_RIDES_IN_PARK)%nat ->
     Ride.measurement (get_ride live i) = Some m -> RideMeasurement.ride m = i) ->
  (RCT12_RIDE_MEASUREMENT_MAX_ITEMS <= length (rct_s6_data.ride_measurements s6))%nat ->
  let s6' := ExportRideMeasurements live s6 in
  rct_s6_data.ride_measurements s6'
  = (exported_measurement <$> ms) ++ drop (length ms) (rct_s6_data.ride_measurements s6)
  /\ StronglySorted lt (RideMeasurement.ride <$> ms)
  /\ (forall (slot : nat) (m : RideMeasurement), ms !! slot = Some m ->
        rct_s6_data.rides s6' !! RideMeasurement.ride m
        = rct2_ride.set_measurement_index (Z.of_nat slot)
          <$> rct_s6_data.rides s6 !! RideMeasurement.ride m)
  /\ (forall index : nat,
        (index < RCT12_MAX_RIDES_IN_PARK)%nat ->
        Ride.measurement (get_ride live index) = None ->
        rct_s6_data.rides s6' !! index = rct_s6_data.rides s6 !! index).
Proof.
  intros ms Hfit H256 Hown Htable s6'.
  destruct (collected_owners live Hown) as [Hnd Hlt]. fold ms in Hnd, Hlt.
  assert (Hs6' : s6' = write_ride_measurements ms 0 s6).
  { subst s6'. unfold ExportRideMeasurements, trim_ride_measurements. fold ms.
    by rewrite (proj2 (Nat.ltb_ge _ _) Hfit). }
  destruct (write_ride_measurements_spec ms 0 s6)
    as (Hlen & Hslots & Hrest & Hothers); [lia|lia|simpl; lia|done|].
  rewrite <- Hs6' in Hlen, Hslots, Hrest, Hothers.
  split; [|split; [|split]].
  - apply list_eq. intros j.
    destruct (decide (j < length ms)%nat) as [Hj|Hj].
    + rewrite lookup_app_l by (by rewrite length_fmap).
      rewrite list_lookup_fmap.
      destruct (lookup_lt_is_Some_2 ms j Hj) as [m Hm]. rewrite Hm.
      destruct (Hslots j m Hm) as [Hsl _]. exact Hsl.
    + rewrite lookup_app_r by (rewrite length_fmap; lia).
      rewrite length_fmap, lookup_drop, Hrest by (simpl; lia).
      f_equal. lia.
  - by apply collected_owners_increasing.
  - intros slot m Hm. destruct (Hslots slot m Hm) as [_ Hback].
    by rewrite Hback, Z.add_0_l.
  - intros index Hindex Hnone. apply Hothers.
    intros Hin. apply list_elem_of_fmap in Hin as (m & -> & Hm).
    subst ms. rewrite collect_ride_measurements_omap in Hm.
    apply list_elem_of_omap in Hm as (i & Hi & Hmi).
    apply list_elem_of_lookup in Hi as [j Hj]. apply lookup_seq in Hj as [-> Hj].
    simpl in Hmi. rewrite (Hown _ _ Hj Hmi) in Hnone. congruence.
Qed.

(** X2: after the ride table and then the measurements are exported, the
    [measurement_index] of a ride is the slot of its sample when one of
    its samples reached the table, and 0 otherwise: 0 for a ride without
    a measurement, 0 for a ride whose measurement was dropped, and 0 as
    well for the owner of slot 0.  Which samples reach the table, and in
    which slots, is fixed by the program when all the measurements fit
    or their ticks are distinct; with equal ticks among too many
    measurements [std::sort] leaves it open, and nothing is stated. *)
Theorem measurement_index_after_export (live : LiveState) (s6 : rct_s6_data) :
  let ms := collect_ride_measurements live in
  (length ms <= RCT12_RIDE_MEASUREMENT_MAX_ITEMS)%nat
  \/ NoDup (RideMeasurement.last_use_tick <$> ms) ->
  (RCT12_RIDE_MEASUREMENT_MAX_ITEMS <= 256)%nat ->
  (forall i m, (i < RCT12_MAX_RIDES_IN_PARK)%nat ->
     Ride.measurement (get_ride live i) = Some m -> RideMeasurement.ride m = i) ->
  (RCT12_MAX_RIDES_IN_PARK <= length (rct_s6_data.rides s6))%nat ->
  (RCT12_RIDE_MEASUREMENT_MAX_ITEMS <= length (rct_s6_data.ride_measurements s6))%nat ->
  let s6' := ExportRideMeasurements live (ExportRides live s6) in
  (forall (slot : nat) (m : RideMeasurement),
     exported_measurements live !! slot = Some m ->
     rct2_ride.measurement_index
       <$> rct_s6_data.rides s6' !! RideMeasurement.ride m
     = Some (Z.of_nat slot))
  /\ (forall index : nat,
        (index < RCT12_MAX_RIDES_IN_PARK)%nat ->
        index ∉ RideMeasurement.ride <$> exported_measurements live ->
        rct2_ride.measurement_index <$> rct_s6_data.rides s6' !! index = Some 0).
Proof.
  intros ms _ H256 Hown Hrides Htable s6'. clear ms.
  destruct (collected_owners live Hown) as [Hnd Hlt].
  destruct (exported_measurements_part live) as [dropped Hperm].
  pose proof (exported_measurements_length live) as Hfit.
  assert (Hnd' : NoDup (RideMeasurement.ride <$> exported_measurements live)).
  { rewrite <- Hperm, fmap_app in Hnd. by apply NoDup_app in Hnd as (? & _ & _). }
  destruct (write_ride_measurements_spec (exported_measurements live) 0
              (ExportRides live s6))
    as (_ & Hslots & _ & Hothers); [lia|lia| |done|].
  { rewrite ExportRides_ride_measurements by done. simpl. lia. }
  change (write_ride_measurements (exported_measurements live) 0 (ExportRides live s6))
    with s6' in Hslots, Hothers.
  split.
  - intros slot m Hm. destruct (Hslots slot m Hm) as [_ Hback].
    assert (Hin : m ∈ collect_ride_measurements live).
    { rewrite <- Hperm. apply elem_of_app. left. apply list_elem_of_lookup. eauto. }
    specialize (Hlt m Hin).
    rewrite Hback, ExportRides_lookup, Z.add_0_l by done. done.
  - intros index Hindex Hnotin.
    rewrite Hothers, ExportRides_lookup by done. simpl.
    by rewrite exported_ride_measurement_index.
Qed.

End MoreMeasurements.

(** ** More on the tables *)

Section MoreTables.
Context `{!LegacyConstants} `{!Collaborators}.

(** X3: [ExportRides] rewrites the whole ride table and nothing else:
    when the table has its declared size, slot [index] holds the record
    exported for live ride [index], no record of an earlier export
    survives, and every other member of the S6 record is unchanged. *)
Theorem ExportRides_overwrites (live live0 : LiveState) (s6 : rct_s6_data) :
  length (rct_s6_data.rides s6) = RCT12_MAX_RIDES_IN_PARK ->
  rct_s6_data.rides (ExportRides live s6)
  = exported_ride live <$> seq 0 RCT12_MAX_RIDES_IN_PARK
  /\ ExportRides live s6
     = rct_s6_data.set_rides (rct_s6_data.rides (ExportRides live s6)) s6
  /\ ExportRides live (ExportRides live0 s6) = ExportRides live s6.
Proof.
  intros Hlen.
  assert (Hform : forall l s, length (rct_s6_data.rides s) = RCT12_MAX_RIDES_IN_PARK ->
            ExportRides l s
            = rct_s6_data.set_rides (exported_ride l <$> seq 0 RCT12_MAX_RIDES_IN_PARK) s).
  { intros l s Hs. rewrite ExportRides_closed_form by lia.
    rewrite drop_ge by lia. by rewrite app_nil_r. }
  split; [by rewrite Hform|]. split; [by rewrite Hform|].
  rewrite (Hform live0 s6 Hlen), !Hform; [done|done|].
  simpl. by rewrite length_fmap, length_seq.
Qed.

(** X4: [ExportPeepSpawns] reads the first [RCT12_MAX_PEEP_SPAWNS] live
    spawns only: two parks that agree on them export the same record.
    It writes the first [RCT12_MAX_PEEP_SPAWNS] slots of the table and
    nothing else. *)
Theorem ExportPeepSpawns_first_slots (live1 live2 : LiveState) (s6 : rct_s6_data) :
  (RCT12_MAX_PEEP_SPAWNS <= length (rct_s6_data.peep_spawns s6))%nat ->
  take RCT12_MAX_PEEP_SPAWNS (gPeepSpawns live1)
  = take RCT12_MAX_PEEP_SPAWNS (gPeepSpawns live2) ->
  ExportPeepSpawns live1 s6 = ExportPeepSpawns live2 s6
  /\ ExportPeepSpawns live1 s6
     = rct_s6_data.set_peep_spawns
         (rct_s6_data.peep_spawns (ExportPeepSpawns live1 s6)) s6
  /\ length (rct_s6_data.peep_spawns (ExportPeepSpawns live1 s6))
     = length (rct_s6_data.peep_spawns s6)
  /\ (forall i : nat, (RCT12_MAX_PEEP_SPAWNS <= i)%nat ->
        rct_s6_data.peep_spawns (ExportPeepSpawns live1 s6) !! i
        = rct_s6_data.peep_spawns s6 !! i).
Proof.
  intros Hlen Hsame. rewrite !ExportPeepSpawns_closed_form by done.
  cbn [rct_s6_data.peep_spawns rct_s6_data.set_peep_spawns].
  split; [|split; [done|split]].
  - do 2 f_equal. apply list_eq. intros i. rewrite !list_lookup_fmap.
    destruct (seq 0 RCT12_MAX_PEEP_SPAWNS !! i) as [j|] eqn:Hj; [|done].
    apply lookup_seq in Hj as [-> Hj]. simpl. f_equal.
    unfold exported_peep_spawn.
    assert (Hi : gPeepSpawns live1 !! i = gPeepSpawns live2 !! i).
    { rewrite <- (lookup_take_lt (gPeepSpawns live1) RCT12_MAX_PEEP_SPAWNS i) by done.
      rewrite <- (lookup_take_lt (gPeepSpawns live2) RCT12_MAX_PEEP_SPAWNS i) by done.
      by rewrite Hsame. }
    unfold PeepSpawn in *. by rewrite Hi.
  - by apply length_filled.
  - intros i Hi. by apply lookup_filled_ge.
Qed.

(** X5: a live peep spawn inside the table whose coordinates fit 16 bits
    and whose height is between 0 and 4095 is exported without loss of
    its coordinates and direction; its height is stored in units of 16,
    rounded down. *)
Theorem ExportPeepSpawns_in_range (live : LiveState) (s6 : rct_s6_data)
    (i : nat) (src : PeepSpawn) :
  (RCT12_MAX_PEEP_SPAWNS <= length (rct_s6_data.peep_spawns s6))%nat ->
  (i < RCT12_MAX_PEEP_SPAWNS)%nat ->
  gPeepSpawns live !! i = Some src ->
  0 <= CoordsXYZD.x src < 2 ^ 16 ->
  0 <= CoordsXYZD.y src < 2 ^ 16 ->
  0 <= CoordsXYZD.z src < 4096 ->
  exists spawn,
    rct_s6_data.peep_spawns (ExportPeepSpawns live s6) !! i = Some spawn
    /\ rct12_peep_spawn.x spawn = CoordsXYZD.x src
    /\ rct12_peep_spawn.y spawn = CoordsXYZD.y src
    /\ 16 * rct12_peep_spawn.z spawn <= CoordsXYZD.z src
       < 16 * rct12_peep_spawn.z spawn + 16
    /\ rct12_peep_spawn.direction spawn = CoordsXYZD.direction src.
Proof.
  intros Hlen Hi Hsrc Hx Hy Hz.
  exists (exported_peep_spawn live i). split; [by apply ExportPeepSpawns_lookup|].
  unfold exported_peep_spawn, PeepSpawn in *. rewrite Hsrc. simpl.
  unfold uint16, uint8. rewrite !Z.mod_small by lia.
  rewrite Z.quot_div_nonneg by lia.
  assert (0 <= CoordsXYZD.z src / 16 < 256) by (split; [apply Z.div_pos|apply Z.div_lt_upper_bound]; lia).
  rewrite Z.mod_small by lia.
  pose proof (Z.div_mod (CoordsXYZD.z src) 16 ltac:(lia)).
  pose proof (Z.mod_pos_bound (CoordsXYZD.z src) 16 ltac:(lia)).
  repeat split; lia.
Qed.

(** X6: a live park entrance inside the table whose coordinates fit
    signed 16 bits is exported unchanged; a slot past the live entrances
    has height 0 and direction 0 beside its two null coordinates. *)
Theorem ExportParkEntrances_slots (live : LiveState) (s6 : rct_s6_data) (i : nat) :
  (RCT12_MAX_PARK_ENTRANCES <= length (rct_s6_data.park_entrance_x s6))%nat ->
  (RCT12_MAX_PARK_ENTRANCES <= length (rct_s6_data.park_entrance_y s6))%nat ->
  (RCT12_MAX_PARK_ENTRANCES <= length (rct_s6_data.park_entrance_z s6))%nat ->
  (RCT12_MAX_PARK_ENTRANCES <= length (rct_s6_data.park_entrance_direction s6))%nat ->
  (i < RCT12_MAX_PARK_ENTRANCES)%nat ->
  let s6' := ExportParkEntrances live s6 in
  (forall src : CoordsXYZD,
     gParkEntrances live !! i = Some src ->
     - 2 ^ 15 <= CoordsXYZD.x src < 2 ^ 15 ->
     - 2 ^ 15 <= CoordsXYZD.y src < 2 ^ 15 ->
     - 2 ^ 15 <= CoordsXYZD.z src < 2 ^ 15 ->
     rct_s6_data.park_entrance_x s6' !! i = Some (CoordsXYZD.x src)
     /\ rct_s6_data.park_entrance_y s6' !! i = Some (CoordsXYZD.y src)
     /\ rct_s6_data.park_entrance_z s6' !! i = Some (CoordsXYZD.z src)
     /\ rct_s6_data.park_entrance_direction s6' !! i
        = Some (CoordsXYZD.direction src))
  /\ (gParkEntrances live !! i = None ->
      rct_s6_data.park_entrance_z s6' !! i = Some 0
      /\ rct_s6_data.park_entrance_direction s6' !! i = Some 0).
Proof.
  intros Hx Hy Hz Hd Hi s6'. subst s6'.
  rewrite ExportParkEntrances_closed_form by done.
  cbn [rct_s6_data.park_entrance_x rct_s6_data.park_entrance_y
       rct_s6_data.park_entrance_z rct_s6_data.park_entrance_direction].
  rewrite !lookup_filled by done. unfold exported_park_entrance, CoordsXYZD in *.
  split.
  - intros src Hsrc Hxs Hys Hzs. rewrite Hsrc. by rewrite !int16_id.
  - by intros ->.
Qed.

Lemma LocationXY8_of_bytes (x y : Z) :
  0 <= x < 256 -> 0 <= y < 256 ->
  LocationXY8_of x y = x + 256 * y.
Proof.
  intros Hx Hy. unfold LocationXY8_of.
  rewrite <- Z.add_nocarry_lor; [rewrite Z.shiftl_mul_pow2 by lia; lia|].
  apply Z.bits_inj'. intros i Hi. rewrite Z.land_spec, Z.bits_0.
  destruct (Z.lt_ge_cases i 8).
  - rewrite Z.shiftl_spec_low by lia. apply andb_false_r.
  - replace (Z.testbit x i) with false; [done|].
    symmetry. apply Z.bits_above_log2; [lia|].
    destruct (Z.eq_dec x 0) as [-> |]; [simpl; lia|].
    assert (Z.log2 x < 8) by (apply Z.log2_lt_pow2; lia). lia.
Qed.

(** X7: the tile of a station entrance or exit that is set is stored as
    a 16-bit value whose low byte is the x and whose high byte is the y
    of the tile (each modulo 256); that value is [0xFFFF] exactly when
    both bytes are 255. *)
Theorem ExportRide_station_tile (src : Ride) (station : nat) :
  (station < RCT12_MAX_STATIONS_PER_RIDE)%nat ->
  let packed (tile : TileCoordsXYZD) (xy : Z) :=
    0 <= xy < 2 ^ 16
    /\ Z.land xy 255 = CoordsXYZD.x tile mod 256
    /\ Z.shiftr xy 8 = CoordsXYZD.y tile mod 256
    /\ (xy = 0xFFFF <->
        CoordsXYZD.x tile mod 256 = 255 /\ CoordsXYZD.y tile mod 256 = 255) in
  (isNull (ride_get_entrance_location src station) = false ->
   exists xy, rct2_ride.entrances (ExportRide src) !! station = Some xy
              /\ packed (ride_get_entrance_location src station) xy)
  /\ (isNull (ride_get_exit_location src station) = false ->
      exists xy, rct2_ride.exits (ExportRide src) !! station = Some xy
                 /\ packed (ride_get_exit_location src station) xy).
Proof.
  intros Hstation packed.
  assert (Hpacked : forall tile,
            packed tile (LocationXY8_of (uint8 (CoordsXYZD.x tile))
                                        (uint8 (CoordsXYZD.y tile)))).
  { intros tile. unfold packed, uint8. change (2 ^ 8) with 256.
    pose proof (Z.mod_pos_bound (CoordsXYZD.x tile) 256 ltac:(lia)) as Hx.
    pose proof (Z.mod_pos_bound (CoordsXYZD.y tile) 256 ltac:(lia)) as Hy.
    rewrite LocationXY8_of_bytes by done.
    change 255 with (Z.ones 8) at 1. rewrite Z.land_ones, Z.shiftr_div_pow2 by lia.
    change (2 ^ 8) with 256. change (2 ^ 16) with 65536.
    repeat split; try (Z.div_mod_to_equations; lia). }
  split; intros Hset.
  - rewrite ExportRide_entrance by done. cbv zeta. rewrite Hset. eauto.
  - rewrite ExportRide_exit by done. cbv zeta. rewrite Hset. eauto.
Qed.

End MoreTables.

(** ** More on Save and Export *)

Section MoreSave.
Context `{!LegacyConstants} `{!Collaborators}.

(** X8: the packed objects on the stream.  On a stream that is appended
    to and accepts every write, [Save] hands the packed objects to the
    object repository exactly when the 16-bit count in the header is not
    zero, that is, when the number of objects to export is not a multiple
    of 65536: the file is what the stream held, the bytes of the events
    in their order, and the checksum, and with an empty list or a list of
    65536 objects these bytes are those of the chunks alone. *)
Theorem Save_packed_objects (e : S6Exporter) (stream : IStream) (isScenario : bool)
    (packed_bytes : list nat -> list Z) :
  packed_objects_appended packed_bytes ->
  IStream.position stream = length (IStream.data stream) ->
  let objects := S6Exporter.ExportObjectsList e in
  exists e' stream' events,
    Save e stream isScenario = Some (e', stream', events)
    /\ (WrotePackedObjects ∈ events <-> Z.of_nat (length objects) mod 2 ^ 16 <> 0)
    /\ (let written :=
          IStream.data stream
          ++ mjoin (event_output (packed_bytes objects) (S6Exporter._s6 e') <$> events) in
        IStream.data stream'
        = written ++ IStream.uint32_bytes (sawyercoding_calculate_checksum written))
    /\ (Z.of_nat (length objects) mod 2 ^ 16 = 0 ->
        let chunks :=
          IStream.data stream ++ mjoin (event_bytes (S6Exporter._s6 e') <$> events) in
        IStream.data stream'
        = chunks ++ IStream.uint32_bytes (sawyercoding_calculate_checksum chunks)).
Proof.
  intros Hpacked Hend objects.
  destruct (Save_file_appended e stream isScenario packed_bytes Hpacked Hend)
    as (stream' & HSave & Hdata).
  cbv zeta in HSave, Hdata.
  do 3 eexists. split; [exact HSave|]. cbn [S6Exporter._s6]. fold objects in Hdata.
  assert (Hin : WrotePackedObjects ∈ (Save_chunks e (Save_header e isScenario) stream).2
                <-> Z.of_nat (length objects) mod 2 ^ 16 <> 0).
  { rewrite Save_chunks_events, Save_header_num_packed_objects. unfold uint16.
    fold objects.
    pose proof (Z.mod_pos_bound (Z.of_nat (length objects)) (2 ^ 16) ltac:(lia))
      as Hrange.
    destruct (Z.ltb_spec 0 (Z.of_nat (length objects) mod 2 ^ 16)) as [Hpos|Hzero].
    - split; [lia|]. intros _. unfold head_events.
      rewrite !elem_of_app, !elem_of_cons. auto 10.
    - split; [|lia]. intros Hhas. exfalso. revert Hhas.
      destruct (_ =? S6_TYPE_SCENARIO);
        apply (bool_decide_unpack _); vm_compute; reflexivity. }
  split; [exact Hin|]. split; [exact Hdata|].
  intros Hzero. cbv zeta.
  assert (Hsame : event_bytes (Save_header e isScenario)
                    <$> (Save_chunks e (Save_header e isScenario) stream).2
                  = event_output (packed_bytes objects) (Save_header e isScenario)
                      <$> (Save_chunks e (Save_header e isScenario) stream).2).
  { apply list_fmap_ext. intros i ev Hev.
    destruct ev as [c|]; [reflexivity|]. exfalso.
    assert (Hhas : WrotePackedObjects
                   ∈ (Save_chunks e (Save_header e isScenario) stream).2)
      by (apply list_elem_of_lookup; eauto).
    apply Hin in Hhas. lia. }
  rewrite Hsame. exact Hdata.
Qed.

(** *** The gather of Export *)





End MoreSave.

Section MoreExport.
Context `{!LegacyConstants} `{!Collaborators}.


Ltac members :=
  cbn [rct_s6_data.header rct_s6_data.game_version_number
    rct_s6_data.initial_cash rct_s6_data.current_loan rct_s6_data.maximum_loan
    rct_s6_data.loan_hash rct_s6_data.peep_spawns rct_s6_data.researched_ride_types
    rct_s6_data.researched_ride_entries rct_s6_data.researched_scenery_items
    rct_s6_data.park_entrance_x rct_s6_data.park_entrance_y
    rct_s6_data.park_entrance_z rct_s6_data.park_entrance_direction
    rct_s6_data.rides rct_s6_data.ride_measurements
    rct_s6_data.set_initial_cash rct_s6_data.set_current_loan
    rct_s6_data.set_maximum_loan rct_s6_data.set_loan_hash
    rct_s6_data.set_peep_spawns rct_s6_data.set_researched_ride_types
    rct_s6_data.set_researched_ride_entries
    rct_s6_data.set_researched_scenery_items rct_s6_data.set_park_entrance
    rct_s6_data.set_rides rct_s6_data.set_ride_measurements].






Lemma Export_completed (e : S6Exporter) (live : LiveState) :
  check_for_spatial_index_cycles (gSprites live) = -1 ->
  check_for_sprite_list_cycles (gSprites live) = -1 ->
  Export e live
  = Completed (S6Exporter.mk (S6Exporter.RemoveTracklessRides e)
                 (S6Exporter.ExportObjectsList e)
                 (Export_fixups e (Export_gather (repaired live) (S6Exporter._s6 e))),
               repaired live,
               if 0 <? (fix_disjoint_sprites (gSprites live)).1
               then [DisjointNullSprites (fix_disjoint_sprites (gSprites live)).1]
               else []).
Proof.
  intros Hspatial Hregular. unfold Export. rewrite Hspatial, Hregular.
  unfold repaired.
  destruct (fix_disjoint_sprites (gSprites live)) as [count sprites].
  reflexivity.
Qed.


End MoreExport.

(** ** Marketing campaigns *)

Section MoreMarketing.
Context `{!MarketingConstants}.

Lemma last_campaign_snoc type campaigns c :
  last_campaign type (campaigns ++ [c])
  = if decide (MarketingCampaign.Type_ c = type) then Some c
    else last_campaign type campaigns.
Proof.
  unfold last_campaign. rewrite filter_app, filter_cons, filter_nil.
  destruct (decide _); [by rewrite last_snoc|by rewrite app_nil_r].
Qed.

Lemma ExportMarketingCampaigns_snoc campaigns c s6 :
  ExportMarketingCampaigns (campaigns ++ [c]) s6
  = let s6 := ExportMarketingCampaigns campaigns s6 in
    let type := Z.to_nat (MarketingCampaign.Type_ c) in
    let s6 :=
      rct_s6_campaigns.set_campaign_weeks_left
        (<[type := uint8 (Z.lor (MarketingCampaign.WeeksLeft c) CAMPAIGN_ACTIVE_FLAG)]>
           (rct_s6_campaigns.campaign_weeks_left s6)) s6 in
    if (MarketingCampaign.Type_ c =? ADVERTISING_CAMPAIGN_RIDE_FREE)
       || (MarketingCampaign.Type_ c =? ADVERTISING_CAMPAIGN_RIDE)
    then
      rct_s6_campaigns.set_campaign_ride_index
        (<[type := uint8 (MarketingCampaign.RideId c)]>
           (rct_s6_campaigns.campaign_ride_index s6)) s6
    else if MarketingCampaign.Type_ c =? ADVERTISING_CAMPAIGN_FOOD_OR_DRINK_FREE
    then
      rct_s6_campaigns.set_campaign_ride_index
        (<[type := uint8 (MarketingCampaign.ShopItemType c)]>
           (rct_s6_campaigns.campaign_ride_index s6)) s6
    else s6.
Proof. unfold ExportMarketingCampaigns. by rewrite foldl_app. Qed.

Lemma ExportMarketingCampaigns_length campaigns s6 :
  length (rct_s6_campaigns.campaign_weeks_left (ExportMarketingCampaigns campaigns s6))
  = length (rct_s6_campaigns.campaign_weeks_left s6)
  /\ length (rct_s6_campaigns.campaign_ride_index (ExportMarketingCampaigns campaigns s6))
     = length (rct_s6_campaigns.campaign_ride_index s6).
Proof.
  induction campaigns as [|c campaigns IH] using rev_ind.
  - unfold ExportMarketingCampaigns. simpl. by rewrite !length_fmap.
  - rewrite ExportMarketingCampaigns_snoc. cbv zeta. destruct IH as [IHw IHr].
    destruct ((MarketingCampaign.Type_ c =? ADVERTISING_CAMPAIGN_RIDE_FREE) || _);
        [|destruct (MarketingCampaign.Type_ c =? ADVERTISING_CAMPAIGN_FOOD_OR_DRINK_FREE)];
      cbn [rct_s6_campaigns.campaign_weeks_left rct_s6_campaigns.campaign_ride_index
           rct_s6_campaigns.set_campaign_weeks_left
           rct_s6_campaigns.set_campaign_ride_index];
      by rewrite ?length_insert.
Qed.

Lemma ExportMarketingCampaigns_slots (campaigns : list MarketingCampaign)
    (s6 : rct_s6_campaigns) (type : Z) :
  Forall (fun c => 0 <= MarketingCampaign.Type_ c) campaigns ->
  0 <= type ->
  let s6' := ExportMarketingCampaigns campaigns s6 in
  ((Z.to_nat type < length (rct_s6_campaigns.campaign_weeks_left s6))%nat ->
   rct_s6_campaigns.campaign_weeks_left s6' !! Z.to_nat type
   = Some (exported_weeks_left type campaigns))
  /\ ((Z.to_nat type < length (rct_s6_campaigns.campaign_ride_index s6))%nat ->
      rct_s6_campaigns.campaign_ride_index s6' !! Z.to_nat type
      = Some (exported_ride_index type campaigns)).
Proof.
  intros Htypes Htype. cbv zeta.
  induction campaigns as [|c campaigns IH] using rev_ind.
  - unfold ExportMarketingCampaigns, exported_weeks_left, exported_ride_index.
    cbn [foldl rct_s6_campaigns.campaign_weeks_left rct_s6_campaigns.campaign_ride_index
         rct_s6_campaigns.set_campaign_weeks_left
         rct_s6_campaigns.set_campaign_ride_index last_campaign filter last
         list_filter].
    split; intros Hlen; rewrite list_lookup_fmap;
      destruct (lookup_lt_is_Some_2 _ _ Hlen) as [x ->]; done.
  - apply Forall_app in Htypes as [Htypes Hc]. apply Forall_cons in Hc as [Hc _]. cbv beta in Hc.
    specialize (IH Htypes). destruct IH as [IHw IHr].
    destruct (ExportMarketingCampaigns_length campaigns s6) as [Hlw Hlr].
    rewrite ExportMarketingCampaigns_snoc. cbv zeta.
    unfold exported_weeks_left, exported_ride_index in *.
    rewrite last_campaign_snoc.
    assert (Hsame : Z.to_nat (MarketingCampaign.Type_ c) = Z.to_nat type
                    <-> MarketingCampaign.Type_ c = type).
    { split; [intros Hn; by apply Z2Nat.inj|by intros ->]. }
    split; intros Hlen.
    + specialize (IHw Hlen).
      assert (Hw : <[Z.to_nat (MarketingCampaign.Type_ c) :=
                      uint8 (Z.lor (MarketingCampaign.WeeksLeft c) CAMPAIGN_ACTIVE_FLAG)]>
                     (rct_s6_campaigns.campaign_weeks_left
                        (ExportMarketingCampaigns campaigns s6)) !! Z.to_nat type
                   = Some (match (if decide (MarketingCampaign.Type_ c = type)
                                  then Some c else last_campaign type campaigns) with
                           | Some c0 => uint8 (Z.lor (MarketingCampaign.WeeksLeft c0)
                                                 CAMPAIGN_ACTIVE_FLAG)
                           | None => 0
                           end)).
      { destruct (decide (MarketingCampaign.Type_ c = type)) as [Heq|Hne].
        - rewrite Heq. apply list_lookup_insert_eq. by rewrite Hlw.
        - rewrite list_lookup_insert_ne by (intros Hn; apply Hne, Hsame, Hn). done. }
      destruct ((MarketingCampaign.Type_ c =? ADVERTISING_CAMPAIGN_RIDE_FREE) || _);
        [|destruct (MarketingCampaign.Type_ c =? ADVERTISING_CAMPAIGN_FOOD_OR_DRINK_FREE)];
        cbn [rct_s6_campaigns.campaign_weeks_left
             rct_s6_campaigns.set_campaign_weeks_left
             rct_s6_campaigns.set_campaign_ride_index]; exact Hw.
    + specialize (IHr Hlen).
      destruct (decide (MarketingCampaign.Type_ c = type)) as [Heq|Hne].
      * subst type.
        destruct ((MarketingCampaign.Type_ c =? ADVERTISING_CAMPAIGN_RIDE_FREE) || _);
        [|destruct (MarketingCampaign.Type_ c =? ADVERTISING_CAMPAIGN_FOOD_OR_DRINK_FREE)];
          cbn [rct_s6_campaigns.campaign_ride_index
               rct_s6_campaigns.set_campaign_weeks_left
               rct_s6_campaigns.set_campaign_ride_index].
        -- apply list_lookup_insert_eq. by rewrite Hlr.
        -- apply list_lookup_insert_eq. by rewrite Hlr.
        -- rewrite IHr. by destruct (last_campaign _ campaigns).
      * destruct ((MarketingCampaign.Type_ c =? ADVERTISING_CAMPAIGN_RIDE_FREE) || _);
        [|destruct (MarketingCampaign.Type_ c =? ADVERTISING_CAMPAIGN_FOOD_OR_DRINK_FREE)];
          cbn [rct_s6_campaigns.campaign_ride_index
               rct_s6_campaigns.set_campaign_weeks_left
               rct_s6_campaigns.set_campaign_ride_index];
          rewrite ?list_lookup_insert_ne by (intros Hn; apply Hne, Hsame, Hn);
          exact IHr.
Qed.

(** X10: [ExportMarketingCampaigns] clears both arrays and then lets
    every campaign write the slots of its type, so a slot inside the
    arrays is decided by the last campaign of that type alone: the weeks
    left with the active flag, and the ride (for the two ride campaigns)
    or the shop item (for the food or drink campaign); with no campaign
    of the type, and in the ride slot of every other type, it is 0.
    Nothing of the previous content of the arrays is left, and their
    sizes do not change. *)
Theorem ExportMarketingCampaigns_last_wins (campaigns : list MarketingCampaign)
    (s6 : rct_s6_campaigns) :
  Forall (fun c => 0 <= MarketingCampaign.Type_ c) campaigns ->
  let s6' := ExportMarketingCampaigns campaigns s6 in
  rct_s6_campaigns.campaign_weeks_left s6'
  = (fun type => exported_weeks_left (Z.of_nat type) campaigns)
      <$> seq 0 (length (rct_s6_campaigns.campaign_weeks_left s6))
  /\ rct_s6_campaigns.campaign_ride_index s6'
     = (fun type => exported_ride_index (Z.of_nat type) campaigns)
         <$> seq 0 (length (rct_s6_campaigns.campaign_ride_index s6)).
Proof.
  intros Htypes. cbv zeta.
  destruct (ExportMarketingCampaigns_length campaigns s6) as [Hlw Hlr].
  split; apply list_eq; intros i; rewrite list_lookup_fmap.
  - destruct (decide (i < length (rct_s6_campaigns.campaign_weeks_left s6))%nat)
      as [Hi|Hi].
    + rewrite lookup_seq_lt by done. simpl.
      destruct (ExportMarketingCampaigns_slots campaigns s6 (Z.of_nat i) Htypes
                  ltac:(lia)) as [Hw _].
      rewrite Nat2Z.id in Hw. by apply Hw.
    + rewrite lookup_seq_ge by lia. apply lookup_ge_None. lia.
  - destruct (decide (i < length (rct_s6_campaigns.campaign_ride_index s6))%nat)
      as [Hi|Hi].
    + rewrite lookup_seq_lt by done. simpl.
      destruct (ExportMarketingCampaigns_slots campaigns s6 (Z.of_nat i) Htypes
                  ltac:(lia)) as [_ Hr].
      rewrite Nat2Z.id in Hr. by apply Hr.
    + rewrite lookup_seq_ge by lia. apply lookup_ge_None. lia.
Qed.

Lemma active_flag_kept (weeks flag : Z) :
  0 <= flag < 2 ^ 8 ->
  Z.land (uint8 (Z.lor weeks flag)) flag = flag.
Proof.
  intros Hflag. unfold uint8. rewrite <- Z.land_ones by lia.
  apply Z.bits_inj'. intros i Hi.
  rewrite !Z.land_spec, Z.lor_spec.
  destruct (Z.testbit flag i) eqn:Hbit; [|apply andb_false_r].
  rewrite orb_true_r, andb_true_r. simpl.
  apply Z.ones_spec_low. split; [done|].
  destruct (Z.lt_ge_cases i 8) as [|Hge]; [done|].
  rewrite Z.bits_above_log2 in Hbit; [done|lia|].
  destruct (Z.eq_dec flag 0) as [-> |]; [simpl; lia|].
  assert (Z.log2 flag < 8) by (apply Z.log2_lt_pow2; lia). lia.
Qed.

(** X11: when the active flag is a non-zero 8-bit value, a slot of the
    exported weeks-left array is 0 exactly when the park runs no campaign
    of that type; otherwise the slot carries the active flag, however
    many weeks are left. *)
Theorem weeks_left_zero_iff_no_campaign (campaigns : list MarketingCampaign)
    (s6 : rct_s6_campaigns) (type : Z) :
  0 < CAMPAIGN_ACTIVE_FLAG < 2 ^ 8 ->
  Forall (fun c => 0 <= MarketingCampaign.Type_ c) campaigns ->
  0 <= type ->
  (Z.to_nat type < length (rct_s6_campaigns.campaign_weeks_left s6))%nat ->
  exists weeks,
    rct_s6_campaigns.campaign_weeks_left (ExportMarketingCampaigns campaigns s6)
      !! Z.to_nat type = Some weeks
    /\ (weeks = 0 <-> forall c, c ∈ campaigns -> MarketingCampaign.Type_ c <> type)
    /\ (weeks <> 0 -> Z.land weeks CAMPAIGN_ACTIVE_FLAG = CAMPAIGN_ACTIVE_FLAG).
Proof.
  intros Hflag Htypes Htype Hlen.
  destruct (ExportMarketingCampaigns_slots campaigns s6 type Htypes Htype)
    as [Hslot _].
  specialize (Hslot Hlen).
  eexists. split; [exact Hslot|].
  unfold exported_weeks_left, last_campaign.
  destruct (last (filter _ campaigns)) as [c|] eqn:Hlast.
  - assert (Hc : c ∈ filter (fun c => MarketingCampaign.Type_ c = type) campaigns).
    { apply last_Some in Hlast as [l' ->]. apply elem_of_app. right.
      apply list_elem_of_singleton. done. }
    apply list_elem_of_filter in Hc as [Hct Hcin].
    assert (Hrange : 0 <= CAMPAIGN_ACTIVE_FLAG < 2 ^ 8) by lia.
    pose proof (active_flag_kept (MarketingCampaign.WeeksLeft c) CAMPAIGN_ACTIVE_FLAG
                  Hrange) as Hkept.
    assert (Hnz : uint8 (Z.lor (MarketingCampaign.WeeksLeft c) CAMPAIGN_ACTIVE_FLAG) <> 0).
    { intros Hz. rewrite Hz, Z.land_0_l in Hkept. lia. }
    split; [|done]. split; [done|]. intros Hnone. by destruct (Hnone c Hcin).
  - apply last_None in Hlast. split; [|done]. split; [|done].
    intros _ c Hc Hct.
    assert (Hin : c ∈ filter (fun c => MarketingCampaign.Type_ c = type) campaigns)
      by (by apply list_elem_of_filter).
    unfold MarketingCampaign in *. rewrite Hlast in Hin. by apply elem_of_nil in Hin.
Qed.

End MoreMarketing.

(** ** The 64-bit registers *)

Lemma halves_of_uint64 (v : Z) :
  0 <= v < 2 ^ 64 ->
  0 <= Z.land v 0xFFFFFFFF < 2 ^ 32
  /\ 0 <= Z.land (Z.shiftr v 32) 0xFFFFFFFF < 2 ^ 32
  /\ Z.land v 0xFFFFFFFF + 2 ^ 32 * Z.land (Z.shiftr v 32) 0xFFFFFFFF = v.
Proof.
  intros Hv. change 0xFFFFFFFF with (Z.ones 32).
  rewrite !Z.land_ones, Z.shiftr_div_pow2 by lia.
  change (2 ^ 64) with (2 ^ 32 * 2 ^ 32) in Hv.
  assert (0 <= v / 2 ^ 32 < 2 ^ 32)
    by (split; [apply Z.div_pos; lia|apply Z.div_lt_upper_bound; lia]).
  rewrite (Z.mod_small (v / 2 ^ 32)) by done.
  pose proof (Z.mod_pos_bound v (2 ^ 32) ltac:(lia)).
  pose proof (Z.div_mod v (2 ^ 32) ltac:(lia)). lia.
Qed.

(** X12: with the two local arrays of 128 words and a table of at most
    128 ride types, the loop over [RideTypePossibleTrackConfigurations]
    splits every 64-bit entry in two 32-bit words that give the entry
    back, the low word in table A and the high word in table B.  Slots
    past the last entry are not written: they keep what the two local
    arrays, which have no initialiser, held before the loop. *)
Theorem researched_track_pieces_halves (configs stackA stackB : list Z) :
  length stackA = 128%nat ->
  length stackB = 128%nat ->
  (length configs <= 128)%nat ->
  Forall (fun config => 0 <= config < 2 ^ 64) configs ->
  let pieces := researched_track_pieces configs stackA stackB in
  length pieces.1 = length stackA
  /\ length pieces.2 = length stackB
  /\ (forall i config,
        configs !! i = Some config ->
        exists low high,
          pieces.1 !! i = Some low /\ pieces.2 !! i = Some high
          /\ 0 <= low < 2 ^ 32 /\ 0 <= high < 2 ^ 32
          /\ low + 2 ^ 32 * high = config)
  /\ (forall i, (length configs <= i)%nat ->
        pieces.1 !! i = stackA !! i /\ pieces.2 !! i = stackB !! i).
Proof.
  intros HA HB Hlen Hconfigs. cbv zeta.
  assert (Hinv : (fun k (pieces : list Z * list Z) =>
              length pieces.1 = length stackA
              /\ length pieces.2 = length stackB
              /\ (forall i config,
                    (i < k)%nat ->
                    configs !! i = Some config ->
                    exists low high,
                      pieces.1 !! i = Some low /\ pieces.2 !! i = Some high
                      /\ 0 <= low < 2 ^ 32 /\ 0 <= high < 2 ^ 32
                      /\ low + 2 ^ 32 * high = config)
              /\ (forall i, (k <= i)%nat ->
                    pieces.1 !! i = stackA !! i /\ pieces.2 !! i = stackB !! i))
           (length configs) (researched_track_pieces configs stackA stackB)).
  { unfold researched_track_pieces. apply for_loop_invariant.
  - repeat split; try done. intros i config Hi. lia.
  - intros k [a b] Hk (Hl1 & Hl2 & Hin & Hout). cbn [fst snd] in *.
    rewrite !length_insert. repeat split; try done.
    + intros i config Hi Hconfig.
      destruct (decide (i = k)) as [-> |Hne].
      * rewrite (list_lookup_total_correct _ _ _ Hconfig).
        rewrite !list_lookup_insert_eq by lia.
        rewrite Forall_lookup in Hconfigs. specialize (Hconfigs _ _ Hconfig).
        destruct (halves_of_uint64 config Hconfigs) as (Hlow & Hhigh & Hsum).
        eauto 10.
      * rewrite !list_lookup_insert_ne by done. apply Hin; [lia|done].
    + rewrite list_lookup_insert_ne by lia. apply Hout. lia.
    + rewrite list_lookup_insert_ne by lia. apply Hout. lia. }
  destruct Hinv as (Hl1 & Hl2 & Hin & Hout).
  - repeat split; try done.
    + intros i config Hconfig. apply Hin; [|done]. by apply lookup_lt_Some in Hconfig.
    + by apply Hout.
    + by apply Hout.
Qed.

(** X13: the two 32-bit halves stored for [gSamePriceThroughoutPark]
    give the 64-bit register back. *)
Theorem same_price_throughout_halves (gSamePriceThroughoutPark : Z) :
  0 <= gSamePriceThroughoutPark < 2 ^ 64 ->
  0 <= same_price_throughout gSamePriceThroughoutPark < 2 ^ 32
  /\ 0 <= same_price_throughout_extended gSamePriceThroughoutPark < 2 ^ 32
  /\ same_price_throughout gSamePriceThroughoutPark
     + 2 ^ 32 * same_price_throughout_extended gSamePriceThroughoutPark
     = gSamePriceThroughoutPark.
Proof.
  intros Hv. unfold same_price_throughout, same_price_throughout_extended.
  destruct (halves_of_uint64 _ Hv) as (Hlow & Hhigh & Hsum).
  assert (Hshift : Z.land (Z.shiftr gSamePriceThroughoutPark 32) 0xFFFFFFFF
                   = Z.shiftr gSamePriceThroughoutPark 32).
  { change 0xFFFFFFFF with (Z.ones 32). rewrite Z.land_ones, Z.shiftr_div_pow2 by lia.
    change (2 ^ 64) with (2 ^ 32 * 2 ^ 32) in Hv.
    apply Z.mod_small.
    split; [apply Z.div_pos; lia|apply Z.div_lt_upper_bound; lia]. }
  rewrite Hshift in Hhigh, Hsum. unfold uint32. rewrite !Z.mod_small by lia. lia.
Qed.

(** ** Sprites *)

Section MoreSprites.
Context `{!SpriteConstants}.

Lemma ExportSpriteMisc_unknown (union : rct_sprite) :
  RCT2Sprite.unknown (ExportSpriteMisc union).1
  = ExportSpriteCommonProperties (rct_sprite.generic union).
Proof.
  unfold ExportSpriteMisc. cbv zeta.
  repeat (match goal with |- context [if ?b then _ else _] => destruct b end);
    reflexivity.
Qed.

(** X14: whatever the kind of a sprite, known or not, [ExportSprite]
    exports its common properties, and exports them unchanged:
    identifier, type, the links of the sprite lists, index, position and
    bounding box. *)
Theorem ExportSprite_common_properties (src : rct_sprite) :
  RCT2Sprite.unknown (ExportSprite src).1
  = ExportSpriteCommonProperties (rct_sprite.generic src)
  /\ RCT12SpriteBase.sprite_identifier (RCT2Sprite.unknown (ExportSprite src).1)
     = rct_sprite_common.sprite_identifier (rct_sprite.generic src)
  /\ RCT12SpriteBase.sprite_index (RCT2Sprite.unknown (ExportSprite src).1)
     = rct_sprite_common.sprite_index (rct_sprite.generic src)
  /\ RCT12SpriteBase.next (RCT2Sprite.unknown (ExportSprite src).1)
     = rct_sprite_common.next (rct_sprite.generic src)
  /\ RCT12SpriteBase.previous (RCT2Sprite.unknown (ExportSprite src).1)
     = rct_sprite_common.previous (rct_sprite.generic src)
  /\ RCT12SpriteBase.next_in_quadrant (RCT2Sprite.unknown (ExportSprite src).1)
     = rct_sprite_common.next_in_quadrant (rct_sprite.generic src).
Proof.
  assert (Hunknown : RCT2Sprite.unknown (ExportSprite src).1
                     = ExportSpriteCommonProperties (rct_sprite.generic src)).
  { unfold ExportSprite. cbv zeta.
    repeat (match goal with |- context [if ?b then _ else _] => destruct b end);
      try reflexivity.
    apply ExportSpriteMisc_unknown. }
  rewrite Hunknown. repeat split.
Qed.

Lemma ExportSpriteMisc_warnings (union : rct_sprite) :
  let type := rct_sprite_common.type (rct_sprite.generic union) in
  (ExportSpriteMisc union).2
  = (if decide (type ∈ exportable_misc_types) then []
     else [MiscSpriteTypeCanNotBeExported type])
  /\ ((ExportSpriteMisc union).2 <> [] ->
      RCT2Sprite.members (ExportSpriteMisc union).1 = no_members).
Proof.
  cbv zeta. unfold ExportSpriteMisc. cbv zeta.
  cbn [ExportSpriteCommonProperties RCT12SpriteBase.type].
  set (type := rct_sprite_common.type (rct_sprite.generic union)).
  unfold exportable_misc_types.
  destruct (decide (type ∈ _)) as [Hin|Hout].
  - repeat (match goal with
            | |- context [if ?b then _ else _] => destruct b eqn:?
            end); try (split; [reflexivity|done]).
    exfalso. rewrite !orb_false_iff in *. destruct_and!.
    repeat match goal with H : (_ =? _) = false |- _ => apply Z.eqb_neq in H end.
    rewrite !elem_of_cons in Hin. rewrite elem_of_nil in Hin.
    intuition congruence.
  - rewrite !not_elem_of_cons in Hout. destruct_and!.
    repeat match goal with
           | H : ?a <> ?b |- context [?a =? ?b] =>
               rewrite (proj2 (Z.eqb_neq a b) H)
           end.
    cbn [orb fst snd RCT2Sprite.members]. done.
Qed.

(** X15: with the five identifiers told apart, [ExportSprite] logs a
    warning exactly for a sprite it has no case for: one whose
    identifier is none of the five, or a miscellaneous sprite whose type
    is none of the ten.  It logs one warning then, names the offending
    identifier or type in it, and exports nothing but the common
    properties. *)
Theorem ExportSprite_warnings (src : rct_sprite) :
  NoDup [SPRITE_IDENTIFIER_NULL; SPRITE_IDENTIFIER_VEHICLE; SPRITE_IDENTIFIER_PEEP;
         SPRITE_IDENTIFIER_MISC; SPRITE_IDENTIFIER_LITTER] ->
  (ExportSprite src).2 = sprite_warnings src
  /\ ((ExportSprite src).2 <> [] ->
      RCT2Sprite.members (ExportSprite src).1 = no_members).
Proof.
  intros Hdistinct.
  apply NoDup_cons in Hdistinct as [Hnull Hdistinct].
  apply NoDup_cons in Hdistinct as [Hvehicle Hdistinct].
  apply NoDup_cons in Hdistinct as [Hpeep Hdistinct].
  apply NoDup_cons in Hdistinct as [Hmisc _].
  rewrite !not_elem_of_cons in Hnull, Hvehicle, Hpeep, Hmisc.
  destruct_and!.
  destruct (ExportSpriteMisc_warnings src) as [Hmw Hmm]. cbv zeta in Hmw.
  unfold ExportSprite, sprite_warnings. cbv zeta.
  set (id := rct_sprite_common.sprite_identifier (rct_sprite.generic src)).
  destruct (Z.eqb_spec id SPRITE_IDENTIFIER_NULL) as [Hid|Hn1].
  { rewrite decide_True by (rewrite Hid; apply list_elem_of_here). done. }
  destruct (Z.eqb_spec id SPRITE_IDENTIFIER_VEHICLE) as [Hid|Hn2].
  { rewrite decide_True by (rewrite Hid, !elem_of_cons; auto). done. }
  destruct (Z.eqb_spec id SPRITE_IDENTIFIER_PEEP) as [Hid|Hn3].
  { rewrite decide_True by (rewrite Hid, !elem_of_cons; auto). done. }
  destruct (Z.eqb_spec id SPRITE_IDENTIFIER_MISC) as [Hid|Hn4].
  { rewrite decide_False
      by (rewrite Hid, !elem_of_cons, elem_of_nil; intuition congruence).
    rewrite decide_True by done. done. }
  destruct (Z.eqb_spec id SPRITE_IDENTIFIER_LITTER) as [Hid|Hn5].
  { rewrite decide_True by (rewrite Hid, !elem_of_cons; auto). done. }
  rewrite decide_False by (rewrite !elem_of_cons, elem_of_nil; intuition congruence).
  rewrite decide_False by done. done.
Qed.

Context `{!SpriteCollaborators}.

Lemma sprites_loop (pool : SpritePool) (s6 : rct_s6_sprites) (k : nat) :
  (k <= length (rct_s6_sprites.sprites s6))%nat ->
  for_loop k
    (fun i '(s6, log) =>
       let '(dst, warnings) := ExportSprite (get_sprite pool i) in
       (rct_s6_sprites.set_sprites (<[i:=dst]> (rct_s6_sprites.sprites s6)) s6,
        log ++ warnings))
    (s6, [])
  = (rct_s6_sprites.set_sprites
       (((fun i => (ExportSprite (get_sprite pool i)).1) <$> seq 0 k)
        ++ drop k (rct_s6_sprites.sprites s6)) s6,
     mjoin ((fun i => (ExportSprite (get_sprite pool i)).2) <$> seq 0 k)).
Proof.
  induction k as [|k IH]; intros Hk.
  - rewrite for_loop_0. simpl seq. rewrite !fmap_nil, app_nil_l, drop_0.
    by destruct s6.
  - rewrite for_loop_S, IH by lia.
    pose proof (insert_filled (fun i => (ExportSprite (get_sprite pool i)).1) k
                  (rct_s6_sprites.sprites s6) ltac:(lia)) as Hfill.
    cbv beta in Hfill.
    destruct (ExportSprite (get_sprite pool k)) as [dst warnings] eqn:Hexport.
    destruct s6 as [sprites heads counts].
    cbn [rct_s6_sprites.sprites rct_s6_sprites.set_sprites
         rct_s6_sprites.sprite_lists_head rct_s6_sprites.sprite_lists_count
         fst snd] in *.
    rewrite Hfill, seq_S, !fmap_app, join_app. simpl. rewrite Hexport. simpl.
    by rewrite app_nil_r.
Qed.

Lemma sprite_lists_loop (pool : SpritePool) (s6 : rct_s6_sprites) (k : nat) :
  (k <= length (rct_s6_sprites.sprite_lists_head s6))%nat ->
  (k <= length (rct_s6_sprites.sprite_lists_count s6))%nat ->
  for_loop k
    (fun i s6 =>
       let s6 :=
         rct_s6_sprites.set_sprite_lists_head
           (<[i:=gSpriteListHead pool i]> (rct_s6_sprites.sprite_lists_head s6)) s6 in
       rct_s6_sprites.set_sprite_lists_count
         (<[i:=gSpriteListCount pool i]> (rct_s6_sprites.sprite_lists_count s6)) s6)
    s6
  = rct_s6_sprites.mk (rct_s6_sprites.sprites s6)
      ((gSpriteListHead pool <$> seq 0 k)
       ++ drop k (rct_s6_sprites.sprite_lists_head s6))
      ((gSpriteListCount pool <$> seq 0 k)
       ++ drop k (rct_s6_sprites.sprite_lists_count s6)).
Proof.
  induction k as [|k IH]; intros Hh Hc.
  - rewrite for_loop_0. simpl seq. rewrite !fmap_nil, !app_nil_l, !drop_0.
    by destruct s6.
  - rewrite for_loop_S, IH by lia. cbv zeta.
    cbn [rct_s6_sprites.sprites rct_s6_sprites.set_sprite_lists_head
         rct_s6_sprites.set_sprite_lists_count
         rct_s6_sprites.sprite_lists_head rct_s6_sprites.sprite_lists_count].
    by rewrite !insert_filled by lia.
Qed.

(** X16: [ExportSprites] first lets the game clear its unused sprites
    and then reads the cleared pool only.  With the three arrays at
    least as large as the loops, slot [i] of the sprite table is the
    export of sprite [i], the heads and counts of the lists are copied,
    the warnings are those of the sprites in the order of their
    indices, and nothing survives of the previous content of the first
    [RCT2_MAX_SPRITES] slots. *)
Theorem ExportSprites_table (pool : SpritePool) (s6 : rct_s6_sprites) :
  (RCT2_MAX_SPRITES <= length (rct_s6_sprites.sprites s6))%nat ->
  (NUM_SPRITE_LISTS <= length (rct_s6_sprites.sprite_lists_head s6))%nat ->
  (NUM_SPRITE_LISTS <= length (rct_s6_sprites.sprite_lists_count s6))%nat ->
  let cleared := sprite_clear_all_unused pool in
  ExportSprites pool s6
  = (cleared,
     rct_s6_sprites.mk
       (((fun i => (ExportSprite (get_sprite cleared i)).1) <$> seq 0 RCT2_MAX_SPRITES)
        ++ drop RCT2_MAX_SPRITES (rct_s6_sprites.sprites s6))
       ((gSpriteListHead cleared <$> seq 0 NUM_SPRITE_LISTS)
        ++ drop NUM_SPRITE_LISTS (rct_s6_sprites.sprite_lists_head s6))
       ((gSpriteListCount cleared <$> seq 0 NUM_SPRITE_LISTS)
        ++ drop NUM_SPRITE_LISTS (rct_s6_sprites.sprite_lists_count s6)),
     mjoin ((fun i => (ExportSprite (get_sprite cleared i)).2)
              <$> seq 0 RCT2_MAX_SPRITES)).
Proof.
  intros Hs Hh Hc. cbv zeta. unfold ExportSprites. cbv zeta.
  rewrite sprites_loop by done.
  rewrite sprite_lists_loop by done. reflexivity.
Qed.

End MoreSprites.

(** ** scenario_save *)

Lemma flag_set_testbit (flags k : Z) :
  0 <= k < 32 ->
  flag_set flags (Z.shiftl 1 k) = Z.testbit flags k.
Proof.
  intros Hk. unfold flag_set, uint32.
  rewrite Z.shiftl_1_l.
  assert (Hland : Z.land (flags mod 2 ^ 32) (2 ^ k)
                  = if Z.testbit flags k then 2 ^ k else 0).
  { apply Z.bits_inj'. intros i Hi. rewrite Z.land_spec, Z.pow2_bits_eqb by lia.
    destruct (Z.eqb_spec k i) as [<- |Hne].
    - rewrite Z.mod_pow2_bits_low by lia. rewrite andb_true_r.
      destruct (Z.testbit flags k); [|by rewrite Z.bits_0].
      rewrite Z.pow2_bits_eqb by lia. by rewrite Z.eqb_refl.
    - rewrite andb_false_r.
      destruct (Z.testbit flags k); [|by rewrite Z.bits_0].
      rewrite Z.pow2_bits_eqb by lia. symmetry. by apply Z.eqb_neq. }
  rewrite Hland. destruct (Z.testbit flags k); [|done].
  assert (0 < 2 ^ k) by (apply Z.pow_pos_nonneg; lia).
  destruct (Z.eqb_spec (2 ^ k) 0); [lia|done].
Qed.

Lemma flag_set_export (flags : Z) :
  flag_set flags S6_SAVE_FLAG_EXPORT = Z.odd flags.
Proof.
  unfold S6_SAVE_FLAG_EXPORT. rewrite flag_set_testbit by lia. apply Z.bit0_odd.
Qed.

Lemma flag_set_scenario (flags : Z) :
  flag_set flags S6_SAVE_FLAG_SCENARIO = Z.testbit flags 1.
Proof. unfold S6_SAVE_FLAG_SCENARIO. by rewrite flag_set_testbit by lia. Qed.

Lemma flag_set_automatic (flags : Z) :
  - 2 ^ 31 <= flags < 2 ^ 31 ->
  flag_set flags S6_SAVE_FLAG_AUTOMATIC = (flags <? 0).
Proof.
  intros Hflags. unfold S6_SAVE_FLAG_AUTOMATIC. rewrite flag_set_testbit by lia.
  destruct (Z.ltb_spec flags 0) as [Hneg|Hpos].
  - apply Z.testbit_true; [lia|].
    replace flags with ((flags + 2 ^ 31) + (-1) * 2 ^ 31) by lia.
    rewrite Z.div_add by lia. rewrite Z.div_small by lia. done.
  - apply Z.testbit_false; [lia|]. rewrite Z.div_small by lia. done.
Qed.

Section MoreScenarioSave.
Context `{!LegacyConstants} `{!Collaborators} `{!SaveCollaborators}.

Lemma scenario_save_unfolded (path : Path) (flags : Z) (game : Game.t) :
  - 2 ^ 31 <= flags < 2 ^ 31 ->
  scenario_save path flags game
  = match Export (save_exporter flags (Game.live game))
            (prepared flags (Game.live game)) with
    | AssertionFailed message => AssertionFailed message
    | Completed (s6exporter, live, log) =>
        let saved :=
          match FileStream_new path with
          | Some fs => Save s6exporter fs (Z.testbit flags 1)
          | None => None
          end in
        let result := match saved with Some _ => true | None => false end in
        Completed
          (Saved.mk result
             (Game.mk live
                (if result && (0 <=? flags) then 0 else Game.gScreenAge game))
             (match saved with Some (_, stream, _) => Some stream | None => None end)
             [if Z.testbit flags 1 then log_verbose_saving_scenario
              else log_verbose_saving_game; gfx_invalidate_screen]
             log)
    end.
Proof.
  intros Hflags. unfold scenario_save, save_exporter, prepared.
  rewrite flag_set_export, flag_set_scenario, flag_set_automatic by done.
  cbv zeta.
  assert (Hneg : negb (flags <? 0) = (0 <=? flags)) by (rewrite Z.leb_antisym; done).
  rewrite Hneg.
  assert (Hwin : (if 0 <=? flags
                  then window_close_construction_windows (Game.live game)
                  else Game.live game)
                 = (if flags <? 0 then Game.live game
                    else window_close_construction_windows (Game.live game))).
  { rewrite <- Hneg. by destruct (flags <? 0). }
  rewrite Hwin.
  assert (Hexp : S6Exporter.mk true
                   (S6Exporter.ExportObjectsList
                      (if Z.odd flags
                       then S6Exporter.mk (S6Exporter.RemoveTracklessRides S6Exporter_new)
                              (GetPackableObjects
                                 (viewport_set_saved_view
                                    (map_reorganise_elements
                                       (if flags <? 0 then Game.live game
                                        else window_close_construction_windows
                                               (Game.live game)))))
                              (S6Exporter._s6 S6Exporter_new)
                       else S6Exporter_new))
                   (S6Exporter._s6
                      (if Z.odd flags
                       then S6Exporter.mk (S6Exporter.RemoveTracklessRides S6Exporter_new)
                              (GetPackableObjects
                                 (viewport_set_saved_view
                                    (map_reorganise_elements
                                       (if flags <? 0 then Game.live game
                                        else window_close_construction_windows
                                               (Game.live game)))))
                              (S6Exporter._s6 S6Exporter_new)
                       else S6Exporter_new))
                 = S6Exporter.mk true
                     (if Z.odd flags
                      then GetPackableObjects
                             (viewport_set_saved_view
                                (map_reorganise_elements
                                   (if flags <? 0 then Game.live game
                                    else window_close_construction_windows
                                           (Game.live game))))
                      else [])
                     rct_s6_data_zero).
  { by destruct (Z.odd flags). }
  rewrite Hexp.
  destruct (Export _ _) as [[[s6exporter live] log]|message]; [|done].
  unfold SaveScenario_path, SaveGame_path, SaveScenario, SaveGame.
  destruct (Z.testbit flags 1); destruct (FileStream_new path); reflexivity.
Qed.


(** X18: what [scenario_save] writes when the file opens.  The record
    saved is the gather of the prepared and repaired park into a cleared
    record, with the trackless rides always removed before the two other
    fix-up passes; the exporter carries the packable objects exactly when
    [flags] is odd, so they are written exactly when [flags] is odd and
    their number is not a multiple of 65536; the header has the scenario
    type exactly when bit 1 of [flags] is set. *)
Theorem scenario_save_file (path : Path) (flags : Z) (game : Game.t) (fs : IStream) :
  - 2 ^ 31 <= flags < 2 ^ 31 ->
  check_for_spatial_index_cycles (gSprites (prepared flags (Game.live game))) = -1 ->
  check_for_sprite_list_cycles (gSprites (prepared flags (Game.live game))) = -1 ->
  FileStream_new path = Some fs ->
  let park := prepared flags (Game.live game) in
  let s6 :=
    game_convert_strings_to_rct2
      (scenario_fix_ghosts
         (scenario_remove_trackless_rides
            (Export_gather (repaired park) rct_s6_data_zero))) in
  let exported :=
    S6Exporter.mk true (if Z.odd flags then GetPackableObjects park else []) s6 in
  exists saved written stream events,
    scenario_save path flags game = Completed saved
    /\ Saved.result saved = true
    /\ Saved.file saved = Some stream
    /\ Save exported fs (Z.testbit flags 1) = Some (written, stream, events)
    /\ rct_s6_header.type (rct_s6_data.header (S6Exporter._s6 written))
       = (if Z.testbit flags 1 then S6_TYPE_SCENARIO else S6_TYPE_SAVEDGAME)
    /\ (WrotePackedObjects ∈ events <->
        Z.odd flags = true
        /\ Z.of_nat (length (GetPackableObjects park)) mod 2 ^ 16 <> 0).
Proof.
  intros Hflags Hspatial Hregular Hopen park s6 exported.
  rewrite scenario_save_unfolded by done.
  rewrite Export_completed by done. cbv zeta. rewrite Hopen.
  cbn [S6Exporter.RemoveTracklessRides S6Exporter.ExportObjectsList S6Exporter._s6
       save_exporter].
  unfold Export_fixups.
  cbn [S6Exporter.RemoveTracklessRides S6Exporter.ExportObjectsList S6Exporter._s6
       save_exporter].
  fold park. fold s6. fold exported.
  destruct (Save_file exported fs (Z.testbit flags 1)) as (stream & HSave & _).
  rewrite HSave.
  do 4 eexists. split; [reflexivity|].
  cbn [Saved.result Saved.file S6Exporter._s6].
  split; [done|]. split; [done|]. split; [done|]. split; [apply Save_header_type|].
  rewrite Save_chunks_events, Save_header_num_packed_objects. unfold uint16.
  cbn [S6Exporter.ExportObjectsList exported].
  set (objects := if Z.odd flags then GetPackableObjects park else []).
  pose proof (Z.mod_pos_bound (Z.of_nat (length objects)) (2 ^ 16) ltac:(lia))
    as Hrange.
  assert (Hobjects : Z.of_nat (length objects) mod 2 ^ 16 <> 0
                     <-> Z.odd flags = true
                         /\ Z.of_nat (length (GetPackableObjects park)) mod 2 ^ 16 <> 0).
  { subst objects. destruct (Z.odd flags); [tauto|]. simpl. split; [done|].
    intros [Hfalse _]. discriminate. }
  rewrite <- Hobjects.
  destruct (Z.ltb_spec 0 (Z.of_nat (length objects) mod 2 ^ 16)) as [Hpos|Hzero].
  - split; [lia|]. intros _. unfold head_events.
    rewrite !elem_of_app, !elem_of_cons. auto 10.
  - split; [|lia]. intros Hin. exfalso. revert Hin.
    destruct (_ =? S6_TYPE_SCENARIO);
      apply (bool_decide_unpack _); vm_compute; reflexivity.
Qed.

End MoreScenarioSave.

(** ** More on the loan hash and on Save *)

Lemma ror32_ror32_back (h : Z) :
  0 <= h < 2 ^ 32 -> ror32 (ror32 h 29) 3 = h.
Proof.
  intros Hh. apply Z.bits_inj'. intros i Hi.
  pose proof (ror32_range h 29 Hh ltac:(lia)) as Hr.
  rewrite ror32_testbit by lia.
  destruct (Z.ltb_spec i (32 - 3)) as [Hlo|Hhi].
  - rewrite ror32_testbit by lia.
    destruct (Z.ltb_spec (i + 3) (32 - 29)) as [|_]; [lia|].
    destruct (Z.ltb_spec (i + 3) 32) as [_|]; [|lia]. f_equal. lia.
  - destruct (Z.ltb_spec i 32) as [Hlt|Hge].
    + rewrite ror32_testbit by lia.
      destruct (Z.ltb_spec (i - (32 - 3)) (32 - 29)) as [_|]; [|lia]. f_equal. lia.
    + symmetry. apply Z.bits_above_log2; [lia|].
      destruct (Z.eq_dec h 0) as [-> |]; [simpl; lia|].
      assert (Z.log2 h < 32) by (apply Z.log2_lt_pow2; lia). lia.
Qed.

Section MoreLoanHash.
Context `{!LegacyConstants} `{!Collaborators}.

(** X19: the loan hash does not tie the initial cash and the loan down
    on its own: whatever these two are, every 32-bit value is the hash
    for exactly one loan ceiling.  A change of cash or loan can thus be
    matched by one ceiling that leaves the stored hash valid. *)
Theorem GetLoanHash_any_hash (initialCash bankLoan hash : Z) :
  0 <= hash < 2 ^ 32 ->
  exists maxBankLoan,
    0 <= maxBankLoan < 2 ^ 32
    /\ GetLoanHash initialCash bankLoan maxBankLoan = hash
    /\ (forall maxBankLoan',
          0 <= maxBankLoan' < 2 ^ 32 ->
          GetLoanHash initialCash bankLoan maxBankLoan' = hash ->
          maxBankLoan' = maxBankLoan).
Proof.
  intros Hhash.
  set (word := ror32 (uint32 (ror32 (uint32 (0x70093A - initialCash)) 5 - bankLoan)) 7).
  exists (uint32 (ror32 hash 29 - word)).
  pose proof (ror32_range hash 29 Hhash ltac:(lia)) as Hrot.
  assert (Hsum : uint32 (word + uint32 (ror32 hash 29 - word)) = ror32 hash 29).
  { unfold uint32. rewrite Zplus_mod_idemp_r.
    replace (word + (ror32 hash 29 - word)) with (ror32 hash 29) by lia.
    apply Z.mod_small. lia. }
  split; [apply uint32_range|]. split.
  - rewrite GetLoanHash_words. unfold loan_hash_words. cbv zeta. fold word.
    rewrite Hsum. by apply ror32_ror32_back.
  - intros maxBankLoan' Hrange Hsame.
    rewrite GetLoanHash_words in Hsame. unfold loan_hash_words in Hsame.
    cbv zeta in Hsame. fold word in Hsame.
    rewrite <- (ror32_ror32_back hash Hhash) in Hsame.
    apply ror32_inj in Hsame; [|apply uint32_range|lia|lia].
    rewrite <- Hsame. unfold uint32.
    rewrite Zminus_mod_idemp_l.
    replace (word + maxBankLoan' - word) with maxBankLoan' by lia.
    symmetry. apply Z.mod_small. lia.
Qed.

(** X20: [Save] writes the header and the version stamp anew each time,
    so an exporter that has saved can save again: the second file is the
    one the exporter would have written had it not saved before, whether
    the first was a scenario or a saved game. *)
Theorem Save_again (e : S6Exporter) (stream1 stream2 : IStream)
    (isScenario1 isScenario2 : bool) :
  exists e1 written1 events1,
    Save e stream1 isScenario1 = Some (e1, written1, events1)
    /\ Save e1 stream2 isScenario2 = Save e stream2 isScenario2.
Proof.
  destruct (Save_file e stream1 isScenario1) as (written1 & HSave & _).
  do 3 eexists. split; [exact HSave|].
  set (e1 := S6Exporter.mk _ _ _).
  assert (Hheader : Save_header e1 isScenario2 = Save_header e isScenario2).
  { subst e1. unfold Save_header. cbn [S6Exporter._s6 S6Exporter.ExportObjectsList].
    by destruct (S6Exporter._s6 e). }
  unfold Save. cbv zeta. rewrite Hheader.
  assert (Hchunks : forall s6, Save_chunks e1 s6 stream2 = Save_chunks e s6 stream2)
    by (intros s6; reflexivity).
  rewrite Hchunks.
  destruct (IStream.ReadArray _ _) as [[data stream]|]; reflexivity.
Qed.

End MoreLoanHash.

(** ** The further properties on concrete parks *)

Lemma three_measured_rides_owners (i : nat) (m : RideMeasurement) :
  Ride.measurement (get_ride three_measured_rides i) = Some m ->
  RideMeasurement.ride m = i.
Proof.
  unfold three_measured_rides, get_ride.
  destruct (i <? 3)%nat; simpl; [|discriminate].
  intros [= <-]. reflexivity.
Qed.

Lemma ExportRideMeasurements_all_fit_witness :
  RCT12RideMeasurement.ride_index
    <$> take 3 (rct_s6_data.ride_measurements
                  (@ExportRideMeasurements rct2_constants sample_collaborators
                     three_measured_rides (@rct_s6_data_zero rct2_constants)))
  = [0; 1; 2].
Proof.
  destruct (@ExportRideMeasurements_all_fit rct2_constants sample_collaborators
              three_measured_rides (@rct_s6_data_zero rct2_constants))
    as (Htable & _).
  - vm_compute. lia.
  - vm_compute. lia.
  - intros i m _. apply three_measured_rides_owners.
  - vm_compute. lia.
  - rewrite Htable. vm_compute. reflexivity.
Defined.

Lemma measurement_index_after_export_witness :
  rct2_ride.measurement_index
    <$> rct_s6_data.rides nine_measured_rides_exported !! 0%nat
  = Some 0
  /\ rct2_ride.measurement_index
       <$> rct_s6_data.rides nine_measured_rides_exported !! 8%nat
     = Some 0.
Proof.
  destruct (@measurement_index_after_export rct2_constants sample_collaborators
              nine_measured_rides (@rct_s6_data_zero rct2_constants))
    as (Hslots & Hrest).
  - right. apply (bool_decide_unpack _). vm_compute. reflexivity.
  - vm_compute. lia.
  - intros i m _. apply nine_measured_rides_owners.
  - vm_compute. lia.
  - vm_compute. lia.
  - split.
    + apply (Hrest 0%nat); [vm_compute; lia|].
      apply (bool_decide_unpack _). vm_compute. reflexivity.
    + apply (Hslots 0%nat (measurement_of 8 9)). vm_compute. reflexivity.
Defined.

Lemma ExportRides_overwrites_witness :
  @ExportRides rct2_constants sample_collaborators three_measured_rides
    (@ExportRides rct2_constants sample_collaborators nine_measured_rides
       (@rct_s6_data_zero rct2_constants))
  = @ExportRides rct2_constants sample_collaborators three_measured_rides
      (@rct_s6_data_zero rct2_constants).
Proof.
  destruct (@ExportRides_overwrites rct2_constants sample_collaborators
              three_measured_rides nine_measured_rides
              (@rct_s6_data_zero rct2_constants))
    as (_ & _ & Hagain).
  - vm_compute. reflexivity.
  - exact Hagain.
Defined.

Lemma ExportPeepSpawns_first_slots_witness :
  @ExportPeepSpawns rct2_constants sample_collaborators three_peep_spawns
    (@rct_s6_data_zero rct2_constants)
  = @ExportPeepSpawns rct2_constants sample_collaborators four_peep_spawns
      (@rct_s6_data_zero rct2_constants).
Proof.
  destruct (@ExportPeepSpawns_first_slots rct2_constants sample_collaborators
              three_peep_spawns four_peep_spawns (@rct_s6_data_zero rct2_constants))
    as (Hsame & _).
  - vm_compute. lia.
  - vm_compute. reflexivity.
  - exact Hsame.
Defined.

Lemma ExportPeepSpawns_in_range_witness :
  exists spawn,
    rct_s6_data.peep_spawns
      (@ExportPeepSpawns rct2_constants sample_collaborators three_measured_rides
         (@rct_s6_data_zero rct2_constants)) !! 0%nat = Some spawn
    /\ rct12_peep_spawn.x spawn = 1000
    /\ rct12_peep_spawn.y spawn = 96
    /\ 16 * rct12_peep_spawn.z spawn <= 47 < 16 * rct12_peep_spawn.z spawn + 16
    /\ rct12_peep_spawn.direction spawn = 1.
Proof.
  apply (@ExportPeepSpawns_in_range rct2_constants sample_collaborators
           three_measured_rides (@rct_s6_data_zero rct2_constants) 0%nat
           (CoordsXYZD.mk 1000 96 47 1)).
  - vm_compute. lia.
  - vm_compute. lia.
  - reflexivity.
  - vm_compute. split; [discriminate|reflexivity].
  - vm_compute. split; [discriminate|reflexivity].
  - vm_compute. split; [discriminate|reflexivity].
Defined.

Lemma ExportParkEntrances_slots_witness :
  rct_s6_data.park_entrance_x
    (@ExportParkEntrances rct2_constants sample_collaborators three_measured_rides
       (@rct_s6_data_zero rct2_constants)) !! 0%nat = Some 1600
  /\ rct_s6_data.park_entrance_z
       (@ExportParkEntrances rct2_constants sample_collaborators three_measured_rides
          (@rct_s6_data_zero rct2_constants)) !! 0%nat = Some 112.
Proof.
  destruct (@ExportParkEntrances_slots rct2_constants sample_collaborators
              three_measured_rides (@rct_s6_data_zero rct2_constants) 0%nat)
    as (Hset & _).
  1-5: vm_compute; lia.
  destruct (Hset (CoordsXYZD.mk 1600 32 112 2)) as (Hx & _ & Hz & _).
  - reflexivity.
  - vm_compute. split; [discriminate|reflexivity].
  - vm_compute. split; [discriminate|reflexivity].
  - vm_compute. split; [discriminate|reflexivity].
  - split; [exact Hx|exact Hz].
Defined.

Lemma ExportRide_station_tile_witness :
  exists xy,
    rct2_ride.exits
      (@ExportRide rct2_constants sample_collaborators (sample_ride 0 0 0 0 0 None))
      !! 0%nat = Some xy
    /\ Z.land xy 255 = 3 /\ Z.shiftr xy 8 = 2.
Proof.
  destruct (@ExportRide_station_tile rct2_constants sample_collaborators
              (sample_ride 0 0 0 0 0 None) 0%nat) as (_ & Hexit).
  - vm_compute. lia.
  - destruct Hexit as (xy & Hxy & _ & Hlow & Hhigh & _); [reflexivity|].
    exists xy. split; [exact Hxy|]. split; [exact Hlow|exact Hhigh].
Defined.

Lemma Save_packed_objects_witness :
  exists e' stream' events,
    @Save rct2_constants sample_collaborators
      (S6Exporter.mk false (replicate (256 * 256) 0%nat) (@rct_s6_data_zero rct2_constants))
      (IStream.mk [9; 9] 2) false
    = Some (e', stream', events)
    /\ (WrotePackedObjects ∉ events)
    /\ (let chunks :=
          [9; 9] ++ mjoin (@event_bytes sample_collaborators (S6Exporter._s6 e')
                             <$> events) in
        IStream.data stream'
        = chunks
          ++ IStream.uint32_bytes
               (@sawyercoding_calculate_checksum sample_collaborators chunks)).
Proof.
  destruct (@Save_packed_objects rct2_constants sample_collaborators
              (S6Exporter.mk false (replicate (256 * 256) 0%nat)
                 (@rct_s6_data_zero rct2_constants))
              (IStream.mk [9; 9] 2) false (fmap Z.of_nat))
    as (e' & stream' & events & HSave & Hin & _ & Hchunks).
  - intros stream objects. reflexivity.
  - reflexivity.
  - assert (Hcount : Z.of_nat (length (replicate (256 * 256) 0%nat)) mod 2 ^ 16 = 0)
      by (rewrite length_replicate; vm_compute; reflexivity).
    exists e', stream', events. split; [exact HSave|]. split.
    + intros Hhas. apply Hin in Hhas. apply Hhas. exact Hcount.
    + apply Hchunks. exact Hcount.
Defined.


Lemma ExportMarketingCampaigns_last_wins_witness :
  rct_s6_campaigns.campaign_weeks_left
    (@ExportMarketingCampaigns marketing_constants sample_campaigns sample_s6_campaigns)
  = [0; 134; 0; 0; 130; 0; 0; 0; 0; 0; 0; 0; 0; 0; 0; 0; 0; 0; 0; 0]
  /\ rct_s6_campaigns.campaign_ride_index
       (@ExportMarketingCampaigns marketing_constants sample_campaigns
          sample_s6_campaigns) !! 1%nat
     = Some 9.
Proof.
  destruct (@ExportMarketingCampaigns_last_wins marketing_constants sample_campaigns
              sample_s6_campaigns) as (Hweeks & Hrides).
  - apply (bool_decide_unpack _). vm_compute. reflexivity.
  - split.
    + rewrite Hweeks. vm_compute. reflexivity.
    + rewrite Hrides. vm_compute. reflexivity.
Defined.

Lemma weeks_left_zero_iff_no_campaign_witness :
  exists weeks,
    rct_s6_campaigns.campaign_weeks_left
      (@ExportMarketingCampaigns marketing_constants sample_campaigns
         sample_s6_campaigns) !! 2%nat = Some weeks
    /\ (weeks = 0 <->
        forall c, c ∈ sample_campaigns -> MarketingCampaign.Type_ c <> 2)
    /\ (weeks <> 0 -> Z.land weeks 128 = 128).
Proof.
  apply (@weeks_left_zero_iff_no_campaign marketing_constants sample_campaigns
           sample_s6_campaigns 2).
  - vm_compute. split; reflexivity.
  - apply (bool_decide_unpack _). vm_compute. reflexivity.
  - vm_compute. discriminate.
  - vm_compute. lia.
Defined.

Lemma researched_track_pieces_halves_witness :
  let pieces :=
    researched_track_pieces [2 ^ 32 * 5 + 3; 7] (replicate 128 11) (replicate 128 21) in
  (exists low high,
     pieces.1 !! 0%nat = Some low /\ pieces.2 !! 0%nat = Some high
     /\ 0 <= low < 2 ^ 32 /\ 0 <= high < 2 ^ 32
     /\ low + 2 ^ 32 * high = 2 ^ 32 * 5 + 3)
  /\ pieces.1 !! 2%nat = Some 11.
Proof.
  destruct (researched_track_pieces_halves [2 ^ 32 * 5 + 3; 7] (replicate 128 11)
              (replicate 128 21)) as (_ & _ & Hin & Hout).
  - vm_compute. reflexivity.
  - vm_compute. reflexivity.
  - vm_compute. lia.
  - apply (bool_decide_unpack _). vm_compute. reflexivity.
  - split.
    + apply (Hin 0%nat). reflexivity.
    + destruct (Hout 2%nat) as [HA _]; [vm_compute; lia|]. rewrite HA. reflexivity.
Defined.

Lemma same_price_throughout_halves_witness :
  same_price_throughout (2 ^ 33 + 9)
  + 2 ^ 32 * same_price_throughout_extended (2 ^ 33 + 9)
  = 2 ^ 33 + 9.
Proof.
  destruct (same_price_throughout_halves (2 ^ 33 + 9)) as (_ & _ & Hsum).
  - vm_compute. split; [discriminate|reflexivity].
  - exact Hsum.
Defined.

Lemma ExportSprite_warnings_witness :
  (@ExportSprite sprite_constants (sprite_of 2 77 2)).2
  = [MiscSpriteTypeCanNotBeExported 77]
  /\ (@ExportSprite sprite_constants (sprite_of 9 0 3)).2
     = [SpriteIdentifierCanNotBeExported 9]
  /\ (@ExportSprite sprite_constants (sprite_of 2 8 1)).2 = [].
Proof.
  assert (Hdistinct : NoDup [@SPRITE_IDENTIFIER_NULL sprite_constants;
                             @SPRITE_IDENTIFIER_VEHICLE sprite_constants;
                             @SPRITE_IDENTIFIER_PEEP sprite_constants;
                             @SPRITE_IDENTIFIER_MISC sprite_constants;
                             @SPRITE_IDENTIFIER_LITTER sprite_constants])
    by (apply (bool_decide_unpack _); vm_compute; reflexivity).
  destruct (@ExportSprite_warnings sprite_constants (sprite_of 2 77 2) Hdistinct)
    as [H1 _].
  destruct (@ExportSprite_warnings sprite_constants (sprite_of 9 0 3) Hdistinct)
    as [H2 _].
  destruct (@ExportSprite_warnings sprite_constants (sprite_of 2 8 1) Hdistinct)
    as [H3 _].
  rewrite H1, H2, H3. vm_compute. repeat split.
Defined.

Lemma ExportSprites_table_witness :
  (@ExportSprites sprite_constants sample_sprite_collaborators sample_pool
     (rct_s6_sprites.mk
        (replicate (100 * 100) (@ExportSprite sprite_constants rct_sprite_zero).1)
        (replicate 6 0) (replicate 6 0))).1.1
  = sample_pool.
Proof.
  rewrite (@ExportSprites_table sprite_constants sample_sprite_collaborators).
  - reflexivity.
  - apply Nat.leb_le. vm_compute. reflexivity.
  - vm_compute. lia.
  - vm_compute. lia.
Defined.


Lemma scenario_save_file_witness :
  exists saved stream,
    @scenario_save rct2_constants sample_collaborators sample_save_collaborators
      4 3 (Game.mk three_measured_rides 50)
    = Completed saved
    /\ Saved.file saved = Some stream
    /\ Saved.result saved = true.
Proof.
  destruct (@scenario_save_file rct2_constants sample_collaborators
              sample_save_collaborators 4 3 (Game.mk three_measured_rides 50)
              (IStream.mk [] 0))
    as (saved & written & stream & events & Hsave & Hresult & Hfile & _).
  - vm_compute. split; [discriminate|reflexivity].
  - reflexivity.
  - reflexivity.
  - reflexivity.
  - exists saved, stream. split; [exact Hsave|]. split; [exact Hfile|exact Hresult].
Defined.

Lemma GetLoanHash_any_hash_witness :
  exists maxBankLoan,
    0 <= maxBankLoan < 2 ^ 32
    /\ GetLoanHash 100000 150000 maxBankLoan = 12345.
Proof.
  destruct (GetLoanHash_any_hash 100000 150000 12345) as (c & Hc & Hhash & _).
  - vm_compute. split; [discriminate|reflexivity].
  - exists c. split; [exact Hc|exact Hhash].
Defined.
